(** * The build-and-submit pipeline of the Blueshift sample agent

    A shallow embedding of the workspace builder ([createAnchorProgram],
    [src/anchorBuilder.ts]), the submission client (class
    [BlueshiftClient]), the signer (class [SolanaWallet],
    [src/solana.ts]), the agent's tools and its configuration
    ([loadConfig], [src/tools.ts]), and the properties the specification
    states about them.  The first part holds the definitions, the second
    the proofs.

    Conventions of the embedding.
    - A JavaScript string is a [string] whose characters are read as code
      units below 256 (the Latin-1 range); [toLowerCase] and [trim] are
      the ECMAScript operations restricted to that range.  The slug of a
      client submission, which reaches [encodeURIComponent] before anything
      else is looked at, is taken in full, as a sequence of UTF-16 code
      units ([Js.ustring]).
    - A thrown exception is the [Throw] case of [completion].
    - Everything the program takes from its runtime and its libraries
      (the file system's content, the [anchor] toolchain, the network,
      [JSON], [bs58], [Keypair], the validation of [zod]) is either an
      explicit argument or a [Variable] of the section that uses it.
    - Paths are POSIX paths; [path.join], [path.resolve], [path.dirname]
      and [path.relative] are those of Node, normalisation included.  A
      path of the disk holds a file, a directory, or a file that cannot
      be opened. *)

From Stdlib Require Import NArith Ascii String List Lia Bool.
From Stdlib Require Import Strings.Byte.
From stdpp Require Import gmap strings list pretty.

(** ** Completions: a value or a thrown exception *)

(** Where an exception was raised.  The program only ever builds [Error]
    objects with a message, the origin tells its own from its libraries'. *)
Inductive origin :=
  | Own          (* thrown by a [throw new Error(...)] of the program *)
  | Library.     (* raised inside a runtime or library call *)

(** An [Error] object.  [execFile] rejects with an error that also carries
    what the child wrote ([stdout], [stderr]); on any other error these
    two properties are undefined. *)
Record exn := Exn {
  exn_origin : origin;
  exn_message : string;
  exn_stdout : option string;
  exn_stderr : option string
}.

Definition error (o : origin) (msg : string) : exn := Exn o msg None None.

(** [x ?? d] on an optional string. *)
Definition nullish (x : option string) (d : string) : string :=
  match x with Some s => s | None => d end.

Inductive completion (A : Type) :=
  | Return (a : A)
  | Throw (e : exn).
Arguments Return {A} a.
Arguments Throw {A} e.

Definition is_return {A} (c : completion A) : bool :=
  match c with Return _ => true | Throw _ => false end.

(** ** Effects: a state monad with exceptions

    [eff S A] is a computation on a state of type [S] that returns an [A]
    or throws; the state it leaves behind is kept in both cases. *)
Definition eff (S A : Type) : Type := S -> completion A * S.

Definition ret {S A} (a : A) : eff S A := fun s => (Return a, s).
Definition throw {S A} (e : exn) : eff S A := fun s => (Throw e, s).
Definition bind {S A B} (m : eff S A) (k : A -> eff S B) : eff S B :=
  fun s => match m s with
           | (Return a, s') => k a s'
           | (Throw e, s') => (Throw e, s')
           end.
(** [try { m } catch (e) { h e }] *)
Definition try_catch {S A} (m : eff S A) (h : exn -> eff S A) : eff S A :=
  fun s => match m s with
           | (Return a, s') => (Return a, s')
           | (Throw e, s') => h e s'
           end.

Notation "'let*' x := m 'in' k" := (bind m (fun x => k))
  (at level 10, x name, m at level 100, k at level 200).
Notation "'let*' ' x := m 'in' k" := (bind m (fun x => k))
  (at level 10, x strict pattern, m at level 100, k at level 200).
Notation "m ;;; k" := (bind m (fun _ => k))
  (at level 100, k at level 200, right associativity).

(** What a call into a library or the runtime gives back: a value, or a
    failure with the message of the exception it raises. *)
Inductive lib_result (A : Type) :=
  | Ok (a : A)
  | Fails (message : string).
Arguments Ok {A} a.
Arguments Fails {A} message.

Definition lift {A} (r : lib_result A) : completion A :=
  match r with
  | Ok a => Return a
  | Fails m => Throw (error Library m)
  end.

(** ** JavaScript strings over Latin-1 code units *)
Module Js.

Definition code (c : ascii) : N := N_of_ascii c.

Definition in_range (lo hi : N) (c : ascii) : bool :=
  (lo <=? code c)%N && (code c <=? hi)%N.

Definition is_lower (c : ascii) : bool := in_range 97 122 c.
Definition is_upper (c : ascii) : bool := in_range 65 90 c.
Definition is_digit (c : ascii) : bool := in_range 48 57 c.

(** WhiteSpace and LineTerminator code points below 256: TAB, LF, VT, FF,
    CR, SP and NBSP. *)
Definition is_white_space (c : ascii) : bool :=
  in_range 9 13 c || (code c =? 32)%N || (code c =? 160)%N.

(** Upper-case letters below 256 are A-Z and U+00C0-U+00DE without the
    multiplication sign U+00D7; each has its lower case 32 above. *)
Definition has_lower_case (c : ascii) : bool :=
  is_upper c || (in_range 192 222 c && negb (code c =? 215)%N).

Definition lower_char (c : ascii) : ascii :=
  if has_lower_case c then ascii_of_N (code c + 32) else c.

(** [String.prototype.toLowerCase] *)
Fixpoint toLowerCase (s : string) : string :=
  match s with
  | EmptyString => EmptyString
  | String c r => String (lower_char c) (toLowerCase r)
  end.

(** Remove the longest prefix of characters satisfying [p]. *)
Fixpoint drop_start (p : ascii -> bool) (s : string) : string :=
  match s with
  | EmptyString => EmptyString
  | String c r => if p c then drop_start p r else s
  end.

Definition is_empty (s : string) : bool :=
  match s with EmptyString => true | String _ _ => false end.

(** Remove the longest suffix of characters satisfying [p]. *)
Fixpoint drop_end (p : ascii -> bool) (s : string) : string :=
  match s with
  | EmptyString => EmptyString
  | String c r =>
      let r' := drop_end p r in
      if p c && is_empty r' then EmptyString else String c r'
  end.

(** [String.prototype.trim] *)
Definition trim (s : string) : string :=
  drop_end is_white_space (drop_start is_white_space s).

(** [s.replace(/[^K]+/g, sep)] for a character class [K] given as [keep]:
    every maximal run of characters outside the class becomes one [sep].
    [in_run] tells that the previous character was outside the class. *)
Fixpoint replace_runs (keep : ascii -> bool) (sep : ascii) (in_run : bool)
    (s : string) : string :=
  match s with
  | EmptyString => EmptyString
  | String c r =>
      if keep c then String c (replace_runs keep sep false r)
      else if in_run then replace_runs keep sep true r
      else String sep (replace_runs keep sep true r)
  end.

(** [s.replace(/c/g, d)] for single characters [c] and [d]. *)
Fixpoint replace_char (c d : ascii) (s : string) : string :=
  match s with
  | EmptyString => EmptyString
  | String x r => String (if Ascii.eqb x c then d else x) (replace_char c d r)
  end.

Fixpoint all_chars (p : ascii -> bool) (s : string) : bool :=
  match s with
  | EmptyString => true
  | String c r => p c && all_chars p r
  end.

(** [s.slice(0, n)] for [0 <= n]. *)
Fixpoint slice0 (n : nat) (s : string) : string :=
  match n, s with
  | S n', String c r => String c (slice0 n' r)
  | _, _ => EmptyString
  end.

Definition byte_of_N (n : N) : byte :=
  match Byte.of_N n with Some b => b | None => x00 end.

(** [s.includes(needle)] *)
Fixpoint includes (needle s : string) : bool :=
  String.prefix needle s ||
  match s with
  | EmptyString => false
  | String _ r => includes needle r
  end.

(** *** Strings in full

    A JavaScript string is a sequence of UTF-16 code units.  [units]
    embeds the strings of code units below 256.  A string is well formed
    when every surrogate code unit is part of a pair, a high surrogate
    (U+D800-U+DBFF) followed by a low one (U+DC00-U+DFFF). *)
Definition ustring := list N.

Definition units (s : string) : ustring :=
  map code (String.list_ascii_of_string s).

Definition is_high_surrogate (u : N) : bool := (55296 <=? u)%N && (u <=? 56319)%N.
Definition is_low_surrogate (u : N) : bool := (56320 <=? u)%N && (u <=? 57343)%N.

Fixpoint well_formed (u : ustring) : bool :=
  match u with
  | [] => true
  | a :: r =>
      if is_high_surrogate a then
        match r with
        | b :: r' => is_low_surrogate b && well_formed r'
        | [] => false
        end
      else negb (is_low_surrogate a) && well_formed r
  end.

End Js.

(** ** [Buffer.prototype.toString("base64")]: RFC 4648 with padding *)
Module Base64.

Definition alphabet : string :=
  "ABCDEFGHIJKLMNOPQRSTUVWXYZabcdefghijklmnopqrstuvwxyz0123456789+/".

Definition sextet (n : N) : ascii :=
  match String.get (N.to_nat (n mod 64)) alphabet with
  | Some c => c
  | None => "="%char
  end.

Fixpoint encode (bs : list byte) : string :=
  match bs with
  | [] => ""
  | [a] =>
      let n := (Byte.to_N a * 16)%N in
      String (sextet (n / 64)) (String (sextet n) "==")
  | [a; b] =>
      let n := ((Byte.to_N a * 256 + Byte.to_N b) * 4)%N in
      String (sextet (n / 4096)) (String (sextet (n / 64)) (String (sextet n) "="))
  | a :: b :: c :: r =>
      let n := (Byte.to_N a * 65536 + Byte.to_N b * 256 + Byte.to_N c)%N in
      String (sextet (n / 262144)) (String (sextet (n / 4096))
        (String (sextet (n / 64)) (String (sextet n) (encode r))))
  end.

End Base64.

(** ** Workspace builder: [src/anchorBuilder.ts] *)
Module AnchorBuilder.
Import Js.

Definition is_underscore (c : ascii) : bool := Ascii.eqb c "_"%char.

(** The class [[a-z0-9_]] of the first regular expression. *)
Definition is_slug_char (c : ascii) : bool :=
  is_lower c || is_digit c || is_underscore c.

Definition default_slug : string := "anchor_program".

(** [sanitizeProgramName]: [name.trim().toLowerCase()
    .replace(/[^a-z0-9_]+/g, "_").replace(/^_+|_+$/g, "")], and the
    default when that is empty. *)
Definition cleaned (name : string) : string :=
  let s := toLowerCase (trim name) in
  let s := replace_runs is_slug_char "_" false s in
  drop_end is_underscore (drop_start is_underscore s).

Definition sanitizeProgramName (name : string) : string :=
  let c := cleaned name in
  if is_empty c then default_slug else c.

(** [toKebabCase] *)
Definition toKebabCase (name : string) : string :=
  replace_char "_" "-" (sanitizeProgramName name).

(** The derivation of the slug in the specification's words, and the one
    the code performs, for comparison with [sanitizeProgramName]. *)

(** The derivation in the specification's words: lower case, every run
    of non-alphanumeric characters collapsed into one separator, leading
    and trailing separators trimmed, the default when nothing is left. *)
Definition is_alnum (c : ascii) : bool := is_lower c || is_upper c || is_digit c.

Definition spec_slug (name : string) : string :=
  let s := replace_runs is_alnum "_" false (toLowerCase name) in
  let s := drop_end is_underscore (drop_start is_underscore s) in
  if is_empty s then default_slug else s.

(** The derivation the code performs, without its redundant first step
    ([trim]): the runs that collapse are those of characters other than
    [a-z], [0-9] and the underscore, so underscores of the name survive
    one by one. *)
Definition strip_underscores (s : string) : string :=
  drop_end is_underscore (drop_start is_underscore s).

Definition code_slug (name : string) : string :=
  let s := strip_underscores (replace_runs is_slug_char "_" false (toLowerCase name)) in
  if is_empty s then default_slug else s.

(** The first two steps of the derivation the code performs: lower case,
    then the runs replaced. *)
Definition runs_replaced (in_run : bool) (s : string) : string :=
  replace_runs is_slug_char "_" in_run (toLowerCase s).

Definition starts_clean (p : ascii -> bool) (s : string) : Prop :=
  match s with EmptyString => True | String c _ => p c = false end.

(** Names as words and what separates them, to state the derivation
    without the functions that implement it.  A symbol is a character
    that is, once lower-cased, outside [[a-z0-9_]]; a word is made of the
    other characters and starts and ends with a letter or a digit. *)
Definition is_symbol (c : ascii) : bool := negb (is_slug_char (lower_char c)).

Fixpoint last_char (s : string) : option ascii :=
  match s with
  | EmptyString => None
  | String c EmptyString => Some c
  | String _ r => last_char r
  end.

Definition first_char (s : string) : option ascii :=
  match s with EmptyString => None | String c _ => Some c end.

Definition alnum_edge (o : option ascii) : bool :=
  match o with Some c => is_alnum c | None => false end.

Definition is_word (w : string) : bool :=
  all_chars (fun c => negb (is_symbol c)) w
  && alnum_edge (first_char w) && alnum_edge (last_char w).

(** A run of symbols between two words. *)
Definition is_run (r : string) : bool := negb (is_empty r) && all_chars is_symbol r.

(** [first], then each run followed by its word. *)
Fixpoint weave (first : string) (more : list (string * string)) : string :=
  match more with
  | [] => first
  | (run, word) :: r => first +:+ run +:+ weave word r
  end.

(** The words in lower case with one underscore between neighbours. *)
Fixpoint underscored (first : string) (more : list (string * string)) : string :=
  match more with
  | [] => toLowerCase first
  | (_, word) :: r => toLowerCase first +:+ "_" +:+ underscored word r
  end.

(** *** Paths: [node:path] on POSIX *)

Definition is_slash (c : ascii) : bool := Ascii.eqb c "/"%char.

(** [p.split("/")] *)
Fixpoint split (p : string) : list string :=
  match p with
  | EmptyString => [EmptyString]
  | String c r =>
      if is_slash c then EmptyString :: split r
      else match split r with
           | first :: rest => String c first :: rest
           | [] => [String c EmptyString]
           end
  end.

(** One segment of [normalizeString].  [kept] holds the segments kept so
    far, the last one first: an empty segment and [.] are skipped, [..]
    removes the last segment kept unless that is a [..] itself or there
    is none, in which case it is kept when the path is relative and
    skipped when it is absolute. *)
Definition normalize_step (allowAboveRoot : bool) (kept : list string) (segment : string)
    : list string :=
  if is_empty segment || String.eqb segment "." then kept
  else if String.eqb segment ".." then
    match kept with
    | last :: before =>
        if String.eqb last ".." then (if allowAboveRoot then segment :: kept else kept)
        else before
    | [] => if allowAboveRoot then [segment] else []
    end
  else segment :: kept.

Definition kept_segments (allowAboveRoot : bool) (p : string) : list string :=
  fold_left (normalize_step allowAboveRoot) (split p) [].

Definition normalizeString (p : string) (allowAboveRoot : bool) : string :=
  String.concat "/" (rev (kept_segments allowAboveRoot p)).

Definition isAbsolute (p : string) : bool :=
  match p with String c _ => is_slash c | EmptyString => false end.

Fixpoint ends_with_slash (p : string) : bool :=
  match p with
  | EmptyString => false
  | String c EmptyString => is_slash c
  | String _ r => ends_with_slash r
  end.

(** [path.normalize] *)
Definition normalize (p : string) : string :=
  if is_empty p then "."
  else
    let body := normalizeString p (negb (isAbsolute p)) in
    if is_empty body then
      (if isAbsolute p then "/" else if ends_with_slash p then "./" else ".")
    else
      (if isAbsolute p then "/" else "") +:+ body
      +:+ (if ends_with_slash p then "/" else "").

Definition nonempty (s : string) : bool := negb (is_empty s).

(** [path.join]: the non-empty arguments joined by a slash, normalised. *)
Definition path_join (segments : list string) : string :=
  match List.filter nonempty segments with
  | [] => "."
  | parts => normalize (String.concat "/" parts)
  end.

(** The loop of [path.resolve], from the last argument to the first and
    then to the working directory, until the path is absolute. *)
Fixpoint resolve_from (reversed : list string) (cwd resolved : string) : string * bool :=
  match reversed with
  | [] =>
      if is_empty cwd then (resolved, false)
      else (cwd +:+ "/" +:+ resolved, isAbsolute cwd)
  | p :: r =>
      if is_empty p then resolve_from r cwd resolved
      else if isAbsolute p then (p +:+ "/" +:+ resolved, true)
      else resolve_from r cwd (p +:+ "/" +:+ resolved)
  end.

(** [path.resolve(...paths)] in a process whose working directory is
    [cwd]. *)
Definition path_resolve (cwd : string) (paths : list string) : string :=
  let '(p, absolute) := resolve_from (rev paths) cwd "" in
  let body := normalizeString p (negb absolute) in
  if absolute then "/" +:+ body
  else if is_empty body then "." else body.

Fixpoint remove_last (s : string) : string :=
  match s with
  | EmptyString => EmptyString
  | String c EmptyString => EmptyString
  | String c r => String c (remove_last r)
  end.

(** [path.dirname]: trailing slashes and the last component are dropped,
    then the slash before it. *)
Definition dirname (p : string) : string :=
  if is_empty p then "."
  else
    match drop_end (fun c => negb (is_slash c)) (drop_end is_slash p) with
    | EmptyString => if isAbsolute p then "/" else "."
    | upto =>
        let dir := remove_last upto in
        if is_empty dir then "/"
        else if String.eqb dir "/" then "//"
        else dir
    end.

(** The segments of a resolved path. *)
Definition segments (p : string) : list string := List.filter nonempty (split p).

Fixpoint relative_segments (from to : list string) : list string :=
  match from, to with
  | a :: from', b :: to' =>
      if String.eqb a b then relative_segments from' to'
      else map (fun _ => "..") from ++ to
  | _, _ => map (fun _ => "..") from ++ to
  end.

(** [path.relative(from, to)]: both paths are resolved, their common
    leading segments are dropped, and what is left of [from] is climbed
    with one [..] per segment. *)
Definition path_relative (cwd from to : string) : string :=
  String.concat "/"
    (relative_segments (segments (path_resolve cwd [from]))
                       (segments (path_resolve cwd [to]))).

(** *** Paths that need no normalisation *)

Definition no_slash (s : string) : bool := all_chars (fun c => negb (is_slash c)) s.

(** A segment that [path.normalize] keeps as it is: not empty, not [.],
    not [..] and without a slash. *)
Definition plain (s : string) : bool :=
  nonempty s && negb (String.eqb s ".") && negb (String.eqb s "..") && no_slash s.

Definition all_plain (l : list string) : bool := forallb plain l.

(** The absolute path with the segments [l]. *)
Definition rooted (l : list string) : string := "/" +:+ String.concat "/" l.

(** Every segment followed by a slash. *)
Fixpoint lead (l : list string) : string :=
  match l with
  | [] => EmptyString
  | s :: r => s +:+ "/" +:+ lead r
  end.

(** What [path.join] puts before a plain last segment: the normalised
    directory and a slash. *)
Definition stem (p : string) : string :=
  (if isAbsolute p then "/" else "")
  +:+ lead (rev (kept_segments (negb (isAbsolute p)) p)).

(** *** Time stamps *)

Definition digit36 (d : N) : ascii :=
  if (d <? 10)%N then ascii_of_N (48 + d) else ascii_of_N (87 + d).

Fixpoint toString36_go (fuel : nat) (n : N) (acc : string) : string :=
  match fuel with
  | O => acc
  | S f =>
      let acc' := String (digit36 (n mod 36)) acc in
      if (n <? 36)%N then acc' else toString36_go f (n / 36) acc'
  end.

(** [Number.prototype.toString(36)] on a non-negative integer. *)
Definition toString36 (n : N) : string :=
  toString36_go (S (N.size_nat n)) n "".

(** [Buffer.from(s, "utf8")] for code units below 256. *)
Fixpoint utf8 (s : string) : list byte :=
  match s with
  | EmptyString => []
  | String c r =>
      if (code c <? 128)%N then byte_of_N (code c) :: utf8 r
      else byte_of_N (192 + code c / 64) :: byte_of_N (128 + code c mod 64) :: utf8 r
  end.

(** What the process reads from its environment during one build. *)
Record Env := {
  cwd : string;     (* process.cwd() *)
  now : N;          (* Date.now() *)
  uuid : string     (* randomUUID() *)
}.

(** The segments of the working directory. *)
Definition cwd_segments (env : Env) : list string :=
  rev (kept_segments false (cwd env)).

(** *** The file system *)

(** What is at a path: a regular file the process can read and write, a
    directory, or a file whose mode grants the process no access, so
    that opening it fails with [EACCES]. *)
Inductive node :=
  | File (data : list byte)
  | Dir
  | Locked.

(** The file system: absolute path to node. *)
Abbreviation disk := (gmap string node).

(** The builder's effects act on the disk. *)
Abbreviation M := (eff disk).

Definition existsSync (p : string) : M bool :=
  fun d => (Return (bool_decide (is_Some (d !! p))), d).

Definition quoted (p : string) : string := "'" +:+ p +:+ "'".

Definition readFile (p : string) : M (list byte) :=
  fun d => match d !! p with
           | Some (File data) => (Return data, d)
           | Some Dir =>
               (Throw (error Library "EISDIR: illegal operation on a directory, read"), d)
           | Some Locked =>
               (Throw (error Library ("EACCES: permission denied, open " +:+ quoted p)), d)
           | None =>
               (Throw (error Library ("ENOENT: no such file or directory, open "
                                      +:+ quoted p)), d)
           end.

(** [writeFile(p, content, "utf8")]: the parent must be a directory and
    [p] itself a file the process may open, or nothing. *)
Definition writeFile (p content : string) : M unit :=
  fun d => match d !! dirname p, d !! p with
           | Some Dir, Some Dir =>
               (Throw (error Library ("EISDIR: illegal operation on a directory, open "
                                      +:+ quoted p)), d)
           | Some Dir, Some Locked =>
               (Throw (error Library ("EACCES: permission denied, open " +:+ quoted p)), d)
           | Some Dir, _ => (Return tt, <[p := File (utf8 content)]> d)
           | Some _, _ =>
               (Throw (error Library ("ENOTDIR: not a directory, open " +:+ quoted p)), d)
           | None, _ =>
               (Throw (error Library ("ENOENT: no such file or directory, open "
                                      +:+ quoted p)), d)
           end.

(** The directories [mkdir(p, { recursive: true })] creates, from [p]
    upwards; [None] when something that is not a directory is in the
    way. *)
Fixpoint mkdir_go (fuel : nat) (p : string) (d : disk) : option disk :=
  match d !! p with
  | Some Dir => Some d
  | Some _ => None
  | None =>
      match fuel with
      | O => Some (<[p := Dir]> d)
      | S f =>
          if String.eqb (dirname p) p || String.eqb (dirname p) "." then Some (<[p := Dir]> d)
          else match mkdir_go f (dirname p) d with
               | Some d' => Some (<[p := Dir]> d')
               | None => None
               end
      end
  end.

(** [mkdir(p, { recursive: true })] *)
Definition mkdir_recursive (p : string) : M unit :=
  fun d => match d !! p with
           | Some Dir => (Return tt, d)
           | Some _ =>
               (Throw (error Library ("EEXIST: file already exists, mkdir " +:+ quoted p)), d)
           | None =>
               match mkdir_go (String.length p) p d with
               | Some d' => (Return tt, d')
               | None =>
                   (Throw (error Library ("ENOTDIR: not a directory, mkdir " +:+ quoted p)), d)
               end
           end.

(** *** The build *)

Record CreateAnchorProgramOptions := {
  programName : string;
  cargoToml : string;
  libRs : string
}.

Record AnchorBuildResult := {
  success : bool;
  stdout : string;
  stderr : string;
  programSoPath : option string;
  programSoBase64 : option string;
  keypairPath : option string;
  errorMessage : option string
}.

Record CreatedAnchorProgram := {
  workspaceDir : string;
  files : list (string * string);   (* { path, content } *)
  build : option AnchorBuildResult
}.

(** How a child process ended, as [execFile]'s promise tells it: resolved
    with the output on exit status 0, rejected otherwise (non-zero status,
    signal, or the program could not be started). *)
Inductive exec_result :=
  | Resolved (out err : string)
  | Rejected (e : exn).

Definition newline : string := String (ascii_of_N 10) "".

(** [`${programDirName}-${Date.now().toString(36)}-${randomUUID().slice(0, 8)}`] *)
Definition workspace_slug (programDirName : string) (env : Env) : string :=
  programDirName +:+ "-" +:+ toString36 (now env) +:+ "-" +:+ slice0 8 (uuid env).

(** [path.resolve(process.cwd(), path.join("artifacts", "anchor"))] *)
Definition outputRoot (env : Env) : string :=
  path_resolve (cwd env) [cwd env; path_join ["artifacts"; "anchor"]].

Section Toolchain.

(** The external [anchor] command: arguments, working directory and the
    disk before; how it ended and the disk after. *)
Variable anchor : list string -> string -> disk -> exec_result * disk.

(** [await execFileAsync("anchor", args, { cwd, env })] *)
Definition execFileAsync (args : list string) (dir : string) : M (string * string) :=
  fun d => match anchor args dir d with
           | (Resolved out err, d') => (Return (out, err), d')
           | (Rejected e, d') => (Throw e, d')
           end.

Definition read_base64_if (present : bool) (p : string) : M (option string) :=
  if present then
    let* soBytes := readFile p in ret (Some (Base64.encode soBytes))
  else ret None.

(** The first half of [createAnchorProgram], up to the comment
    [// Build the program]: create the output root, scaffold with
    [anchor init], overwrite [lib.rs] and [Cargo.toml].  It hands on the
    workspace directory, the slug and the files written. *)
Definition scaffold (options : CreateAnchorProgramOptions) (env : Env)
    : M (string * string * list (string * string)) :=
  let programDirName := toKebabCase (programName options) in
  let crateName := sanitizeProgramName (programName options) in
  let outputRoot := outputRoot env in
  let* root_exists := existsSync outputRoot in
  (if root_exists then ret tt else mkdir_recursive outputRoot) ;;;
  let slug := workspace_slug programDirName env in
  let workspaceDir := path_join [outputRoot; slug] in
  try_catch (execFileAsync ["init"; slug] outputRoot)
    (fun execError =>
       throw (error Own ("Failed to scaffold Anchor project: " +:+ exn_message execError
                         +:+ newline +:+ nullish (exn_stderr execError) ""))) ;;;
  let programDir := path_join [workspaceDir; "programs"; slug] in
  let srcDir := path_join [programDir; "src"] in
  let libRsPath := path_join [srcDir; "lib.rs"] in
  writeFile libRsPath (libRs options) ;;;
  let files := [(path_relative (cwd env) workspaceDir libRsPath, libRs options)] in
  let programCargoPath := path_join [programDir; "Cargo.toml"] in
  writeFile programCargoPath (cargoToml options) ;;;
  let files :=
    files ++ [(path_relative (cwd env) workspaceDir programCargoPath, cargoToml options)] in
  ret (workspaceDir, slug, files).

Definition soPath (workspaceDir slug : string) : string :=
  path_join [workspaceDir; "target"; "deploy"; slug +:+ ".so"].

Definition keypairJsonPath (workspaceDir slug : string) : string :=
  path_join [workspaceDir; "target"; "deploy"; slug +:+ "-keypair.json"].

(** The second half, the [try]/[catch] around [anchor build]. *)
Definition run_build (workspaceDir slug : string) : M AnchorBuildResult :=
  try_catch
    (let* '(stdout, stderr) := execFileAsync ["build"] workspaceDir in
     let programSoPath := soPath workspaceDir slug in
     let keypairPath := keypairJsonPath workspaceDir slug in
     let* hasSo := existsSync programSoPath in
     let* hasKeypair := existsSync keypairPath in
     let* programSoBase64 := read_base64_if hasSo programSoPath in
     ret {| success := true;
            stdout := stdout;
            stderr := stderr;
            programSoPath := if hasSo then Some programSoPath else None;
            programSoBase64 := programSoBase64;
            keypairPath := if hasKeypair then Some keypairPath else None;
            errorMessage := None |})
    (fun execError =>
     let programSoPath := soPath workspaceDir slug in
     let* hasSo := existsSync programSoPath in
     let* programSoBase64 := read_base64_if hasSo programSoPath in
     ret {| success := false;
            stdout := nullish (exn_stdout execError) "";
            stderr := nullish (exn_stderr execError) "";
            errorMessage := Some (exn_message execError);
            programSoPath := if hasSo then Some programSoPath else None;
            programSoBase64 := programSoBase64;
            keypairPath := None |}).

Definition createAnchorProgram (options : CreateAnchorProgramOptions) (env : Env)
    : M CreatedAnchorProgram :=
  let* '(workspaceDir, slug, files) := scaffold options env in
  let* build := run_build workspaceDir slug in
  ret {| workspaceDir := workspaceDir; files := files; build := Some build |}.

End Toolchain.

(** *** A toolchain to run the model on

    [anchor init] creates the skeleton's directories and its two source
    files; [anchor build] writes the binary [so] and a key pair file into
    [target/deploy] and then ends as [outcome] says (a link or post-build
    step may fail after the binary is written).  The toolchain is given
    clean absolute directories and puts its files where the
    specification's interface says, [<dir>/target/deploy/<name>.so] and
    [<dir>/target/deploy/<name>-keypair.json]. *)
Definition basename (p : string) : string := default "" (last (split p)).

Definition mkdirs (paths : list string) (d : disk) : disk :=
  foldr (fun p acc => <[p := Dir]> acc) d paths.

Definition sample_anchor (so key : list byte) (outcome : exec_result)
    (args : list string) (dir : string) (d : disk) : exec_result * disk :=
  match args with
  | ["init"; slug] =>
      let ws := dir +:+ "/" +:+ slug in
      let prog := ws +:+ "/programs/" +:+ slug in
      (Resolved "" "",
       <[prog +:+ "/Cargo.toml" := File []]>
         (<[prog +:+ "/src/lib.rs" := File []]>
            (mkdirs [ws; ws +:+ "/programs"; prog; prog +:+ "/src"] d)))
  | ["build"] =>
      let artifact := dir +:+ "/target/deploy/" +:+ basename dir in
      (outcome,
       <[artifact +:+ "-keypair.json" := File key]> (<[artifact +:+ ".so" := File so]> d))
  | _ => (Rejected (Exn Library "unknown command" (Some "") (Some "")), d)
  end.

Definition sample_options : CreateAnchorProgramOptions :=
  {| programName := "My Program!!";
     cargoToml := "[package]";
     libRs := "use anchor_lang::prelude::*;" |}.

Definition sample_env : Env :=
  {| cwd := "/home/agent"; now := 1700000000000;
     uuid := "3f2a9c1e-7b4d-4e6f-8a1b-2c3d4e5f6a7b" |}.

Definition sample_so : list byte := [x7f; x45; x4c; x46; xff].
Definition sample_key : list byte := [x5b; x31; x5d].

Definition build_failure : exec_result :=
  Rejected (Exn Library "Command failed: anchor build" (Some "")
              (Some "error: post-build step failed")).

Definition failing_anchor := sample_anchor sample_so sample_key build_failure.

(** A toolchain whose failed build leaves the binary behind without any
    permission on it (mode 000). *)
Definition locked_anchor (args : list string) (dir : string) (d : disk)
    : exec_result * disk :=
  match args with
  | ["build"] =>
      (build_failure, <[dir +:+ "/target/deploy/" +:+ basename dir +:+ ".so" := Locked]> d)
  | _ => sample_anchor [] [] build_failure args dir d
  end.

(** *** The sample build *)

Definition sample_slug : string := "my-program-loyw3v28-3f2a9c1e".
Definition sample_ws : string := "/home/agent/artifacts/anchor/my-program-loyw3v28-3f2a9c1e".
Definition sample_files : list (string * string) :=
  [("programs/my-program-loyw3v28-3f2a9c1e/src/lib.rs", "use anchor_lang::prelude::*;");
   ("programs/my-program-loyw3v28-3f2a9c1e/Cargo.toml", "[package]")].
Definition sample_program_dir : string :=
  "/home/agent/artifacts/anchor/my-program-loyw3v28-3f2a9c1e/programs/my-program-loyw3v28-3f2a9c1e".
Definition sample_artifact : string :=
  "/home/agent/artifacts/anchor/my-program-loyw3v28-3f2a9c1e/target/deploy/my-program-loyw3v28-3f2a9c1e.so".
Definition sample_keypair_file : string :=
  "/home/agent/artifacts/anchor/my-program-loyw3v28-3f2a9c1e/target/deploy/my-program-loyw3v28-3f2a9c1e-keypair.json".

(** The disk once the workspace is scaffolded and the two sources are
    written, and the disk the failed build leaves. *)
Definition sample_scaffolded : disk :=
  list_to_map
    [("/", Dir); ("/home", Dir); ("/home/agent", Dir); ("/home/agent/artifacts", Dir);
     ("/home/agent/artifacts/anchor", Dir);
     (sample_ws, Dir);
     (sample_ws +:+ "/programs", Dir);
     (sample_program_dir, Dir);
     (sample_program_dir +:+ "/src", Dir);
     (sample_program_dir +:+ "/src/lib.rs",
      File (String.list_byte_of_string "use anchor_lang::prelude::*;"));
     (sample_program_dir +:+ "/Cargo.toml", File (String.list_byte_of_string "[package]"))].
Definition sample_built : disk :=
  <[sample_keypair_file := File sample_key]> (<[sample_artifact := File sample_so]> sample_scaffolded).
Definition sample_error : exn :=
  Exn Library "Command failed: anchor build" (Some "") (Some "error: post-build step failed").

End AnchorBuilder.

(** ** The libraries the signer and the client call

    [bs58], the key pairs and versioned transactions of
    [@solana/web3.js].  Their code is not part of the program; the
    program's behaviour is stated for every implementation. *)
Class Libraries := {
  bs58_decode : string -> lib_result (list byte);
  Keypair : Type;
  Keypair_fromSecretKey : list byte -> lib_result Keypair;
  publicKey_toBase58 : Keypair -> string;
  VersionedTransaction : Type;
  (* [transaction.sign(signers)]: the transaction with the signatures
     filled in, or the exception it raises *)
  transaction_sign : VersionedTransaction -> list Keypair -> lib_result VersionedTransaction;
  transaction_serialize : VersionedTransaction -> lib_result (list byte)
}.

(** ** Signer: [src/solana.ts] *)
Module Wallet.

Section Signer.

Context `{Libraries}.

Record SolanaWallet := { keypair : Keypair }.

Definition invalid_key_material : exn :=
  error Own "SOLANA_PRIVATE_KEY must be a base58 encoded 64-byte secret key".

(** [new SolanaWallet(secretKeyBase58)] *)
Definition new_SolanaWallet (secretKeyBase58 : string) : completion SolanaWallet :=
  match bs58_decode secretKeyBase58 with
  | Fails m => Throw (error Library m)
  | Ok secretKeyBytes =>
      if negb (length secretKeyBytes =? 64)%nat then Throw invalid_key_material
      else match Keypair_fromSecretKey secretKeyBytes with
           | Fails m => Throw (error Library m)
           | Ok k => Return {| keypair := k |}
           end
  end.

(** [get address()] *)
Definition address (w : SolanaWallet) : string := publicKey_toBase58 (keypair w).

(** Transactions are objects: a caller holds a reference into a heap of
    them, and signing updates the object in place. *)
Abbreviation heap := (gmap nat VersionedTransaction).

Definition deref (l : nat) : eff heap VersionedTransaction :=
  fun h => match h !! l with
           | Some t => (Return t, h)
           | None => (Throw (error Library "TypeError: dangling reference"), h)
           end.

(** [signVersionedTransaction]: [transaction.sign([this.keypair]); return transaction] *)
Definition signVersionedTransaction (w : SolanaWallet) (transaction : nat) : eff heap nat :=
  let* t := deref transaction in
  fun h => match transaction_sign t [keypair w] with
           | Ok t' => (Return transaction, <[transaction := t']> h)
           | Fails m => (Throw (error Library m), h)
           end.

(** [signAndEncodeTransaction] *)
Definition signAndEncodeTransaction (w : SolanaWallet) (transaction : nat) : eff heap string :=
  let* signed := signVersionedTransaction w transaction in
  let* t := deref signed in
  fun h => match transaction_serialize t with
           | Ok bytes => (Return (Base64.encode bytes), h)
           | Fails m => (Throw (error Library m), h)
           end.

End Signer.

End Wallet.

(** ** JSON values *)
Unset Elimination Schemes.
Inductive json (number : Type) :=
  | JNull
  | JBool (b : bool)
  | JNumber (n : number)
  | JString (s : string)
  | JArray (items : list (json number))
  | JObject (fields : list (string * json number)).
Set Elimination Schemes.
Arguments JNull {number}.
Arguments JBool {number} b.
Arguments JNumber {number} n.
Arguments JString {number} s.
Arguments JArray {number} items.
Arguments JObject {number} fields.

(** What the client takes from the JavaScript runtime.  An object that
    [JSON_parse] returns lists each key once.  [URI_component] is what
    [encodeURIComponent] returns for a well-formed string. *)
Class Runtime := {
  number : Type;
  Number_toString : number -> string;          (* String(n) *)
  JSON_parse : string -> lib_result (json number);
  JSON_stringify : json number -> string;
  URI_component : Js.ustring -> string
}.

(** [encodeURIComponent(s)] for a string in full: a lone surrogate makes
    it throw a [URIError], whose message is ["URI malformed"]. *)
Definition encodeURIComponent_js `{Runtime} (s : Js.ustring) : lib_result string :=
  if Js.well_formed s then Ok (URI_component s) else Fails "URI malformed".

(** [encodeURIComponent(s)] for a string of code units below 256, which
    holds no surrogate. *)
Definition encodeURIComponent `{Runtime} (s : string) : string :=
  URI_component (Js.units s).

(** ** Submission client: class [BlueshiftClient] *)
Module BlueshiftClient.
Import Js Wallet.

Inductive js_type := TObject | TBoolean | TNumber | TString | TUndefined.

Definition js_type_eqb (a b : js_type) : bool :=
  match a, b with
  | TObject, TObject | TBoolean, TBoolean | TNumber, TNumber
  | TString, TString | TUndefined, TUndefined => true
  | _, _ => false
  end.

Record Response := {
  status : N;
  statusText : string;
  contentType : option string;    (* headers.get("content-type") *)
  bodyText : string               (* what text() resolves to *)
}.

Record Request := {
  url : string;
  method : string;
  headers : list (string * string);
  request_body : option string
}.

(** [res.ok] *)
Definition response_ok (res : Response) : bool :=
  (200 <=? status res)%N && (status res <=? 299)%N.

(** [s.replace(/\/$/, "")] *)
Fixpoint drop_last_slash (s : string) : string :=
  match s with
  | EmptyString => EmptyString
  | String c EmptyString => if Ascii.eqb c "/" then EmptyString else s
  | String c r => String c (drop_last_slash r)
  end.

Section Client.

Context `{Libraries} `{Runtime}.

Abbreviation value := (json number).

(** The remote service: the response to a request, or a network failure. *)
Variable server : Request -> lib_result Response.

(** The client's state: the heap of transaction objects and the requests
    sent so far. *)
Record World := {
  transactions : gmap nat VersionedTransaction;
  sent : list Request
}.

Record Client := {
  baseUrl : string;
  wallet : SolanaWallet
}.

Record ClientSubmissionResponse := {
  ok : bool;
  result_status : N;
  body : value
}.

Definition endpoint (c : Client) (pathname : string) : string :=
  drop_last_slash (baseUrl c) +:+ pathname.

(** [await fetch(url, init)] *)
Definition fetch (req : Request) : eff World Response :=
  fun w => (lift (server req),
            {| transactions := transactions w; sent := sent w ++ [req] |}).

(** A wallet operation run on the world's heap. *)
Definition in_wallet {A} (m : eff (gmap nat VersionedTransaction) A) : eff World A :=
  fun w => let '(r, h) := m (transactions w) in
           (r, {| transactions := h; sent := sent w |}).

Fixpoint assoc (k : string) (fields : list (string * value)) : option value :=
  match fields with
  | [] => None
  | (k', v) :: r => if String.eqb k' k then Some v else assoc k r
  end.

(** [candidate.k]; [None] is [undefined]. *)
Definition get (k : string) (v : value) : option value :=
  match v with
  | JObject fields => assoc k fields
  | _ => None
  end.

Definition typeof (v : value) : js_type :=
  match v with
  | JNull | JArray _ | JObject _ => TObject
  | JBool _ => TBoolean
  | JNumber _ => TNumber
  | JString _ => TString
  end.

Definition typeof_property (o : option value) : js_type :=
  match o with Some v => typeof v | None => TUndefined end.

Definition is_null (v : value) : bool :=
  match v with JNull => true | _ => false end.

Definition Array_isArray (o : option value) : bool :=
  match o with Some (JArray _) => true | _ => false end.

(** [!payload || typeof payload !== "object"]: of the falsy values only
    [null] has type ["object"]. *)
Definition not_an_object (payload : value) : bool :=
  is_null payload || negb (js_type_eqb (typeof payload) TObject).

Definition isClientSubmissionSuccess (payload : value) : bool :=
  if not_an_object payload then false
  else js_type_eqb (typeof_property (get "success" payload)) TBoolean
       && Array_isArray (get "results" payload).

Definition isClientSubmissionError (payload : value) : bool :=
  if not_an_object payload then false
  else js_type_eqb (typeof_property (get "error" payload)) TString
       && js_type_eqb (typeof_property (get "message" payload)) TString.

Definition error_envelope (code message : string) : value :=
  JObject [("error", JString code); ("message", JString message)].

(** [parseJsonSafe] *)
Definition parseJsonSafe (response : Response) : value :=
  let contentType := nullish (contentType response) "" in
  if negb (includes "application/json" contentType) then
    error_envelope "Invalid response" (bodyText response)
  else
    match JSON_parse (bodyText response) with
    | Ok v => v
    | Fails message => error_envelope "Invalid JSON" message
    end.

(** [typeof payload === "object" ? JSON.stringify(payload) : String(payload)] *)
Definition stringified (payload : value) : string :=
  match payload with
  | JNull | JArray _ | JObject _ => JSON_stringify payload
  | JBool true => "true"
  | JBool false => "false"
  | JNumber n => Number_toString n
  | JString s => s
  end.

(** The end of [submitClientChallenge], from the decoded payload on. *)
Definition classify (response : Response) (payload : value) : ClientSubmissionResponse :=
  if response_ok response && isClientSubmissionSuccess payload then
    {| ok := true; result_status := status response; body := payload |}
  else
    let errorBody :=
      if isClientSubmissionError payload then payload
      else error_envelope "Invalid response" (stringified payload) in
    {| ok := false; result_status := status response; body := errorBody |}.

Definition missing_payload : exn :=
  error Own "Client submission requires either a pre-signed transactionBase64 or a VersionedTransaction instance".

(** [resolveTransactionBase64]: an absent and an empty string are both
    falsy, an absent transaction is falsy, a transaction object is not. *)
Definition resolveTransactionBase64 (c : Client)
    (transactionBase64 : option string) (transaction : option nat) : eff World string :=
  match transactionBase64 with
  | Some (String a r) => ret (String a r)
  | _ =>
      match transaction with
      | None => throw missing_payload
      | Some t => in_wallet (signAndEncodeTransaction (wallet c) t)
      end
  end.

(** The request [fetch] is given, from the target on. *)
Definition post_json (target : string) (c : Client) (serialized : string) : Request :=
  {| url := target;
     method := "POST";
     headers := [("Content-Type", "application/json")];
     request_body :=
       Some (JSON_stringify (JObject [("transaction", JString serialized);
                                      ("address", JString (address (wallet c)))])) |}.

(** The target and the request of a submission whose slug is well
    formed. *)
Definition submission_target (c : Client) (slug : ustring) : string :=
  endpoint c ("/v1/challenges/client/" +:+ URI_component slug).

Definition submission_request (c : Client) (slug : ustring) (serialized : string) : Request :=
  post_json (submission_target c slug) c serialized.

(** [submitClientChallenge].  The target is computed first, as in the
    source: [encodeURIComponent(slug)] is evaluated, and may throw,
    before the payload is looked at. *)
Definition submitClientChallenge (c : Client) (slug : ustring)
    (transactionBase64 : option string) (transaction : option nat)
    : eff World ClientSubmissionResponse :=
  let* encoded := (fun w => (lift (encodeURIComponent_js slug), w)) in
  let target := endpoint c ("/v1/challenges/client/" +:+ encoded) in
  let* serializedTransactionBase64 := resolveTransactionBase64 c transactionBase64 transaction in
  let* response := fetch (post_json target c serializedTransactionBase64) in
  let payload := parseJsonSafe response in
  ret (classify response payload).

Definition progress_request (c : Client) (address : string) : Request :=
  {| url := endpoint c ("/v1/agents/" +:+ encodeURIComponent address +:+ "/progress");
     method := "GET";
     headers := [];
     request_body := None |}.

Definition no_progress : value :=
  JObject [("agent", JNull); ("challenges", JArray [])].

(** [getProgress(address = this.wallet.address)] *)
Definition getProgress (c : Client) (address : option string) : eff World value :=
  let address := match address with Some a => a | None => Wallet.address (wallet c) end in
  let* res := fetch (progress_request c address) in
  if (status res =? 404)%N then ret no_progress
  else if negb (response_ok res) then
    throw (error Own ("Failed to fetch agent progress: " +:+ pretty (status res)
                      +:+ " " +:+ statusText res))
  else fun w => (lift (JSON_parse (bodyText res)), w).

Definition after_request (w : World) (req : Request) : World :=
  {| transactions := transactions w; sent := sent w ++ [req] |}.

End Client.

End BlueshiftClient.

(** ** A reference [bs58.decode] *)
Module Bs58.

Definition alphabet : string :=
  "123456789ABCDEFGHJKLMNPQRSTUVWXYZabcdefghijkmnopqrstuvwxyz".

Fixpoint index_of (c : ascii) (s : string) : option N :=
  match s with
  | EmptyString => None
  | String x r => if Ascii.eqb x c then Some 0%N else N.succ <$> index_of c r
  end.

Fixpoint digits_value (acc : N) (s : string) : option N :=
  match s with
  | EmptyString => Some acc
  | String c r =>
      match index_of c alphabet with
      | Some d => digits_value (acc * 58 + d) r
      | None => None
      end
  end.

Fixpoint leading_ones (s : string) : nat :=
  match s with
  | String "1" r => S (leading_ones r)
  | _ => O
  end.

Fixpoint big_endian (fuel : nat) (n : N) (acc : list byte) : list byte :=
  match fuel with
  | O => acc
  | S f => if (n =? 0)%N then acc
           else big_endian f (n / 256) (Js.byte_of_N (n mod 256) :: acc)
  end.

Definition decode (s : string) : lib_result (list byte) :=
  match digits_value 0 s with
  | None => Fails "Non-base58 character"
  | Some n => Ok (repeat x00 (leading_ones s) ++ big_endian (N.size_nat n) n [])
  end.

Fixpoint digits58 (fuel : nat) (n : N) (acc : string) : string :=
  match fuel with
  | O => acc
  | S f =>
      if (n =? 0)%N then acc
      else digits58 f (n / 58)
             (String (default "1"%char (String.get (N.to_nat (n mod 58)) alphabet)) acc)
  end.

Fixpoint leading_zeros (bs : list byte) : nat :=
  match bs with
  | x00 :: r => S (leading_zeros r)
  | _ => O
  end.

Definition bytes_value (bs : list byte) : N :=
  fold_left (fun acc b => (acc * 256 + Byte.to_N b)%N) bs 0%N.

Definition encode (bs : list byte) : string :=
  let n := bytes_value bs in
  String.concat "" (repeat "1" (leading_zeros bs)) +:+ digits58 (N.size_nat n) n "".

End Bs58.

(** ** Libraries to run the model on *)
Module SampleLibraries.

(** The Ed25519 public key of the all-zero 32-byte seed. *)
Definition zero_seed_public_key : list byte :=
  [x3b; x6a; x27; xbc; xce; xb6; xa4; x2d; x62; xa3; xa8; xd0; x2a; x6f; x0d; x73;
   x65; x32; x15; x77; x1d; xe2; x43; xa6; x3a; xc0; x48; xa1; x8b; x59; xda; x29].

Record sample_keypair := { kp_public : list byte; kp_secret : list byte }.

(** A transaction of the sample library: the message bytes and whether
    the signature slot is filled. *)
Record sample_transaction := { tx_message : list byte; tx_signed : bool }.

Definition same_bytes (a b : list byte) : bool :=
  bool_decide (Byte.to_N <$> a = Byte.to_N <$> b).

(** [Keypair.fromSecretKey] as [@solana/web3.js] has it: the public key
    is recomputed from the first 32 bytes ([derive]) and the key is
    rejected when the last 32 bytes are not that public key. *)
Definition checked_fromSecretKey (derive : list byte -> list byte) (bytes : list byte)
    : lib_result sample_keypair :=
  if negb (length bytes =? 64)%nat then Fails "bad secret key size"
  else if same_bytes (derive (take 32 bytes)) (drop 32 bytes)
       then Ok {| kp_public := drop 32 bytes; kp_secret := bytes |}
       else Fails "provided secretKey is invalid".

Definition sample_libraries (derive : list byte -> list byte) : Libraries := {|
  bs58_decode := Bs58.decode;
  Keypair := sample_keypair;
  Keypair_fromSecretKey := checked_fromSecretKey derive;
  publicKey_toBase58 := fun k => Bs58.encode (kp_public k);
  VersionedTransaction := sample_transaction;
  transaction_sign := fun t _ => Ok {| tx_message := tx_message t; tx_signed := true |};
  transaction_serialize := fun t => Ok ((if tx_signed t then x01 else x00) :: tx_message t)
|}.

(** Key derivation for the one seed the examples use, the all-zero one. *)
Definition zero_seed_only : list byte -> list byte := fun _ => zero_seed_public_key.

Definition libs : Libraries := sample_libraries zero_seed_only.

(** 64 zero bytes, and the all-zero seed followed by its public key. *)
Definition all_zero_base58 : string :=
  Eval vm_compute in Bs58.encode (repeat x00 64).
Definition valid_secret : list byte := repeat x00 32 ++ zero_seed_public_key.
Definition valid_secret_base58 : string :=
  Eval vm_compute in Bs58.encode valid_secret.

End SampleLibraries.

(** ** A runtime to run the client on

    Numbers are integers printed in decimal, [JSON.stringify] is the
    compact printer, and [JSON.parse] knows the documents of a fixed
    list, each by its printed text. *)
Module SampleRuntime.
Import Js.

Definition dq : ascii := ascii_of_N 34.

Definition hex_digit (upper : bool) (d : N) : ascii :=
  if (d <? 10)%N then ascii_of_N (48 + d)
  else ascii_of_N ((if upper then 55 else 87) + d).

Definition escape_char (c : ascii) : string :=
  let n := code c in
  if (n =? 34)%N then "\" +:+ String dq ""
  else if (n =? 92)%N then "\\"
  else if (n =? 8)%N then "\b"
  else if (n =? 12)%N then "\f"
  else if (n =? 10)%N then "\n"
  else if (n =? 13)%N then "\r"
  else if (n =? 9)%N then "\t"
  else if (n <? 32)%N then
    "\u00" +:+ String (hex_digit false (n / 16)) (String (hex_digit false (n mod 16)) "")
  else String c "".

Fixpoint escape (s : string) : string :=
  match s with
  | EmptyString => EmptyString
  | String c r => escape_char c +:+ escape r
  end.

Definition quote (s : string) : string :=
  String dq (escape s) +:+ String dq "".

Fixpoint print (v : json Z) : string :=
  match v with
  | JNull => "null"
  | JBool true => "true"
  | JBool false => "false"
  | JNumber n => pretty n
  | JString s => quote s
  | JArray items => "[" +:+ String.concat "," (map print items) +:+ "]"
  | JObject fields =>
      "{" +:+ String.concat ","
                (map (fun kv => let '(k, x) := kv in quote k +:+ ":" +:+ print x) fields)
          +:+ "}"
  end.

Definition is_unreserved (c : ascii) : bool :=
  is_lower c || is_upper c || is_digit c || includes (String c "") "-_.!~*'()".

Definition percent (b : byte) : string :=
  let n := Byte.to_N b in
  String "%" (String (hex_digit true (n / 16)) (String (hex_digit true (n mod 16)) "")).

(** The code points of a well-formed string. *)
Fixpoint code_points (u : ustring) : list N :=
  match u with
  | [] => []
  | a :: r =>
      if is_high_surrogate a then
        match r with
        | b :: r' => (65536 + (a - 55296) * 1024 + (b - 56320))%N :: code_points r'
        | [] => [a]
        end
      else a :: code_points r
  end.

(** UTF-8 of one code point. *)
Definition utf8_point (p : N) : list byte :=
  if (p <? 128)%N then [byte_of_N p]
  else if (p <? 2048)%N then [byte_of_N (192 + p / 64); byte_of_N (128 + p mod 64)]
  else if (p <? 65536)%N then
    [byte_of_N (224 + p / 4096); byte_of_N (128 + (p / 64) mod 64); byte_of_N (128 + p mod 64)]
  else
    [byte_of_N (240 + p / 262144); byte_of_N (128 + (p / 4096) mod 64);
     byte_of_N (128 + (p / 64) mod 64); byte_of_N (128 + p mod 64)].

Definition encode_point (p : N) : string :=
  if (p <? 128)%N && is_unreserved (ascii_of_N p) then String (ascii_of_N p) ""
  else String.concat "" (map percent (utf8_point p)).

Definition encode_component (u : ustring) : string :=
  String.concat "" (map encode_point (code_points u)).

Definition run_result (passed : bool) : json Z :=
  JObject [("success", JBool passed);
           ("results", JArray [JObject [("success", JBool passed);
                                        ("instruction", JString "transfer");
                                        ("compute_units_consumed", JNumber 150%Z);
                                        ("execution_time", JNumber 3%Z);
                                        ("program_logs", JArray [])]])].

Definition not_found : json Z :=
  JObject [("error", JString "NotFound"); ("message", JString "no such challenge")].

Definition progress : json Z :=
  JObject [("agent", JObject [("agent_name", JString "sample"); ("team", JString "blue")]);
           ("challenges", JArray [])].

Definition documents : list (json Z) :=
  [run_result true; run_result false; not_found; progress;
   JArray [JNumber 1%Z; JNumber 2%Z]; JString "maintenance"; JNull].

Definition parse (s : string) : lib_result (json Z) :=
  match List.find (fun v => String.eqb (print v) s) documents with
  | Some v => Ok v
  | None => Fails "Unexpected token in JSON at position 0"
  end.

Definition runtime : Runtime := {|
  number := Z;
  Number_toString := pretty;
  JSON_parse := parse;
  JSON_stringify := print;
  URI_component := encode_component
|}.

End SampleRuntime.

(** ** A client, a service and a world to run the client on *)
Module ClientSamples.
Import BlueshiftClient SampleLibraries SampleRuntime.

#[local] Existing Instance libs.
#[local] Existing Instance runtime.

Definition sample_wallet : Wallet.SolanaWallet :=
  {| Wallet.keypair := {| kp_public := zero_seed_public_key; kp_secret := valid_secret |} |}.

Definition client : Client :=
  {| baseUrl := "https://ai-api.blueshift.gg/"; wallet := sample_wallet |}.

(** A service that answers every request with [res]. *)
Definition answering (res : Response) : Request -> lib_result Response :=
  fun _ => Ok res.

Definition json_response (code : N) (text : string) (v : json Z) : Response :=
  {| status := code; statusText := text;
     contentType := Some "application/json; charset=utf-8";
     bodyText := print v |}.

Definition html_response (code : N) : Response :=
  {| status := code; statusText := "OK";
     contentType := Some "text/html";
     bodyText := "<html><body>Bad gateway</body></html>" |}.

(** One unsigned transaction on the heap, nothing sent yet. *)
Definition unsigned : sample_transaction :=
  {| tx_message := [x01; x02; x03]; tx_signed := false |}.

Definition start : World :=
  {| transactions := {[ 0%nat := unsigned ]}; sent := [] |}.

(** The result type at the sample runtime. *)
Definition envelope (o : bool) (code : N) (b : json Z) : @ClientSubmissionResponse runtime :=
  {| ok := o; result_status := code; body := b |}.

(** A slug, and a slug that ends in a lone high surrogate. *)
Definition flash_loan : Js.ustring := Js.units "flash-loan".
Definition torn_slug : Js.ustring := Js.units "flash-" ++ [55357%N].

Definition sample_request : Request := submission_request client flash_loan "AQID".

Definition own_progress_request : Request :=
  progress_request client (Wallet.address sample_wallet).

End ClientSamples.

(** ** Reading base 36 back

    The value of a string of base-36 digits, to state what
    [toString36] prints. *)
Module Radix36.
Import Js.

Definition is_base36 (c : ascii) : bool := is_digit c || is_lower c.

Definition digit_value (c : ascii) : N :=
  if is_digit c then (code c - 48)%N else (code c - 87)%N.

(** Horner evaluation, most significant digit first, from [v]. *)
Fixpoint horner (s : string) (v : N) : N :=
  match s with
  | EmptyString => v
  | String c r => horner r (v * 36 + digit_value c)
  end.

Fixpoint pow36 (k : nat) : N :=
  match k with
  | O => 1%N
  | S k' => (36 * pow36 k')%N
  end.

End Radix36.

(** ** Names for the statements about the builder *)
Module BuilderAux.
Import Js AnchorBuilder.

(** The first step of [createAnchorProgram]: the output root is there, or
    is created. *)
Definition ensure_root (env : Env) : M unit :=
  let* root_exists := existsSync (outputRoot env) in
  if root_exists then ret tt else mkdir_recursive (outputRoot env).

Definition is_hyphen (c : ascii) : bool := Ascii.eqb c "-"%char.

(** The class [[a-z0-9-]]. *)
Definition is_dir_char (c : ascii) : bool :=
  is_lower c || is_digit c || is_hyphen c.

(** A machine without the toolchain: every [anchor] command is rejected. *)
Definition missing_anchor (args : list string) (dir : string) (d : disk)
    : exec_result * disk :=
  (Rejected (Exn Library "spawn anchor ENOENT" None None), d).

(** A toolchain whose build leaves a directory where the binary belongs. *)
Definition directory_anchor (outcome : exec_result) (args : list string)
    (dir : string) (d : disk) : exec_result * disk :=
  match args with
  | ["build"] =>
      (outcome, <[dir +:+ "/target/deploy/" +:+ basename dir +:+ ".so" := Dir]> d)
  | _ => sample_anchor [] [] outcome args dir d
  end.

End BuilderAux.

(** ** The signer's other methods: [src/solana.ts] *)

(** What they call: the secret key of a key pair, [ed25519.sign] of
    [@noble/curves] and [bs58.encode]. *)
Class SigningLibraries `{Libraries} := {
  keypair_secretKey : Keypair -> list byte;
  ed25519_sign : list byte -> list byte -> lib_result (list byte);
  bs58_encode : list byte -> string
}.

Module Signing.
Import Wallet.

(** An argument of type [Uint8Array | string]. *)
Inductive message :=
  | Bytes (b : list byte)
  | Text (s : string).

Section Signing.

Context `{SigningLibraries}.

(** [typeof m === "string" ? new TextEncoder().encode(m) : m] *)
Definition message_bytes (m : message) : list byte :=
  match m with
  | Bytes b => b
  | Text s => AnchorBuilder.utf8 s
  end.

(** [sign]: [ed25519.sign(message, this.keypair.secretKey.slice(0, 32))] *)
Definition sign (w : SolanaWallet) (msg : list byte) : lib_result (list byte) :=
  ed25519_sign msg (take 32 (keypair_secretKey (keypair w))).

Definition signUtf8 (w : SolanaWallet) (msg : string) : lib_result (list byte) :=
  sign w (AnchorBuilder.utf8 msg).

Definition signBase58 (w : SolanaWallet) (m : message) : lib_result string :=
  match sign w (message_bytes m) with
  | Ok signature => Ok (bs58_encode signature)
  | Fails e => Fails e
  end.

Definition encodeBase58 (w : SolanaWallet) (value : message) : string :=
  bs58_encode (message_bytes value).

End Signing.

End Signing.

(** ** The client's other operations *)
Module ClientQueries.
Import Js Wallet BlueshiftClient Signing.

(** A field of a [FormData]. *)
Inductive form_value :=
  | FormString (s : string)
  | FormBlob (data : list byte) (fileName : string).

Section Queries.

Context `{SigningLibraries} `{Runtime}.

Variable server : Request -> lib_result Response.

(** How [fetch] writes a [FormData] body. *)
Variable multipart : list (string * form_value) -> string.

(** [await res.json()] *)
Definition response_json (res : Response) : eff World (json number) :=
  fun w => (lift (JSON_parse (bodyText res)), w).

(** [payload.k]: reading a property of [null] throws a [TypeError], of
    anything else that lacks it gives [undefined]. *)
Definition member (k : string) (payload : json number) : eff World (option (json number)) :=
  match payload with
  | JNull => throw (error Library ("Cannot read properties of null (reading '"
                                   +:+ k +:+ "')"))
  | _ => ret (get k payload)
  end.

Definition challenges_request (c : Client) : Request :=
  {| url := endpoint c "/v1/challenges";
     method := "GET"; headers := []; request_body := None |}.

(** [listChallenges] *)
Definition listChallenges (c : Client) : eff World (option (json number)) :=
  let* res := fetch server (challenges_request c) in
  if negb (response_ok res) then
    throw (error Own ("Failed to list challenges: " +:+ pretty (status res)
                      +:+ " " +:+ statusText res))
  else
    let* payload := response_json res in
    member "challenges" payload.

Definition challenge_request (c : Client) (namespace key : string) : Request :=
  {| url := endpoint c ("/v1/challenges/" +:+ encodeURIComponent namespace
                        +:+ "/" +:+ encodeURIComponent key);
     method := "GET"; headers := []; request_body := None |}.

(** [getChallenge] *)
Definition getChallenge (c : Client) (namespace key : string)
    : eff World (option (json number)) :=
  let* res := fetch server (challenge_request c namespace key) in
  if negb (response_ok res) then
    throw (error Own ("Failed to fetch challenge " +:+ namespace +:+ "/" +:+ key +:+ ": "
                      +:+ pretty (status res) +:+ " " +:+ statusText res))
  else
    let* payload := response_json res in
    member "challenge" payload.

Definition program_request (c : Client) (slug : string) (programBuffer : list byte)
    (signatureBase58 : string) : Request :=
  {| url := endpoint c ("/v1/challenges/program/" +:+ encodeURIComponent slug);
     method := "POST";
     headers := [];
     request_body :=
       Some (multipart [("program", FormBlob programBuffer (slug +:+ "-submission.so"));
                        ("signature", FormString signatureBase58);
                        ("address", FormString (address (wallet c)))]) |}.

(** [submitProgramChallenge]: the response is returned as it is. *)
Definition submitProgramChallenge (c : Client) (slug : string) (programBuffer : list byte)
    : eff World Response :=
  let* signatureBase58 :=
    (fun w => (lift (signBase58 (wallet c) (Bytes programBuffer)), w)) in
  fetch server (program_request c slug programBuffer signatureBase58).

End Queries.

End ClientQueries.

(** ** The agent's tools: [src/tools.ts]

    Each [_call] returns the text handed to the agent.  [JSON_pretty] is
    [JSON.stringify(v, null, 2)]; an [undefined] property is left out of
    the object before it is printed, as [JSON.stringify] does. *)
Module Tools.
Import Js AnchorBuilder Wallet BlueshiftClient Signing ClientQueries.

(** The [encoding] of [wallet_sign_bytes] and [wallet_encode_base58]. *)
Inductive encoding := Base64Text | Utf8Text | HexText.

Definition unhex (c : ascii) : option N :=
  if is_digit c then Some (code c - 48)%N
  else if in_range 97 102 c then Some (code c - 87)%N
  else if in_range 65 70 c then Some (code c - 55)%N
  else None.

(** [Buffer.from(s, "hex")]: pairs of hexadecimal digits, up to the first
    pair that is not one; a last single character is dropped. *)
Fixpoint Buffer_from_hex (s : string) : list byte :=
  match s with
  | String a (String b r) =>
      match unhex a, unhex b with
      | Some x, Some y => byte_of_N (x * 16 + y) :: Buffer_from_hex r
      | _, _ => []
      end
  | _ => []
  end.

(** [s.replace(/^0x/, "")] *)
Definition strip_0x (s : string) : string :=
  match s with
  | String "0" (String "x" r) => r
  | _ => s
  end.

Definition hex_digit (d : N) : ascii :=
  if (d <? 10)%N then ascii_of_N (48 + d) else ascii_of_N (87 + d).

(** [Buffer.prototype.toString("hex")] *)
Fixpoint to_hex (bs : list byte) : string :=
  match bs with
  | [] => EmptyString
  | b :: r =>
      String (hex_digit (Byte.to_N b / 16))
        (String (hex_digit (Byte.to_N b mod 16)) (to_hex r))
  end.

(** [s.endsWith(suffix)] *)
Definition endsWith (suffix s : string) : bool :=
  String.prefix (String.rev suffix) (String.rev s).

Section Tools.

Context `{SigningLibraries} `{Runtime}.

Variable JSON_pretty : json number -> string.
(** A JavaScript number from an integer. *)
Variable number_of_N : N -> number.
(** [Buffer.from(s, "base64")] *)
Variable Buffer_from_base64 : string -> list byte.
(** [buffer.toString("utf8")] *)
Variable utf8_decode : list byte -> string.
(** [readdir]: the names in a directory, in the order the system lists
    them. *)
Variable readdir : string -> disk -> lib_result (list string).
Variable anchor : list string -> string -> disk -> exec_result * disk.
Variable server : Request -> lib_result Response.
Variable multipart : list (string * form_value) -> string.

(** The [switch (encoding)] of [SignBytesTool] and [EncodeBase58Tool]. *)
Definition input_bytes (data : string) (enc : encoding) : list byte :=
  match enc with
  | Utf8Text => utf8 data
  | HexText => Buffer_from_hex (strip_0x data)
  | Base64Text => Buffer_from_base64 data
  end.

(** [SignBytesTool._call] *)
Definition SignBytesTool (w : SolanaWallet) (data : string) (enc : encoding)
    : completion string :=
  lift (signBase58 w (Bytes (input_bytes data enc))).

(** [EncodeBase58Tool._call] *)
Definition EncodeBase58Tool (w : SolanaWallet) (data : string) (enc : encoding)
    : string :=
  encodeBase58 w (Bytes (input_bytes data enc)).

(** [ReadFileTool._call] *)
Definition ReadFileTool (filePath : string) : eff disk string :=
  try_catch
    (let* content := readFile filePath in ret (utf8_decode content))
    (fun e => ret ("Error reading file: " +:+ exn_message e)).

(** [WriteFileTool._call] *)
Definition WriteFileTool (filePath content : string) : eff disk string :=
  try_catch
    (writeFile filePath content ;;;
     ret ("Successfully wrote " +:+ pretty (N.of_nat (String.length content))
          +:+ " bytes to " +:+ filePath))
    (fun e => ret ("Error writing file: " +:+ exn_message e)).

(** [RunAnchorBuildTool._call] *)
Definition RunAnchorBuildTool (workspaceDir : string) : eff disk string :=
  try_catch
    (let* '(stdout, stderr) := execFileAsync anchor ["build"] workspaceDir in
     let targetDeployDir := path_join [workspaceDir; "target"; "deploy"] in
     let* deploy_exists := existsSync targetDeployDir in
     let* soFiles :=
       (if deploy_exists then
          let* files := (fun d => (lift (readdir targetDeployDir d), d)) in
          ret (List.filter (endsWith ".so") files)
        else ret []) in
     match soFiles with
     | first :: _ =>
         let soPath := path_join [targetDeployDir; first] in
         ret (JSON_pretty (JObject [("success", JBool true);
                                    ("stdout", JString stdout);
                                    ("stderr", JString stderr);
                                    ("soPath", JString soPath)]))
     | [] =>
         ret (JSON_pretty (JObject [("success", JBool true);
                                    ("stdout", JString stdout);
                                    ("stderr", JString stderr);
                                    ("message",
                                     JString "Build completed but .so file not found")]))
     end)
    (fun error =>
       ret (JSON_pretty (JObject [("success", JBool false);
                                  ("stdout", JString (nullish (exn_stdout error) ""));
                                  ("stderr", JString (nullish (exn_stderr error) ""));
                                  ("error", JString (exn_message error))]))).

(** [AttemptProgramTool._call]; the disk is only read. *)
Definition AttemptProgramTool (c : Client) (d : disk) (slug programPath : string)
    : eff World string :=
  try_catch
    (let* programBuffer := (fun w => (fst (readFile programPath d), w)) in
     let* response := submitProgramChallenge server multipart c slug programBuffer in
     let text := bodyText response in
     ret (JSON_pretty (JObject [("status", JNumber (number_of_N (status response)));
                                ("ok", JBool (response_ok response));
                                ("body", JString text)])))
    (fun e =>
       ret (JSON_pretty
              (JObject [("success", JBool false);
                        ("error", JString ("Failed to read program file: "
                                           +:+ exn_message e))]))).

(** The objects the build tool and the program tool print. *)
Definition build_report (ok : bool) (out err : string) (k v : string) : json number :=
  JObject [("success", JBool ok); ("stdout", JString out); ("stderr", JString err);
           (k, JString v)].

Definition failure_report (message : string) : json number :=
  JObject [("success", JBool false);
           ("error", JString ("Failed to read program file: " +:+ message))].

End Tools.

End Tools.

(** ** The configuration: [loadConfig] in [src/config.ts] *)
Module Config.
Import Js AnchorBuilder BlueshiftClient.

Definition DEFAULT_API_URL : string := "https://ai-api.blueshift.gg".

(** The variables of [process.env] that [loadConfig] reads. *)
Record ProcessEnv := {
  API_URL : option string;
  BLUESHIFT_BASE_URL : option string;
  BLUESHIFT_AI_HACKATHON_MCP_URL : option string;
  OPENAI_API_KEY : option string;
  SOLANA_PRIVATE_KEY : option string;
  AGENT_NAME : option string;
  AGENT_TEAM : option string;
  LLM_MODEL : option string;
  LLM_TEMPERATURE : option string
}.

(** [s.replace(/\/mcp\/?$/, "")] *)
Fixpoint strip_mcp (s : string) : string :=
  match s with
  | EmptyString => EmptyString
  | String c r =>
      if String.eqb s "/mcp" || String.eqb s "/mcp/" then EmptyString
      else String c (strip_mcp r)
  end.

(** [a ?? b] *)
Definition or_else {A} (a b : option A) : option A :=
  match a with Some _ => a | None => b end.

(** The constants [rawApiUrl], [blueshiftApiUrl] and [blueshiftMcpUrl]
    of [loadConfig]: the two URLs as they are handed to the schema. *)
Definition rawApiUrl (env : ProcessEnv) : string :=
  let explicitMcpUrl := BLUESHIFT_AI_HACKATHON_MCP_URL env in
  default DEFAULT_API_URL
    (or_else (API_URL env)
       (or_else (BLUESHIFT_BASE_URL env)
          (match explicitMcpUrl with
           | Some (String a r) => Some (strip_mcp (String a r))
           | _ => None
           end))).

Definition blueshiftApiUrl (env : ProcessEnv) : string :=
  drop_last_slash (rawApiUrl env).

Definition blueshiftMcpUrl (env : ProcessEnv) : string :=
  drop_last_slash
    (default (blueshiftApiUrl env +:+ "/mcp") (BLUESHIFT_AI_HACKATHON_MCP_URL env)).

Section Schema.

(** JavaScript numbers and [Number.parseFloat]. *)
Variable number : Type.
Variable parseFloat : string -> number.

(** The object [raw] that is validated; an absent property is [None]. *)
Record RawConfig := {
  raw_openAiApiKey : option string;
  raw_solanaPrivateKey : option string;
  raw_blueshiftApiUrl : string;
  raw_blueshiftMcpUrl : string;
  raw_agentName : string;
  raw_teamName : string;
  raw_model : string;
  raw_temperature : option number
}.

(** [AgentConfig], what the schema infers. *)
Record AgentConfig := {
  openAiApiKey : string;
  solanaPrivateKey : string;
  config_blueshiftApiUrl : string;
  config_blueshiftMcpUrl : string;
  agentName : string;
  teamName : string;
  model : string;
  temperature : number
}.

(** An issue of a failed validation: the path of the property and the
    message. *)
Record issue := { issue_path : list string; issue_message : string }.

(** What [safeParse] returns. *)
Inductive parse_result :=
  | ParseSuccess (data : AgentConfig)
  | ParseFailure (issues : list issue).

(** [ConfigSchema.safeParse], of the [zod] library. *)
Variable safeParse : RawConfig -> parse_result.

Definition raw_config (env : ProcessEnv) : RawConfig :=
  {| raw_openAiApiKey := OPENAI_API_KEY env;
     raw_solanaPrivateKey := SOLANA_PRIVATE_KEY env;
     raw_blueshiftApiUrl := blueshiftApiUrl env;
     raw_blueshiftMcpUrl := blueshiftMcpUrl env;
     raw_agentName := default "LangChain Solana Agent" (AGENT_NAME env);
     raw_teamName := default "Local Development" (AGENT_TEAM env);
     raw_model := default "openai/gpt-5-mini" (LLM_MODEL env);
     raw_temperature :=
       match LLM_TEMPERATURE env with
       | Some (String a r) => Some (parseFloat (String a r))
       | _ => None
       end |}.

(** [`${issue.path.join(".") || "root"}: ${issue.message}`] *)
Definition issue_line (i : issue) : string :=
  let joined := String.concat "." (issue_path i) in
  (if is_empty joined then "root" else joined) +:+ ": " +:+ issue_message i.

(** [loadConfig] *)
Definition loadConfig (env : ProcessEnv) : completion AgentConfig :=
  match safeParse (raw_config env) with
  | ParseSuccess data => Return data
  | ParseFailure issues =>
      Throw (error Own ("Invalid configuration:" +:+ newline
                        +:+ String.concat newline (map issue_line issues)))
  end.

End Schema.

End Config.

(** ** Stand-ins to run the other operations on *)
Module ExtraSamples.
Import Js AnchorBuilder Wallet BlueshiftClient Signing ClientQueries Tools.
Import SampleLibraries SampleRuntime ClientSamples.

(** A stand-in for Ed25519: the statements hold for every signing
    function, this one prefixes the message with the key. *)
Definition toy_sign (msg key : list byte) : lib_result (list byte) := Ok (key ++ msg).

Definition signing : @SigningLibraries libs :=
  @Build_SigningLibraries libs (kp_secret : @Keypair libs -> list byte) toy_sign Bs58.encode.

(** Libraries whose [transaction.sign] rejects the signer. *)
Definition refusing_libs : Libraries := {|
  bs58_decode := Bs58.decode;
  Keypair := sample_keypair;
  Keypair_fromSecretKey := checked_fromSecretKey zero_seed_only;
  publicKey_toBase58 := fun k => Bs58.encode (kp_public k);
  VersionedTransaction := sample_transaction;
  transaction_sign := fun _ _ => Fails "Cannot sign with non signer key";
  transaction_serialize := fun t => Ok (tx_message t)
|}.

Definition refusing_client : @Client refusing_libs :=
  @Build_Client refusing_libs "https://ai-api.blueshift.gg"
    (@Build_SolanaWallet refusing_libs
       {| kp_public := zero_seed_public_key; kp_secret := valid_secret |}).

Definition refusing_start : @World refusing_libs :=
  @Build_World refusing_libs {[ 0%nat := unsigned ]} [].

(** A form printed field by field. *)
Definition print_form (fields : list (string * form_value)) : string :=
  String.concat "&"
    (map (fun kv =>
            match kv with
            | (k, FormString s) => k +:+ "=" +:+ s
            | (k, FormBlob data name) => k +:+ "=@" +:+ name +:+ ":" +:+ to_hex data
            end) fields).


(** A directory listing that does not look at the disk. *)
Definition listing (names : lib_result (list string)) : string -> disk -> lib_result (list string) :=
  fun _ _ => names.

Definition no_base64 : string -> list byte := fun _ => [].


Definition deploy_disk : disk :=
  {[ "/ws/target/deploy" := Dir; "/ws/target/deploy/vault.so" := File sample_so ]}.

(** [anchor build] that ends as told and leaves the disk alone. *)
Definition idle_anchor (outcome : exec_result) : list string -> string -> disk -> exec_result * disk :=
  fun _ _ d => (outcome, d).

Definition program_disk : disk := {[ "/ws/target/deploy/vault.so" := File sample_so ]}.

(** What [createAnchorProgram] returns on the sample toolchain whose build
    fails after writing the binary. *)
Definition sample_result : CreatedAnchorProgram :=
  {| workspaceDir := sample_ws; files := sample_files;
     build := Some {| success := false;
                      stdout := "";
                      stderr := "error: post-build step failed";
                      programSoPath := Some sample_artifact;
                      programSoBase64 := Some "f0VMRv8=";
                      keypairPath := None;
                      errorMessage := Some "Command failed: anchor build" |} |}.

(** An answer announced as JSON whose body is not JSON. *)
Definition garbled : Response :=
  {| status := 200; statusText := "OK"; contentType := Some "application/json";
     bodyText := "{oops" |}.

(** The transaction of [start] once signed. *)
Definition signed : sample_transaction :=
  {| tx_message := [x01; x02; x03]; tx_signed := true |}.

(** *** A validation to run [loadConfig] on

    A stand-in for the schema: numbers are kept as their text, a URL is
    a text that starts with [http://] or [https://], both keys must be
    there and the private key at least ten characters long. *)
Definition sample_parseFloat (s : string) : string := s.

Definition looks_like_url (s : string) : bool :=
  String.prefix "http://" s || String.prefix "https://" s.

Definition at_property (name message : string) : Config.issue :=
  {| Config.issue_path := [name]; Config.issue_message := message |}.

Definition sample_issues (raw : Config.RawConfig string) : list Config.issue :=
  (match Config.raw_openAiApiKey string raw with
   | Some _ => []
   | None => [at_property "openAiApiKey" "Required"]
   end)
  ++ (match Config.raw_solanaPrivateKey string raw with
      | Some k =>
          if (10 <=? String.length k)%nat then []
          else [at_property "solanaPrivateKey" "SOLANA_PRIVATE_KEY must be provided"]
      | None => [at_property "solanaPrivateKey" "Required"]
      end)
  ++ (if looks_like_url (Config.raw_blueshiftApiUrl string raw) then []
      else [at_property "blueshiftApiUrl" "Invalid url"])
  ++ (if looks_like_url (Config.raw_blueshiftMcpUrl string raw) then []
      else [at_property "blueshiftMcpUrl" "Invalid url"]).

Definition sample_safeParse (raw : Config.RawConfig string) : Config.parse_result string :=
  match sample_issues raw, Config.raw_openAiApiKey string raw,
        Config.raw_solanaPrivateKey string raw with
  | [], Some key, Some secret =>
      Config.ParseSuccess string
        {| Config.openAiApiKey := key;
           Config.solanaPrivateKey := secret;
           Config.config_blueshiftApiUrl := Config.raw_blueshiftApiUrl string raw;
           Config.config_blueshiftMcpUrl := Config.raw_blueshiftMcpUrl string raw;
           Config.agentName := Config.raw_agentName string raw;
           Config.teamName := Config.raw_teamName string raw;
           Config.model := Config.raw_model string raw;
           Config.temperature := default "0.2" (Config.raw_temperature string raw) |}
  | issues, _, _ => Config.ParseFailure string issues
  end.

(** A process environment with both keys and, of the three variables
    that decide the endpoints, the ones given. *)
Definition sample_process (api base mcp : option string) : Config.ProcessEnv :=
  {| Config.API_URL := api;
     Config.BLUESHIFT_BASE_URL := base;
     Config.BLUESHIFT_AI_HACKATHON_MCP_URL := mcp;
     Config.OPENAI_API_KEY := Some "sk-sample";
     Config.SOLANA_PRIVATE_KEY := Some "[1,2,3,4,5,6,7,8]";
     Config.AGENT_NAME := None;
     Config.AGENT_TEAM := None;
     Config.LLM_MODEL := None;
     Config.LLM_TEMPERATURE := None |}.

(** What the sample validation returns for [sample_process]. *)
Definition sample_config (api mcp : string) : Config.AgentConfig string :=
  {| Config.openAiApiKey := "sk-sample";
     Config.solanaPrivateKey := "[1,2,3,4,5,6,7,8]";
     Config.config_blueshiftApiUrl := api;
     Config.config_blueshiftMcpUrl := mcp;
     Config.agentName := "LangChain Solana Agent";
     Config.teamName := "Local Development";
     Config.model := "openai/gpt-5-mini";
     Config.temperature := "0.2" |}.

End ExtraSamples.

(** * Properties *)

(** ** The encoders *)
Module EncodingFacts.

Example encode_Man : Base64.encode (String.list_byte_of_string "Man") = "TWFu".
Proof. reflexivity. Qed.
Example encode_Ma : Base64.encode (String.list_byte_of_string "Ma") = "TWE=".
Proof. reflexivity. Qed.
Example encode_M : Base64.encode (String.list_byte_of_string "M") = "TQ==".
Proof. reflexivity. Qed.
Example encode_elf : Base64.encode [x7f; x45; x4c; x46; xff] = "f0VMRv8=".
Proof. reflexivity. Qed.

Example bs58_encode_hello : Bs58.encode (String.list_byte_of_string "hello world") = "StV1DL6CwTryKyV".
Proof. reflexivity. Qed.
Example decode_hello : Bs58.decode "StV1DL6CwTryKyV" = Ok (String.list_byte_of_string "hello world").
Proof. reflexivity. Qed.
Example decode_zeros : Bs58.decode "111" = Ok [x00; x00; x00].
Proof. reflexivity. Qed.
Example decode_bad : Bs58.decode "0OIl" = Fails "Non-base58 character".
Proof. reflexivity. Qed.

Example zero_seed_address :
  Bs58.encode SampleLibraries.zero_seed_public_key = "4zvwRjXUKGfvwnParsHAS3HuSVzV5cA4McphgmoCtajS".
Proof. vm_compute. reflexivity. Qed.

End EncodingFacts.

(** ** Paths *)
Module PathFacts.
Import Js AnchorBuilder.

(** [node:path] at work *)
Example normalize_examples :
  map normalize ["/foo/bar//baz/asdf/quux/.."; "a/../../b"; "/../a"; ""; "./"; "//a//"; "a/.."]
  = ["/foo/bar/baz/asdf"; "../b"; "/a"; "."; "./"; "/a/"; "."].
Proof. reflexivity. Qed.

Example path_join_examples :
  path_join ["/ws/"; "target"; "deploy"] = "/ws/target/deploy" /\
  path_join ["/ws"; "target"; "deploy"; "vault.so"] = "/ws/target/deploy/vault.so" /\
  path_join ["artifacts"; "anchor"] = "artifacts/anchor" /\
  path_join ["/"; "a"] = "/a" /\
  path_join [""; ""] = ".".
Proof. repeat split. Qed.

Example path_resolve_examples :
  path_resolve "/" ["/"; "artifacts/anchor"] = "/artifacts/anchor" /\
  path_resolve "/home/agent" ["/home/agent"; "artifacts/anchor"] = "/home/agent/artifacts/anchor".
Proof. split; reflexivity. Qed.

Example dirname_examples :
  map dirname ["/notes.txt"; "/a/b"; "a/b"; "a"; ""; "/"; "//a"; "/a/b/"]
  = ["/"; "/a"; "a"; "."; "."; "/"; "//"; "/a"].
Proof. reflexivity. Qed.

Example path_relative_examples :
  path_relative "/cwd" "/a/b" "/a/b/c/d" = "c/d" /\
  path_relative "/cwd" "/a/b" "/a/x" = "../x" /\
  path_relative "/cwd" "x" "x/y" = "y".
Proof. repeat split. Qed.

Lemma append_assoc (a b c : string) : (a +:+ b) +:+ c = a +:+ (b +:+ c).
Proof.
  induction a as [|x a IH]; [reflexivity|].
  change (String x ((a +:+ b) +:+ c) = String x (a +:+ (b +:+ c))). rewrite IH. reflexivity.
Qed.

Lemma append_nil_r (a : string) : a +:+ "" = a.
Proof.
  induction a as [|x a IH]; [reflexivity|].
  change (String x (a +:+ "") = String x a). rewrite IH. reflexivity.
Qed.

Lemma split_cons c r :
  split (String c r) =
  if is_slash c then EmptyString :: split r
  else match split r with
       | first :: rest => String c first :: rest
       | [] => [String c EmptyString]
       end.
Proof. reflexivity. Qed.

Lemma split_inhabited p : exists first rest, split p = first :: rest.
Proof.
  induction p as [|c r (first & rest & IH)]; [eexists; eexists; reflexivity|].
  rewrite split_cons, IH. destruct (is_slash c); eexists; eexists; reflexivity.
Qed.

Lemma split_app x y : split (x +:+ String "/" y) = split x ++ split y.
Proof.
  induction x as [|c x IH]; [reflexivity|].
  change (split (String c (x +:+ String "/" y)) = split (String c x) ++ split y).
  rewrite !split_cons, IH.
  destruct (is_slash c); [reflexivity|].
  destruct (split_inhabited x) as (first & rest & ->). reflexivity.
Qed.

Lemma split_no_slash s : no_slash s = true -> split s = [s].
Proof.
  induction s as [|c r IH]; [reflexivity|].
  unfold no_slash. cbn [all_chars]. intros [Hc Hr]%andb_prop.
  rewrite split_cons. apply negb_true_iff in Hc. rewrite Hc, (IH Hr). reflexivity.
Qed.

Lemma step_plain a kept s : plain s = true -> normalize_step a kept s = s :: kept.
Proof.
  unfold plain, nonempty, normalize_step.
  intros [[[H1 H2]%andb_prop H3]%andb_prop _]%andb_prop.
  apply negb_true_iff in H1, H2, H3. rewrite H1, H2, H3. reflexivity.
Qed.

Lemma kept_segments_snoc a x s :
  plain s = true ->
  kept_segments a (x +:+ String "/" s) = s :: kept_segments a x.
Proof.
  intros Hs. unfold kept_segments. rewrite split_app, fold_left_app.
  assert (Hn : no_slash s = true) by (unfold plain in Hs; apply andb_prop in Hs; tauto).
  rewrite (split_no_slash _ Hn). cbn [fold_left]. apply step_plain, Hs.
Qed.

Lemma concat_snoc l s : String.concat "/" (l ++ [s]) = lead l +:+ s.
Proof.
  induction l as [|x l IH]; [reflexivity|].
  destruct l as [|y l].
  - change (x +:+ "/" +:+ s = (x +:+ "/" +:+ "") +:+ s).
    rewrite !append_assoc. reflexivity.
  - change (String.concat "/" ((x :: y :: l) ++ [s]))
      with (x +:+ "/" +:+ String.concat "/" ((y :: l) ++ [s])).
    rewrite IH. change (lead (x :: y :: l)) with (x +:+ "/" +:+ lead (y :: l)).
    rewrite !append_assoc. reflexivity.
Qed.

Lemma is_empty_app x y : is_empty (x +:+ y) = is_empty x && is_empty y.
Proof. destruct x; reflexivity. Qed.

Lemma ends_with_slash_app x y :
  is_empty y = false -> ends_with_slash (x +:+ y) = ends_with_slash y.
Proof.
  intros Hy. induction x as [|c x IH]; [reflexivity|].
  change (ends_with_slash (String c (x +:+ y)) = ends_with_slash y).
  cbn [ends_with_slash]. rewrite IH.
  destruct (x +:+ y) eqn:E; [|reflexivity].
  apply (f_equal is_empty) in E. rewrite is_empty_app, Hy, andb_false_r in E. discriminate.
Qed.

Lemma no_slash_end s : no_slash s = true -> ends_with_slash s = false.
Proof.
  induction s as [|c r IH]; [reflexivity|].
  unfold no_slash. cbn [all_chars ends_with_slash]. intros [Hc Hr]%andb_prop.
  apply negb_true_iff in Hc. destruct r; [exact Hc|]. apply IH, Hr.
Qed.

Lemma plain_facts s :
  plain s = true -> is_empty s = false /\ no_slash s = true.
Proof.
  unfold plain, nonempty.
  intros [[[H1 _]%andb_prop _]%andb_prop H4]%andb_prop.
  apply negb_true_iff in H1. tauto.
Qed.

Lemma isAbsolute_app x y : is_empty x = false -> isAbsolute (x +:+ y) = isAbsolute x.
Proof. destruct x; [discriminate|reflexivity]. Qed.

(** [path.normalize] of a path followed by a plain segment. *)
Lemma normalize_snoc x s :
  is_empty x = false -> plain s = true ->
  normalize (x +:+ String "/" s) = stem x +:+ s.
Proof.
  intros Hx Hs. destruct (plain_facts s Hs) as [Hne Hns].
  unfold normalize, normalizeString, stem.
  rewrite is_empty_app, Hx. cbn [andb].
  rewrite (isAbsolute_app _ _ Hx).
  rewrite (kept_segments_snoc _ _ _ Hs). cbn [rev]. rewrite concat_snoc.
  rewrite is_empty_app, Hne, andb_false_r.
  rewrite ends_with_slash_app by reflexivity.
  change (ends_with_slash (String "/" s)) with
    (match s with EmptyString => true | _ => ends_with_slash s end).
  destruct s as [|c r]; [discriminate|].
  rewrite (no_slash_end _ Hns). rewrite append_nil_r, append_assoc. reflexivity.
Qed.

Lemma lead_concat l : l <> [] -> lead l = String.concat "/" l +:+ "/".
Proof.
  induction l as [|x l IH]; [congruence|]. intros _.
  destruct l as [|y l]; [reflexivity|].
  change (x +:+ "/" +:+ lead (y :: l) = (x +:+ "/" +:+ String.concat "/" (y :: l)) +:+ "/").
  rewrite IH by congruence. rewrite !append_assoc. reflexivity.
Qed.

Lemma fold_plain a segs kept :
  all_plain segs = true ->
  fold_left (normalize_step a) segs kept = rev segs ++ kept.
Proof.
  revert kept. induction segs as [|s segs IH]; intros kept; [reflexivity|].
  unfold all_plain. cbn [forallb fold_left rev]. intros [Hs Hr]%andb_prop.
  rewrite (step_plain _ _ _ Hs), (IH _ Hr), <- app_assoc. reflexivity.
Qed.

Lemma split_concat x segs :
  all_plain segs = true ->
  split (String.concat "/" (x :: segs)) = split x ++ segs.
Proof.
  revert x. induction segs as [|s segs IH]; intros x H.
  - cbn. rewrite app_nil_r. reflexivity.
  - unfold all_plain in H. cbn [forallb] in H. apply andb_prop in H as [Hs Hr].
    change (String.concat "/" (x :: s :: segs))
      with (x +:+ String "/" (String.concat "/" (s :: segs))).
    rewrite split_app, (IH _ Hr).
    rewrite (split_no_slash s) by apply (plain_facts _ Hs). reflexivity.
Qed.

Lemma rooted_cons s l : rooted (s :: l) = String.concat "/" (EmptyString :: s :: l).
Proof. reflexivity. Qed.

(** Normalising what is normalised: the segments of [rooted l] are [l]. *)
Lemma kept_rooted l : all_plain l = true -> kept_segments false (rooted l) = rev l.
Proof.
  intros H. destruct l as [|s l]; [reflexivity|].
  rewrite rooted_cons. unfold kept_segments. rewrite (split_concat _ _ H).
  change (fold_left (normalize_step false) (split EmptyString ++ s :: l) [])
    with (fold_left (normalize_step false) (s :: l) []).
  rewrite (fold_plain _ _ _ H), app_nil_r. reflexivity.
Qed.

Lemma all_plain_app l1 l2 :
  all_plain (l1 ++ l2) = all_plain l1 && all_plain l2.
Proof. apply forallb_app. Qed.

Lemma concat_nonempty x segs :
  segs <> [] -> all_plain segs = true ->
  ends_with_slash (String.concat "/" (x :: segs)) = false /\
  is_empty (String.concat "/" (x :: segs)) = false.
Proof.
  revert x. induction segs as [|s segs IH]; intros x Hne H; [congruence|].
  unfold all_plain in H. cbn [forallb] in H. apply andb_prop in H as [Hs Hr].
  destruct (plain_facts _ Hs) as [Hse Hsn].
  change (String.concat "/" (x :: s :: segs))
    with (x +:+ String "/" (String.concat "/" (s :: segs))).
  destruct segs as [|t segs].
  - change (String.concat "/" [s]) with s. split.
    + rewrite ends_with_slash_app by reflexivity. cbn [ends_with_slash].
      destruct s; [discriminate|]. apply no_slash_end, Hsn.
    + rewrite is_empty_app. apply andb_false_r.
  - destruct (IH s ltac:(congruence) Hr) as [He Hi]. split.
    + rewrite ends_with_slash_app by reflexivity. cbn [ends_with_slash].
      destruct (String.concat "/" (s :: t :: segs)); [discriminate|exact He].
    + rewrite is_empty_app. apply andb_false_r.
Qed.

Lemma concat_all_plain_nonempty l :
  l <> [] -> all_plain l = true -> is_empty (String.concat "/" l) = false.
Proof.
  destruct l as [|s l]; [congruence|]. intros _ H.
  unfold all_plain in H. cbn [forallb] in H. apply andb_prop in H as [Hs Hr].
  destruct l as [|t l]; [apply (plain_facts _ Hs)|].
  apply (concat_nonempty s (t :: l)); [congruence|exact Hr].
Qed.

Lemma concat_app l1 l2 :
  l1 <> [] -> l2 <> [] ->
  String.concat "/" (l1 ++ l2) = String.concat "/" l1 +:+ "/" +:+ String.concat "/" l2.
Proof.
  intros H1 H2. induction l1 as [|x l1 IH]; [congruence|].
  destruct l1 as [|y l1].
  - destruct l2; [congruence|reflexivity].
  - change (String.concat "/" ((x :: y :: l1) ++ l2))
      with (x +:+ "/" +:+ String.concat "/" ((y :: l1) ++ l2)).
    rewrite IH by congruence.
    change (String.concat "/" (x :: y :: l1)) with (x +:+ "/" +:+ String.concat "/" (y :: l1)).
    rewrite !append_assoc. reflexivity.
Qed.

(** [path.join] of an absolute normalised path and plain segments
    appends the segments. *)
Lemma path_join_rooted l segs :
  all_plain l = true -> all_plain segs = true ->
  path_join (rooted l :: segs) = rooted (l ++ segs).
Proof.
  intros Hl Hs.
  assert (Hf : List.filter nonempty (rooted l :: segs) = rooted l :: segs).
  { cbn [List.filter]. change (nonempty (rooted l)) with true. cbn iota. f_equal.
    clear Hl. induction segs as [|s segs IH]; [reflexivity|].
    unfold all_plain in Hs. cbn [forallb] in Hs. apply andb_prop in Hs as [Hs Hr].
    cbn [List.filter]. unfold nonempty at 1. rewrite (proj1 (plain_facts _ Hs)).
    cbn. rewrite (IH Hr). reflexivity. }
  unfold path_join. rewrite Hf.
  assert (Hk : kept_segments false (String.concat "/" (rooted l :: segs)) = rev (l ++ segs)).
  { unfold kept_segments. rewrite (split_concat _ _ Hs), fold_left_app.
    fold (kept_segments false (rooted l)). rewrite (kept_rooted _ Hl).
    rewrite (fold_plain _ _ _ Hs), rev_app_distr. reflexivity. }
  unfold normalize, normalizeString.
  assert (Habs : isAbsolute (String.concat "/" (rooted l :: segs)) = true).
  { destruct segs; reflexivity. }
  assert (Hne : is_empty (String.concat "/" (rooted l :: segs)) = false).
  { destruct segs; reflexivity. }
  rewrite Hne, Habs. cbn [negb]. rewrite Hk, rev_involutive.
  destruct (l ++ segs) as [|a r] eqn:E; [reflexivity|].
  rewrite concat_all_plain_nonempty;
    [|congruence|rewrite <- E, all_plain_app, Hl, Hs; reflexivity].
  destruct segs as [|s segs].
  - rewrite app_nil_r in E. subst l.
    change (String.concat "/" [rooted (a :: r)]) with (rooted (a :: r)).
    assert (He : ends_with_slash (rooted (a :: r)) = false).
    { rewrite rooted_cons. apply concat_nonempty; [congruence|exact Hl]. }
    rewrite He, append_nil_r. reflexivity.
  - rewrite (proj1 (concat_nonempty (rooted l) (s :: segs) ltac:(congruence) Hs)).
    rewrite append_nil_r. reflexivity.
Qed.

(** The same path as text: below a clean directory [path.join] is
    concatenation. *)
Lemma rooted_app l segs :
  l <> [] -> segs <> [] ->
  rooted (l ++ segs) = rooted l +:+ "/" +:+ String.concat "/" segs.
Proof.
  intros H1 H2. unfold rooted. rewrite (concat_app _ _ H1 H2), !append_assoc. reflexivity.
Qed.

Lemma split_all_no_slash p : forallb no_slash (split p) = true.
Proof.
  induction p as [|c r IH]; [reflexivity|].
  rewrite split_cons. destruct (is_slash c) eqn:E; [exact IH|].
  destruct (split r) as [|first rest]; cbn [forallb] in *.
  - unfold no_slash. cbn. rewrite E. reflexivity.
  - apply andb_prop in IH as [H1 H2]. rewrite H2, andb_true_r.
    unfold no_slash in *. cbn [all_chars]. rewrite E, H1. reflexivity.
Qed.

Lemma step_keeps_plain kept s :
  all_plain kept = true -> no_slash s = true ->
  all_plain (normalize_step false kept s) = true.
Proof.
  intros Hk Hs. unfold normalize_step.
  destruct (is_empty s) eqn:E1; [exact Hk|].
  destruct (String.eqb s ".") eqn:E2; [exact Hk|]. cbn [orb].
  destruct (String.eqb s "..") eqn:E3.
  - destruct kept as [|last before]; [reflexivity|].
    unfold all_plain in Hk. cbn [forallb] in Hk. apply andb_prop in Hk as [Hl Hb].
    destruct (String.eqb last ".."); [|exact Hb].
    unfold all_plain. cbn [forallb]. rewrite Hl, Hb. reflexivity.
  - unfold all_plain. cbn [forallb]. fold (all_plain kept). rewrite Hk, andb_true_r.
    unfold plain, nonempty. rewrite E1, E2, E3, Hs. reflexivity.
Qed.

Lemma fold_keeps_plain segs kept :
  all_plain kept = true -> forallb no_slash segs = true ->
  all_plain (fold_left (normalize_step false) segs kept) = true.
Proof.
  revert kept. induction segs as [|s segs IH]; intros kept Hk Hs; [exact Hk|].
  cbn [forallb] in Hs. apply andb_prop in Hs as [H1 H2].
  cbn [fold_left]. apply IH; [apply step_keeps_plain; assumption|exact H2].
Qed.

Lemma all_plain_rev l : all_plain (rev l) = all_plain l.
Proof.
  induction l as [|x l IH]; [reflexivity|].
  cbn [rev]. rewrite all_plain_app, IH. unfold all_plain. cbn [forallb].
  rewrite andb_true_r. apply andb_comm.
Qed.

(** The segments an absolute path resolves to are plain. *)
Lemma kept_absolute_plain p : all_plain (rev (kept_segments false p)) = true.
Proof.
  rewrite all_plain_rev. apply fold_keeps_plain; [reflexivity|apply split_all_no_slash].
Qed.

Lemma outputRoot_rooted env :
  isAbsolute (cwd env) = true ->
  outputRoot env = rooted (cwd_segments env ++ ["artifacts"; "anchor"]).
Proof.
  intros Habs. unfold outputRoot, path_resolve.
  change (path_join ["artifacts"; "anchor"]) with "artifacts/anchor"%string.
  assert (Hne : is_empty (cwd env) = false) by (destruct (cwd env); [discriminate|reflexivity]).
  cbn [rev app resolve_from]. change (is_empty "artifacts/anchor") with false.
  change (isAbsolute "artifacts/anchor") with false. cbn iota.
  rewrite Hne, Habs. cbn iota. cbn [negb].
  unfold rooted, normalizeString, cwd_segments. f_equal. f_equal.
  change (cwd env +:+ "/" +:+ "artifacts/anchor" +:+ "/" +:+ "")
    with (cwd env +:+ String "/" ("artifacts" +:+ String "/" ("anchor" +:+ String "/" ""))).
  unfold kept_segments. rewrite !split_app, !fold_left_app.
  change (split "artifacts") with ["artifacts"%string].
  change (split "anchor") with ["anchor"%string].
  change (split "") with [EmptyString].
  generalize (fold_left (normalize_step false) (split (cwd env)) []). intros k.
  cbn [fold_left].
  change (normalize_step false k "artifacts") with ("artifacts"%string :: k).
  change (normalize_step false ("artifacts"%string :: k) "anchor")
    with ("anchor"%string :: "artifacts"%string :: k).
  change (normalize_step false ("anchor"%string :: "artifacts"%string :: k) "")
    with ("anchor"%string :: "artifacts"%string :: k).
  cbn [rev]. rewrite <- app_assoc. reflexivity.
Qed.

Lemma outputRoot_nonempty env : is_empty (outputRoot env) = false.
Proof.
  unfold outputRoot, path_resolve.
  destruct (resolve_from _ _ _) as [p absolute].
  destruct absolute; [reflexivity|].
  destruct (normalizeString p (negb false)) eqn:E; reflexivity.
Qed.

(** [path.join] of a directory and one plain name. *)
Lemma path_join_name x s :
  is_empty x = false -> plain s = true -> path_join [x; s] = stem x +:+ s.
Proof.
  intros Hx Hs. unfold path_join. cbn [List.filter]. unfold nonempty.
  rewrite Hx, (proj1 (plain_facts _ Hs)). cbn [negb].
  change (String.concat "/" [x; s]) with (x +:+ String "/" s).
  apply normalize_snoc; assumption.
Qed.

Lemma path_resolve_rooted cwd l :
  all_plain l = true -> path_resolve cwd [rooted l] = rooted l.
Proof.
  intros Hl. unfold path_resolve. cbn [rev app resolve_from].
  change (is_empty (rooted l)) with false. change (isAbsolute (rooted l)) with true.
  cbn iota. cbn [negb]. unfold normalizeString, rooted at 2. f_equal.
  assert (Hk : kept_segments false (rooted l +:+ "/" +:+ "") = rev l).
  { change (rooted l +:+ "/" +:+ "") with (rooted l +:+ String "/" "").
    unfold kept_segments. rewrite split_app, fold_left_app.
    fold (kept_segments false (rooted l)). rewrite (kept_rooted _ Hl). reflexivity. }
  rewrite Hk, rev_involutive. reflexivity.
Qed.

Lemma filter_plain l : all_plain l = true -> List.filter nonempty l = l.
Proof.
  induction l as [|s l IH]; [reflexivity|].
  unfold all_plain. cbn [forallb List.filter]. intros [Hs Hr]%andb_prop.
  unfold nonempty at 1. rewrite (proj1 (plain_facts _ Hs)). cbn. rewrite (IH Hr). reflexivity.
Qed.

Lemma segments_rooted l : all_plain l = true -> segments (rooted l) = l.
Proof.
  intros Hl. unfold segments. destruct l as [|s l]; [reflexivity|].
  rewrite rooted_cons, (split_concat _ _ Hl).
  change (List.filter nonempty (split EmptyString ++ s :: l))
    with (List.filter nonempty (s :: l)).
  apply filter_plain, Hl.
Qed.

Lemma relative_below l rest : relative_segments l (l ++ rest) = rest.
Proof.
  induction l as [|s l IH]; [destruct rest; reflexivity|].
  cbn [app relative_segments]. rewrite String.eqb_refl. exact IH.
Qed.

(** [path.relative] from a clean absolute directory to a path below
    it. *)
Lemma path_relative_rooted cwd l rest :
  all_plain l = true -> all_plain rest = true ->
  path_relative cwd (rooted l) (rooted (l ++ rest)) = String.concat "/" rest.
Proof.
  intros Hl Hr. unfold path_relative.
  assert (Hlr : all_plain (l ++ rest) = true) by (rewrite all_plain_app, Hl, Hr; reflexivity).
  rewrite !path_resolve_rooted, !segments_rooted by assumption.
  rewrite relative_below. reflexivity.
Qed.

End PathFacts.

(** ** The workspace builder *)
Module AnchorBuilderFacts.
Import Js AnchorBuilder PathFacts.

Example sanitize_my_program : sanitizeProgramName "My Program!!" = "my_program".
Proof. reflexivity. Qed.

Example sanitize_keeps_underscores : sanitizeProgramName " a__B-_c " = "a__b__c".
Proof. reflexivity. Qed.

Example kebab_my_program : toKebabCase "My Program!!" = "my-program".
Proof. reflexivity. Qed.

(** *** Slugs *)

Ltac each_char c := destruct c as [[] [] [] [] [] [] [] []].

Lemma slug_char_not_space c : is_slug_char c = true -> is_white_space c = false.
Proof. each_char c; vm_compute; congruence. Qed.

Lemma slug_char_lower c : is_slug_char c = true -> lower_char c = c.
Proof. each_char c; vm_compute; congruence. Qed.

Lemma space_not_slug c : is_white_space c = true -> is_slug_char (lower_char c) = false.
Proof. each_char c; vm_compute; congruence. Qed.

Lemma lower_no_underscore c :
  is_underscore c = false -> is_slug_char (lower_char c) = is_alnum (lower_char c).
Proof. each_char c; vm_compute; congruence. Qed.

Lemma lower_symbol c :
  is_alnum c = false ->
  is_slug_char (lower_char c) = false \/ is_underscore (lower_char c) = true.
Proof. each_char c; vm_compute; auto; congruence. Qed.

Section StringFacts.

Variable p : ascii -> bool.

Lemma drop_start_clean s : starts_clean p (drop_start p s).
Proof. induction s as [|c r IH]; simpl; [exact I|]. destruct (p c) eqn:E; simpl; auto. Qed.

Lemma drop_start_id s : starts_clean p s -> drop_start p s = s.
Proof. destruct s as [|c r]; simpl; [reflexivity|]. intros ->. reflexivity. Qed.

Lemma drop_end_clean s : starts_clean p s -> starts_clean p (drop_end p s).
Proof.
  destruct s as [|c r]; simpl; [exact (fun x => x)|].
  intros H. rewrite H. exact H.
Qed.

Lemma drop_end_idem s : drop_end p (drop_end p s) = drop_end p s.
Proof.
  induction s as [|c r IH]; simpl; [reflexivity|].
  destruct (p c) eqn:E; simpl.
  - destruct (drop_end p r) eqn:Er; simpl; [reflexivity|].
    rewrite E. simpl in IH. rewrite IH. simpl. reflexivity.
  - rewrite E, IH. reflexivity.
Qed.

Lemma drop_start_all s : all_chars p s = true -> drop_start p s = EmptyString.
Proof.
  induction s as [|c r IH]; simpl; [reflexivity|].
  intros [-> H]%andb_prop. auto.
Qed.

Lemma drop_end_all s : all_chars p s = true -> drop_end p s = EmptyString.
Proof.
  induction s as [|c r IH]; simpl; [reflexivity|].
  intros [-> H]%andb_prop. rewrite (IH H). reflexivity.
Qed.

Lemma drop_end_app_all x u :
  all_chars p u = true -> drop_end p (x +:+ u) = drop_end p x.
Proof.
  intros Hu. induction x as [|c x IH]; simpl.
  - apply drop_end_all, Hu.
  - rewrite IH. reflexivity.
Qed.

Lemma drop_start_app_all x u :
  all_chars p u = true ->
  exists u', all_chars p u' = true /\ drop_start p (x +:+ u) = drop_start p x +:+ u'.
Proof.
  intros Hu. induction x as [|c x IH]; simpl.
  - exists EmptyString. split; [reflexivity|]. apply drop_start_all, Hu.
  - destruct (p c); [exact IH|]. exists u. split; [exact Hu|reflexivity].
Qed.

Variable q : ascii -> bool.

Lemma all_chars_drop_start s : all_chars q s = true -> all_chars q (drop_start p s) = true.
Proof.
  induction s as [|c r IH]; simpl; [reflexivity|].
  intros [Hc Hr]%andb_prop. destruct (p c); simpl; auto.
  rewrite Hc, Hr. reflexivity.
Qed.

Lemma all_chars_drop_end s : all_chars q s = true -> all_chars q (drop_end p s) = true.
Proof.
  induction s as [|c r IH]; simpl; [reflexivity|].
  intros [Hc Hr]%andb_prop.
  destruct (p c && is_empty (drop_end p r)); simpl; [reflexivity|].
  rewrite Hc, (IH Hr). reflexivity.
Qed.

(** Dropping characters of a kind that does not occur changes nothing. *)
Lemma drop_start_none s :
  (forall c, q c = true -> p c = false) -> all_chars q s = true -> drop_start p s = s.
Proof.
  intros Hqp. destruct s as [|c r]; simpl; [reflexivity|].
  intros [Hc _]%andb_prop. rewrite (Hqp _ Hc). reflexivity.
Qed.

Lemma drop_end_none s :
  (forall c, q c = true -> p c = false) -> all_chars q s = true -> drop_end p s = s.
Proof.
  intros Hqp. induction s as [|c r IH]; simpl; [reflexivity|].
  intros [Hc Hr]%andb_prop. rewrite (Hqp _ Hc), (IH Hr). reflexivity.
Qed.

End StringFacts.

Lemma strip_app_underscores x u :
  all_chars is_underscore u = true ->
  strip_underscores (x +:+ u) = strip_underscores x.
Proof.
  intros Hu. unfold strip_underscores.
  destruct (drop_start_app_all is_underscore x u Hu) as (u' & Hu' & ->).
  apply drop_end_app_all, Hu'.
Qed.

Lemma toLowerCase_slug s : all_chars is_slug_char s = true -> toLowerCase s = s.
Proof.
  induction s as [|c r IH]; simpl; [reflexivity|].
  intros [Hc Hr]%andb_prop. rewrite (slug_char_lower _ Hc), (IH Hr). reflexivity.
Qed.

Lemma replace_runs_kept keep sep b s :
  all_chars keep s = true -> replace_runs keep sep b s = s.
Proof.
  revert b. induction s as [|c r IH]; simpl; [reflexivity|].
  intros b [-> Hr]%andb_prop. rewrite (IH _ Hr). reflexivity.
Qed.

Lemma replace_runs_class keep sep b s :
  keep sep = true -> all_chars keep (replace_runs keep sep b s) = true.
Proof.
  intros Hsep. revert b. induction s as [|c r IH]; simpl; [reflexivity|].
  intros b. destruct (keep c) eqn:E; simpl.
  - rewrite E. apply IH.
  - destruct b; simpl; [apply IH|]. rewrite Hsep. apply IH.
Qed.

(** A run that started before the string and a run that starts with it
    differ by one leading separator at most. *)
Lemma replace_runs_in_run keep s :
  drop_start is_underscore (replace_runs keep "_" true s) =
  drop_start is_underscore (replace_runs keep "_" false s).
Proof.
  destruct s as [|c r]; simpl; [reflexivity|].
  destruct (keep c); reflexivity.
Qed.

Lemma strip_leading_space s :
  strip_underscores (replace_runs is_slug_char "_" false
                       (toLowerCase (drop_start is_white_space s))) =
  strip_underscores (replace_runs is_slug_char "_" false (toLowerCase s)).
Proof.
  induction s as [|c r IH]; simpl; [reflexivity|].
  destruct (is_white_space c) eqn:E; [|reflexivity].
  rewrite IH. cbn [toLowerCase replace_runs]. rewrite (space_not_slug _ E).
  unfold strip_underscores. cbn [drop_start is_underscore Ascii.eqb].
  simpl. rewrite replace_runs_in_run. reflexivity.
Qed.

Lemma runs_of_trailing_space b s :
  exists u, all_chars is_underscore u = true /\
    replace_runs is_slug_char "_" b (toLowerCase s) =
    replace_runs is_slug_char "_" b (toLowerCase (drop_end is_white_space s)) +:+ u.
Proof.
  revert b. induction s as [|c r IH]; intros b.
  - exists EmptyString. split; reflexivity.
  - cbn [drop_end].
    destruct (is_white_space c && is_empty (drop_end is_white_space r)) eqn:E.
    + apply andb_prop in E as [Hc Hr].
      destruct (drop_end is_white_space r) eqn:Er; [|discriminate].
      destruct (IH true) as (u & Hu & Hru). simpl in Hru.
      cbn [toLowerCase replace_runs]. rewrite (space_not_slug _ Hc).
      destruct b.
      * exists u. split; [exact Hu|]. exact Hru.
      * exists (String "_" u). split; [exact Hu|]. rewrite Hru. reflexivity.
    + cbn [toLowerCase replace_runs].
      destruct (is_slug_char (lower_char c)).
      * destruct (IH false) as (u & Hu & ->). exists u. split; [exact Hu|reflexivity].
      * destruct (IH true) as (u & Hu & ->). exists u. split; [exact Hu|].
        destruct b; reflexivity.
Qed.

(** [trim] is redundant in [sanitizeProgramName]: white space at either
    end becomes part of a separator run that is stripped anyway. *)
Lemma cleaned_without_trim name :
  cleaned name =
  strip_underscores (replace_runs is_slug_char "_" false (toLowerCase name)).
Proof.
  unfold cleaned, trim. fold (strip_underscores
    (replace_runs is_slug_char "_" false
       (toLowerCase (drop_end is_white_space (drop_start is_white_space name))))).
  rewrite <- (strip_leading_space name).
  destruct (runs_of_trailing_space false (drop_start is_white_space name))
    as (u & Hu & ->).
  symmetry. apply strip_app_underscores, Hu.
Qed.

Lemma cleaned_class name : all_chars is_slug_char (cleaned name) = true.
Proof.
  unfold cleaned. apply all_chars_drop_end, all_chars_drop_start.
  apply replace_runs_class. reflexivity.
Qed.

Lemma cleaned_fixed name : cleaned (cleaned name) = cleaned name.
Proof.
  pose proof (cleaned_class name) as Hclass.
  assert (Hstart : starts_clean is_underscore (cleaned name)).
  { unfold cleaned. apply drop_end_clean, drop_start_clean. }
  assert (Hend : drop_end is_underscore (cleaned name) = cleaned name).
  { unfold cleaned. apply drop_end_idem. }
  set (c := cleaned name) in *. unfold cleaned, trim.
  rewrite (drop_start_none is_white_space is_slug_char c slug_char_not_space Hclass).
  rewrite (drop_end_none is_white_space is_slug_char c slug_char_not_space Hclass).
  rewrite (toLowerCase_slug c Hclass).
  rewrite (replace_runs_kept _ _ _ c Hclass).
  rewrite (drop_start_id _ c Hstart). exact Hend.
Qed.

Lemma sanitizeProgramName_idempotent name :
  sanitizeProgramName (sanitizeProgramName name) = sanitizeProgramName name.
Proof.
  unfold sanitizeProgramName at 2 3.
  destruct (is_empty (cleaned name)) eqn:E; [reflexivity|].
  unfold sanitizeProgramName. rewrite cleaned_fixed, E. reflexivity.
Qed.

Lemma sanitizeProgramName_code_slug name : sanitizeProgramName name = code_slug name.
Proof. unfold sanitizeProgramName, code_slug. rewrite cleaned_without_trim. reflexivity. Qed.

Lemma replace_runs_same_class t b :
  all_chars (fun c => Bool.eqb (is_slug_char c) (is_alnum c)) t = true ->
  replace_runs is_slug_char "_" b t = replace_runs is_alnum "_" b t.
Proof.
  revert b. induction t as [|c r IH]; simpl; [reflexivity|].
  intros b [Hc Hr]%andb_prop. apply eqb_prop in Hc. rewrite Hc, !(IH _ Hr).
  reflexivity.
Qed.

Lemma toLowerCase_same_class name :
  all_chars (fun c => negb (is_underscore c)) name = true ->
  all_chars (fun c => Bool.eqb (is_slug_char c) (is_alnum c)) (toLowerCase name) = true.
Proof.
  induction name as [|c r IH]; simpl; [reflexivity|].
  intros [Hc Hr]%andb_prop. apply negb_true_iff in Hc.
  rewrite (lower_no_underscore _ Hc), eqb_reflx, (IH Hr). reflexivity.
Qed.

Lemma sanitize_agrees_with_spec name :
  all_chars (fun c => negb (is_underscore c)) name = true ->
  sanitizeProgramName name = spec_slug name.
Proof.
  intros H. rewrite sanitizeProgramName_code_slug. unfold code_slug, spec_slug.
  rewrite (replace_runs_same_class _ _ (toLowerCase_same_class _ H)). reflexivity.
Qed.

Lemma runs_of_symbols b name :
  all_chars (fun c => negb (is_alnum c)) name = true ->
  all_chars is_underscore (replace_runs is_slug_char "_" b (toLowerCase name)) = true.
Proof.
  revert b. induction name as [|c r IH]; simpl; [reflexivity|].
  intros b [Hc Hr]%andb_prop. apply negb_true_iff in Hc.
  destruct (lower_symbol _ Hc) as [E|E].
  - rewrite E. destruct b; simpl; apply IH, Hr.
  - destruct (is_slug_char (lower_char c)); simpl.
    + rewrite E. simpl. apply IH, Hr.
    + destruct b; simpl; apply IH, Hr.
Qed.

Lemma sanitize_symbols_default name :
  all_chars (fun c => negb (is_alnum c)) name = true ->
  sanitizeProgramName name = default_slug.
Proof.
  intros H. rewrite sanitizeProgramName_code_slug. unfold code_slug, strip_underscores.
  rewrite (drop_start_all _ _ (runs_of_symbols false name H)). reflexivity.
Qed.

Lemma sanitizeProgramName_nonempty name : is_empty (sanitizeProgramName name) = false.
Proof.
  unfold sanitizeProgramName.
  destruct (is_empty (cleaned name)) eqn:E; [reflexivity|exact E].
Qed.

Lemma sanitizeProgramName_class name :
  all_chars is_slug_char (sanitizeProgramName name) = true.
Proof.
  unfold sanitizeProgramName.
  destruct (is_empty (cleaned name)); [reflexivity|apply cleaned_class].
Qed.

(** *** Words and runs *)

Lemma toLowerCase_app x y : toLowerCase (x +:+ y) = toLowerCase x +:+ toLowerCase y.
Proof.
  induction x as [|c x IH]; [reflexivity|].
  change (String (lower_char c) (toLowerCase (x +:+ y)) =
          String (lower_char c) (toLowerCase x +:+ toLowerCase y)).
  rewrite IH. reflexivity.
Qed.

(** A stretch of kept characters passes in lower case and ends the run. *)
Lemma runs_replaced_kept b w rest :
  all_chars (fun c => negb (is_symbol c)) w = true -> is_empty w = false ->
  runs_replaced b (w +:+ rest) = toLowerCase w +:+ runs_replaced false rest.
Proof.
  revert b. induction w as [|c w IH]; intros b Hw Hne; [discriminate|].
  cbn [all_chars] in Hw. apply andb_prop in Hw as [Hc Hw].
  unfold is_symbol in Hc. rewrite negb_involutive in Hc.
  change (runs_replaced b (String c w +:+ rest))
    with (replace_runs is_slug_char "_" b (String (lower_char c) (toLowerCase (w +:+ rest)))).
  cbn [replace_runs]. rewrite Hc.
  change (toLowerCase (String c w) +:+ runs_replaced false rest)
    with (String (lower_char c) (toLowerCase w +:+ runs_replaced false rest)).
  f_equal. destruct w as [|c' w']; [reflexivity|].
  apply (IH false Hw). reflexivity.
Qed.

(** A stretch of symbols gives one underscore, or none when a run is
    already open, and leaves the run open. *)
Lemma runs_replaced_symbols b r rest :
  all_chars is_symbol r = true ->
  runs_replaced b (r +:+ rest) =
  (if b || is_empty r then "" else "_") +:+ runs_replaced (b || negb (is_empty r)) rest.
Proof.
  revert b. induction r as [|c r IH]; intros b Hr.
  - rewrite !orb_false_r. destruct b; reflexivity.
  - cbn [all_chars] in Hr. apply andb_prop in Hr as [Hc Hr].
    unfold is_symbol in Hc. apply negb_true_iff in Hc.
    change (runs_replaced b (String c r +:+ rest))
      with (replace_runs is_slug_char "_" b (String (lower_char c) (toLowerCase (r +:+ rest)))).
    cbn [replace_runs is_empty negb]. rewrite Hc, !orb_false_r, !orb_true_r.
    fold (runs_replaced true (r +:+ rest)). rewrite (IH true Hr). cbn [orb].
    destruct b; reflexivity.
Qed.

Lemma word_facts w :
  is_word w = true ->
  all_chars (fun c => negb (is_symbol c)) w = true /\ is_empty w = false /\
  alnum_edge (first_char w) = true /\ alnum_edge (last_char w) = true.
Proof.
  unfold is_word. intros [[H1 H2]%andb_prop H3]%andb_prop.
  repeat split; try assumption. destruct w; [discriminate|reflexivity].
Qed.

(** What the runs leave of woven words: the words underscored, and one
    more underscore when symbols follow. *)
Lemma runs_replaced_weave b w more after :
  is_word w = true ->
  forallb (fun rw => is_run (fst rw) && is_word (snd rw)) more = true ->
  all_chars is_symbol after = true ->
  runs_replaced b (weave w more +:+ after) =
  underscored w more +:+ (if is_empty after then "" else "_").
Proof.
  revert b w. induction more as [|[r w'] more IH]; intros b w Hw Hmore Hafter.
  - destruct (word_facts _ Hw) as (Hk & Hne & _).
    cbn [weave underscored]. rewrite (runs_replaced_kept _ _ _ Hk Hne).
    rewrite <- (append_nil_r after) at 1.
    rewrite (runs_replaced_symbols _ _ _ Hafter). cbn [orb].
    change (runs_replaced (negb (is_empty after)) "") with EmptyString.
    rewrite append_nil_r. reflexivity.
  - cbn [forallb fst snd] in Hmore.
    apply andb_prop in Hmore as [[Hr Hw']%andb_prop Hmore].
    unfold is_run in Hr. apply andb_prop in Hr as [Hrne Hr]. apply negb_true_iff in Hrne.
    destruct (word_facts _ Hw) as (Hk & Hne & _).
    cbn [weave underscored]. rewrite !append_assoc.
    rewrite (runs_replaced_kept _ _ _ Hk Hne).
    rewrite (runs_replaced_symbols _ _ _ Hr), Hrne. cbn [orb negb].
    rewrite (IH true w' Hw' Hmore Hafter), ?append_assoc. reflexivity.
Qed.

Lemma alnum_lower_not_underscore c : is_alnum c = true -> is_underscore (lower_char c) = false.
Proof. each_char c; vm_compute; congruence. Qed.

Lemma last_char_app x y : is_empty y = false -> last_char (x +:+ y) = last_char y.
Proof.
  intros Hy. induction x as [|c x IH]; [reflexivity|].
  change (last_char (String c (x +:+ y)) = last_char y). cbn [last_char].
  destruct (x +:+ y) eqn:E; [|exact IH].
  apply (f_equal is_empty) in E. rewrite is_empty_app, Hy, andb_false_r in E. discriminate.
Qed.

Lemma last_char_lower w : last_char (toLowerCase w) = lower_char <$> last_char w.
Proof.
  induction w as [|c w IH]; [reflexivity|].
  cbn [toLowerCase last_char]. destruct w as [|c' w']; [reflexivity|]. exact IH.
Qed.

Lemma toLowerCase_empty w : is_empty (toLowerCase w) = is_empty w.
Proof. destruct w; reflexivity. Qed.

(** The underscored words start and end with a letter or a digit. *)
Lemma underscored_edges w more :
  is_word w = true ->
  forallb (fun rw => is_run (fst rw) && is_word (snd rw)) more = true ->
  (exists c r, underscored w more = String c r /\ is_underscore c = false) /\
  (exists c, last_char (underscored w more) = Some c /\ is_underscore c = false).
Proof.
  revert w. induction more as [|[r w'] more IH]; intros w Hw Hmore.
  - destruct (word_facts _ Hw) as (_ & Hne & Hfirst & Hlast). cbn [underscored]. split.
    + destruct w as [|c w]; [discriminate|]. exists (lower_char c), (toLowerCase w).
      split; [reflexivity|]. apply alnum_lower_not_underscore, Hfirst.
    + rewrite last_char_lower. destruct (last_char w) as [c|]; [|discriminate].
      exists (lower_char c). split; [reflexivity|]. apply alnum_lower_not_underscore, Hlast.
  - cbn [forallb fst snd] in Hmore.
    apply andb_prop in Hmore as [[_ Hw']%andb_prop Hmore].
    destruct (word_facts _ Hw) as (_ & Hne & Hfirst & _).
    destruct (IH w' Hw' Hmore) as [(c0 & r0 & E0 & _) Hl]. cbn [underscored]. split.
    + destruct w as [|c w]; [discriminate|].
      exists (lower_char c), (toLowerCase w +:+ "_" +:+ underscored w' more).
      split; [reflexivity|]. apply alnum_lower_not_underscore, Hfirst.
    + rewrite <- append_assoc, last_char_app; [exact Hl|]. rewrite E0. reflexivity.
Qed.

Lemma drop_end_last p s c :
  last_char s = Some c -> p c = false -> drop_end p s = s.
Proof.
  induction s as [|x s IH]; [discriminate|].
  cbn [last_char drop_end]. destruct s as [|y s].
  - intros [= ->] ->. reflexivity.
  - intros Hl Hc. rewrite (IH Hl Hc). rewrite andb_false_r. reflexivity.
Qed.

(** The derivation on a name given as words and runs. *)
Lemma sanitize_words before w more after :
  all_chars is_symbol before = true ->
  is_word w = true ->
  forallb (fun rw => is_run (fst rw) && is_word (snd rw)) more = true ->
  all_chars is_symbol after = true ->
  sanitizeProgramName (before +:+ weave w more +:+ after) = underscored w more.
Proof.
  intros Hb Hw Hmore Ha.
  destruct (underscored_edges _ _ Hw Hmore) as [(c & r & E & Hc) (l & Hl & Hlc)].
  assert (Hclean : cleaned (before +:+ weave w more +:+ after) = underscored w more).
  { rewrite cleaned_without_trim. fold (runs_replaced false (before +:+ weave w more +:+ after)).
    rewrite (runs_replaced_symbols _ _ _ Hb), (runs_replaced_weave _ _ _ _ Hw Hmore Ha).
    unfold strip_underscores.
    assert (Hstart : forall u t, all_chars is_underscore u = true ->
              drop_start is_underscore (u +:+ underscored w more +:+ t) = underscored w more +:+ t).
    { intros u t Hu. induction u as [|x u IH].
      { rewrite E. change (drop_start is_underscore (String c (r +:+ t)) = String c (r +:+ t)).
        cbn [drop_start]. rewrite Hc. reflexivity. }
      cbn [all_chars] in Hu. apply andb_prop in Hu as [Hx Hu].
      change (drop_start is_underscore (String x (u +:+ underscored w more +:+ t)) = underscored w more +:+ t).
      cbn [drop_start]. rewrite Hx. exact (IH Hu). }
    rewrite Hstart by (destruct (false || is_empty before); reflexivity).
    rewrite drop_end_app_all by (destruct (is_empty after); reflexivity).
    apply (drop_end_last _ _ _ Hl Hlc). }
  unfold sanitizeProgramName. rewrite Hclean, E. reflexivity.
Qed.

(** C6, as the code has it.  For every program name the slug is the
    lower-cased name in which every run of characters other than [a-z],
    [0-9] and the underscore is collapsed into one underscore and from
    which leading and trailing underscores are trimmed, or the default
    slug when that is empty.  It coincides with the specification's
    derivation on every name without an underscore, it is the default slug
    for a name without letter or digit, the derivation is idempotent, its
    result is never empty and consists of [a-z], [0-9] and underscores
    only, and "My Program!!" gives "my_program".  Read without the
    functions that implement it: a name that consists of words separated
    by runs of symbols, with symbols before and after, gives the words in
    lower case joined by one underscore each, however long the runs
    are. *)
Theorem sanitizeProgramName_slug (name : string) :
  sanitizeProgramName name = code_slug name /\
  (all_chars (fun c => negb (is_underscore c)) name = true ->
   sanitizeProgramName name = spec_slug name) /\
  (all_chars (fun c => negb (is_alnum c)) name = true ->
   sanitizeProgramName name = default_slug) /\
  sanitizeProgramName (sanitizeProgramName name) = sanitizeProgramName name /\
  is_empty (sanitizeProgramName name) = false /\
  all_chars is_slug_char (sanitizeProgramName name) = true /\
  sanitizeProgramName "My Program!!" = "my_program" /\
  (forall before w more after,
     all_chars is_symbol before = true ->
     is_word w = true ->
     forallb (fun rw => is_run (fst rw) && is_word (snd rw)) more = true ->
     all_chars is_symbol after = true ->
     name = before +:+ weave w more +:+ after ->
     sanitizeProgramName name = underscored w more).
Proof.
  split; [apply sanitizeProgramName_code_slug|].
  split; [apply sanitize_agrees_with_spec|].
  split; [apply sanitize_symbols_default|].
  split; [apply sanitizeProgramName_idempotent|].
  split; [apply sanitizeProgramName_nonempty|].
  split; [apply sanitizeProgramName_class|].
  split; [reflexivity|].
  intros before w more after Hb Hw Hm Ha ->. apply sanitize_words; assumption.
Qed.

Lemma sanitizeProgramName_slug_witness :
  sanitizeProgramName "Hello, World" = spec_slug "Hello, World" /\
  sanitizeProgramName "?! *" = default_slug /\
  sanitizeProgramName "  Hello,   World -- 42!!" = "hello_world_42" /\
  sanitizeProgramName "a - b" = "a_b".
Proof.
  split; [|split; [|split]].
  - apply (proj1 (proj2 (sanitizeProgramName_slug "Hello, World"))). reflexivity.
  - apply (proj1 (proj2 (proj2 (sanitizeProgramName_slug "?! *")))). reflexivity.
  - apply (proj2 (proj2 (proj2 (proj2 (proj2 (proj2 (proj2
             (sanitizeProgramName_slug "  Hello,   World -- 42!!")))))))
             "  " "Hello" [(",   ", "World"); (" -- ", "42")] "!!"); reflexivity.
  - apply (proj2 (proj2 (proj2 (proj2 (proj2 (proj2 (proj2
             (sanitizeProgramName_slug "a - b")))))))
             "" "a" [(" - ", "b")] ""); reflexivity.
Defined.

(** C6 as the specification states it fails: a run of two underscores is
    a run of non-alphanumeric characters, and the code leaves it as it
    is. *)
Lemma sanitize_keeps_underscore_runs :
  sanitizeProgramName "a__b" = "a__b" /\
  spec_slug "a__b" = "a_b" /\
  sanitizeProgramName "a__b" <> spec_slug "a__b".
Proof. repeat split. discriminate. Qed.

(** The directory-name variant is not idempotent: it turns the underscores
    that [sanitizeProgramName] kept into hyphens, and a second pass
    collapses a run of those. *)
Lemma toKebabCase_not_idempotent :
  toKebabCase "a__b" = "a--b" /\ toKebabCase (toKebabCase "a__b") = "a-b".
Proof. split; reflexivity. Qed.

(** *** Time stamps in base 36 *)

Import Radix36 BuilderAux.

Lemma horner_app x y v : horner (x +:+ y) v = horner y (horner x v).
Proof. revert v. induction x as [|c x IH]; intros v; simpl; [reflexivity|apply IH]. Qed.

Lemma digit36_spec (d : N) :
  (d < 36)%N -> digit_value (digit36 d) = d /\ is_base36 (digit36 d) = true.
Proof.
  intros Hd. rewrite <- (N2Nat.id d). assert (Hk : N.to_nat d < 36) by lia.
  revert Hk. generalize (N.to_nat d). intros k Hk.
  do 36 (destruct k as [|k]; [split; reflexivity|]). lia.
Qed.

Lemma toString36_go_app fuel n acc :
  toString36_go fuel n acc = toString36_go fuel n "" +:+ acc.
Proof.
  revert n acc. induction fuel as [|f IH]; intros n acc; simpl; [reflexivity|].
  destruct (n <? 36)%N; [reflexivity|].
  set (d := digit36 (n mod 36)).
  rewrite (IH (n / 36)%N (String d acc)), (IH (n / 36)%N (String d "")).
  rewrite append_assoc. reflexivity.
Qed.

Lemma toString36_go_value fuel n :
  (n < pow36 fuel)%N -> horner (toString36_go fuel n "") 0 = n.
Proof.
  revert n. induction fuel as [|f IH]; intros n Hn; simpl in *; [lia|].
  assert (Hmod : (n mod 36 < 36)%N) by (apply N.mod_lt; lia).
  destruct (N.ltb_spec n 36) as [Hlt|Hge]; simpl.
  - rewrite N.mod_small by exact Hlt. apply digit36_spec, Hlt.
  - rewrite toString36_go_app, horner_app. simpl.
    rewrite IH by (apply N.Div0.div_lt_upper_bound; lia).
    rewrite (proj1 (digit36_spec _ Hmod)).
    rewrite (N.div_mod n 36) at 3 by lia. lia.
Qed.

Lemma toString36_go_digits fuel n acc :
  all_chars is_base36 acc = true ->
  all_chars is_base36 (toString36_go fuel n acc) = true.
Proof.
  revert n acc. induction fuel as [|f IH]; intros n acc Hacc; simpl; [exact Hacc|].
  assert (Hmod : (n mod 36 < 36)%N) by (apply N.mod_lt; lia).
  assert (Hacc' : all_chars is_base36 (String (digit36 (n mod 36)) acc) = true).
  { simpl. rewrite (proj2 (digit36_spec _ Hmod)), Hacc. reflexivity. }
  destruct (n <? 36)%N; [exact Hacc'|apply IH, Hacc'].
Qed.

Lemma size_bound (n : N) : (n < pow36 (N.size_nat n))%N.
Proof.
  destruct n as [|p]; simpl; [lia|].
  induction p as [p IH|p IH|]; simpl in *; lia.
Qed.

Lemma toString36_value n : horner (toString36 n) 0 = n.
Proof.
  unfold toString36. apply toString36_go_value.
  pose proof (size_bound n). simpl. lia.
Qed.

Lemma toString36_digits n : all_chars is_base36 (toString36 n) = true.
Proof. unfold toString36. apply toString36_go_digits. reflexivity. Qed.

(** *** The characters of a workspace name *)

Lemma kebab_char c :
  is_slug_char c = true ->
  is_dir_char (if Ascii.eqb c "_" then "-"%char else c) = true /\
  is_hyphen (if Ascii.eqb c "_" then "-"%char else c) = is_underscore c.
Proof. each_char c; vm_compute; intros; split; congruence. Qed.

Lemma base36_dir_char c : is_base36 c = true -> is_dir_char c = true.
Proof. each_char c; vm_compute; congruence. Qed.

Lemma replace_char_class s :
  all_chars is_slug_char s = true ->
  all_chars is_dir_char (replace_char "_" "-" s) = true.
Proof.
  induction s as [|c r IH]; simpl; [reflexivity|].
  intros [Hc Hr]%andb_prop. rewrite (proj1 (kebab_char c Hc)), (IH Hr). reflexivity.
Qed.

Lemma replace_char_first s :
  all_chars is_slug_char s = true -> starts_clean is_underscore s ->
  starts_clean is_hyphen (replace_char "_" "-" s).
Proof.
  destruct s as [|c r]; simpl; [auto|].
  intros [Hc _]%andb_prop Hu. rewrite (proj2 (kebab_char c Hc)). exact Hu.
Qed.

Lemma sanitize_starts_clean name : starts_clean is_underscore (sanitizeProgramName name).
Proof.
  unfold sanitizeProgramName. destruct (is_empty (cleaned name)); [reflexivity|].
  unfold cleaned. apply drop_end_clean, drop_start_clean.
Qed.

Lemma all_chars_app p x y :
  all_chars p x = true -> all_chars p y = true -> all_chars p (x +:+ y) = true.
Proof.
  induction x as [|c x IH]; simpl; [auto|].
  intros [-> Hx]%andb_prop Hy. apply IH; assumption.
Qed.

Lemma all_chars_weaken (p q : ascii -> bool) s :
  (forall c, p c = true -> q c = true) -> all_chars p s = true -> all_chars q s = true.
Proof.
  intros Hpq. induction s as [|c r IH]; simpl; [reflexivity|].
  intros [Hc Hr]%andb_prop. rewrite (Hpq _ Hc), (IH Hr). reflexivity.
Qed.

Lemma slice0_class p n s : all_chars p s = true -> all_chars p (slice0 n s) = true.
Proof.
  revert s. induction n as [|n IH]; intros [|c r]; simpl; try reflexivity.
  intros [-> Hr]%andb_prop. apply IH, Hr.
Qed.

(** *** Workspace names *)

Lemma append_inj_r (p a b : string) : p +:+ a = p +:+ b -> a = b.
Proof.
  induction p as [|c p IH]; simpl; [tauto|].
  intros [= H]. auto.
Qed.

Lemma dir_char_segment c : is_dir_char c = true -> is_slash c = false /\ Ascii.eqb c "." = false.
Proof. each_char c; vm_compute; intros; split; congruence. Qed.

(** A name that starts with a character other than the dot and holds no
    slash is a plain segment. *)
Lemma plain_intro c r :
  Ascii.eqb c "." = false -> no_slash (String c r) = true -> plain (String c r) = true.
Proof.
  intros Hc Hn. unfold plain, nonempty. rewrite Hn.
  cbn [is_empty negb andb String.eqb]. rewrite Hc. reflexivity.
Qed.

Lemma no_slash_app x y : no_slash x = true -> no_slash y = true -> no_slash (x +:+ y) = true.
Proof. apply all_chars_app. Qed.

Lemma kebab_segment name :
  exists c r, toKebabCase name = String c r /\ Ascii.eqb c "." = false /\
              no_slash (toKebabCase name) = true.
Proof.
  assert (Hclass := replace_char_class _ (sanitizeProgramName_class name)).
  assert (Hne := sanitizeProgramName_nonempty name).
  unfold toKebabCase in *.
  destruct (sanitizeProgramName name) as [|c r]; [discriminate|].
  cbn [replace_char] in *. eexists. eexists. split; [reflexivity|].
  split.
  - cbn [all_chars] in Hclass. apply andb_prop in Hclass as [Hc _].
    apply (dir_char_segment _ Hc).
  - apply (all_chars_weaken is_dir_char); [|exact Hclass].
    intros x Hx. rewrite (proj1 (dir_char_segment _ Hx)). reflexivity.
Qed.

(** The workspace name is a plain segment as soon as the part of the UUID
    it takes holds no slash; so is the name of the binary. *)
Lemma workspace_slug_plain name env suffix :
  no_slash (slice0 8 (uuid env)) = true -> no_slash suffix = true ->
  plain (workspace_slug (toKebabCase name) env +:+ suffix) = true.
Proof.
  intros Hu Hs. destruct (kebab_segment name) as (c & r & E & Hc & Hk).
  unfold workspace_slug. rewrite E in *.
  change (plain (String c ((r +:+ "-" +:+ toString36 (now env) +:+ "-" +:+ slice0 8 (uuid env))
                           +:+ suffix)) = true).
  apply plain_intro; [exact Hc|].
  change (no_slash ((String c r +:+ "-" +:+ toString36 (now env) +:+ "-"
                     +:+ slice0 8 (uuid env)) +:+ suffix) = true).
  repeat apply no_slash_app; try assumption; try reflexivity.
  apply (all_chars_weaken is_base36); [|apply toString36_digits].
  intros x Hx. rewrite (proj1 (dir_char_segment _ (base36_dir_char _ Hx))). reflexivity.
Qed.

Lemma workspace_slug_segment name env :
  no_slash (slice0 8 (uuid env)) = true ->
  plain (workspace_slug (toKebabCase name) env) = true.
Proof.
  intros Hu. rewrite <- (append_nil_r (workspace_slug _ _)).
  apply workspace_slug_plain; [exact Hu|reflexivity].
Qed.

(** C7, as the code has it.  Two builds of the same program name at the
    same instant get the same workspace name exactly when the first eight
    characters of their random UUIDs agree; they are distinct whenever
    those eight characters differ.  The same holds of the workspace
    directories, for UUIDs whose first eight characters hold no slash, as
    those of [randomUUID] do. *)
Theorem same_tick_slug_eq_iff (name : string) (dir : string) (t : N) (u1 u2 : string) :
  let env1 := {| cwd := dir; now := t; uuid := u1 |} in
  let env2 := {| cwd := dir; now := t; uuid := u2 |} in
  (workspace_slug (toKebabCase name) env1 = workspace_slug (toKebabCase name) env2
   <-> slice0 8 u1 = slice0 8 u2) /\
  (no_slash (slice0 8 u1) = true -> no_slash (slice0 8 u2) = true ->
   (path_join [outputRoot env1; workspace_slug (toKebabCase name) env1] =
    path_join [outputRoot env2; workspace_slug (toKebabCase name) env2]
    <-> slice0 8 u1 = slice0 8 u2)).
Proof.
  intros env1 env2.
  assert (Hslug : workspace_slug (toKebabCase name) env1 = workspace_slug (toKebabCase name) env2
                  <-> slice0 8 u1 = slice0 8 u2).
  { unfold workspace_slug, env1, env2. cbn [now uuid]. split.
    - intros H. repeat apply append_inj_r in H. exact H.
    - intros ->. reflexivity. }
  split; [exact Hslug|]. intros H1 H2.
  rewrite (path_join_name (outputRoot env1)), (path_join_name (outputRoot env2));
    try apply outputRoot_nonempty.
  - change (outputRoot env2) with (outputRoot env1). rewrite <- Hslug. split.
    + apply append_inj_r.
    + intros ->. reflexivity.
  - apply (workspace_slug_segment name env2), H2.
  - apply (workspace_slug_segment name env1), H1.
Qed.

Lemma same_tick_slug_eq_iff_witness :
  path_join [outputRoot {| cwd := "/home/agent"; now := 1700000000000;
                           uuid := "3f2a9c1e-7b4d-4e6f-8a1b-2c3d4e5f6a7b" |};
             workspace_slug (toKebabCase "vault")
               {| cwd := "/home/agent"; now := 1700000000000;
                  uuid := "3f2a9c1e-7b4d-4e6f-8a1b-2c3d4e5f6a7b" |}]
  = path_join [outputRoot {| cwd := "/home/agent"; now := 1700000000000;
                             uuid := "3f2a9c1e-0c55-4d21-9e07-5a4b3c2d1e0f" |};
               workspace_slug (toKebabCase "vault")
                 {| cwd := "/home/agent"; now := 1700000000000;
                    uuid := "3f2a9c1e-0c55-4d21-9e07-5a4b3c2d1e0f" |}].
Proof.
  apply (proj2 (same_tick_slug_eq_iff "vault" "/home/agent" 1700000000000
                  "3f2a9c1e-7b4d-4e6f-8a1b-2c3d4e5f6a7b"
                  "3f2a9c1e-0c55-4d21-9e07-5a4b3c2d1e0f") eq_refl eq_refl).
  reflexivity.
Defined.

(** C7 as the specification states it fails: two distinct version-4 UUIDs
    that share their first eight characters give two builds of the same
    name at the same instant one and the same workspace directory. *)
Lemma same_tick_collision :
  let env1 := {| cwd := "/home/agent"; now := 1700000000000;
                 uuid := "3f2a9c1e-7b4d-4e6f-8a1b-2c3d4e5f6a7b" |} in
  let env2 := {| cwd := "/home/agent"; now := 1700000000000;
                 uuid := "3f2a9c1e-0c55-4d21-9e07-5a4b3c2d1e0f" |} in
  uuid env1 <> uuid env2 /\
  ~ (path_join [outputRoot env1; workspace_slug (toKebabCase "vault") env1] <>
     path_join [outputRoot env2; workspace_slug (toKebabCase "vault") env2]).
Proof.
  split; [discriminate|]. intros H. apply H. reflexivity.
Qed.

(** *** Where the workspace and its files are *)

(** Under an absolute working directory the workspace of a plain slug is
    the output root followed by the slug. *)
Lemma workspace_rooted env slug :
  isAbsolute (cwd env) = true -> plain slug = true ->
  all_plain (cwd_segments env ++ ["artifacts"; "anchor"; slug]) = true /\
  path_join [outputRoot env; slug] = rooted (cwd_segments env ++ ["artifacts"; "anchor"; slug]) /\
  path_join [outputRoot env; slug] = outputRoot env +:+ "/" +:+ slug.
Proof.
  intros Habs Hslug.
  assert (Hroot : all_plain (cwd_segments env ++ ["artifacts"; "anchor"]) = true).
  { rewrite all_plain_app. unfold cwd_segments. rewrite kept_absolute_plain. reflexivity. }
  assert (Hs : all_plain [slug] = true) by (unfold all_plain; cbn; rewrite Hslug; reflexivity).
  assert (Hjoin : path_join [outputRoot env; slug] =
                  rooted ((cwd_segments env ++ ["artifacts"; "anchor"]) ++ [slug])).
  { rewrite (outputRoot_rooted _ Habs). apply path_join_rooted; assumption. }
  split; [|split].
  - rewrite (app_assoc _ ["artifacts"; "anchor"] [slug]), all_plain_app, Hroot, Hs. reflexivity.
  - rewrite Hjoin, <- app_assoc. reflexivity.
  - rewrite Hjoin, rooted_app, <- (outputRoot_rooted _ Habs);
      [reflexivity|destruct (cwd_segments env); discriminate|discriminate].
Qed.

(** Below a clean absolute directory [path.join] is concatenation. *)
Lemma path_join_below l segs :
  all_plain l = true -> l <> [] -> all_plain segs = true -> segs <> [] ->
  path_join (rooted l :: segs) = rooted l +:+ "/" +:+ String.concat "/" segs /\
  path_join (rooted l :: segs) = rooted (l ++ segs).
Proof.
  intros Hl Hne Hs Hsne. rewrite (path_join_rooted _ _ Hl Hs).
  split; [apply rooted_app; assumption|reflexivity].
Qed.

Section BuildFacts.

Variable anchor : list string -> string -> disk -> exec_result * disk.

(** *** Properties of the build that hold for every toolchain *)

Lemma scaffold_names options env d0 ws slug fl d1 :
  scaffold anchor options env d0 = (Return (ws, slug, fl), d1) ->
  slug = workspace_slug (toKebabCase (programName options)) env /\
  ws = path_join [outputRoot env; slug].
Proof.
  unfold scaffold, bind, try_catch, ret, throw, existsSync.
  repeat (match goal with
          | |- context [match ?x with _ => _ end] => destruct x eqn:?
          end; try discriminate).
  all: intros [= <- <- _ _]; split; reflexivity.
Qed.

(** When [anchor build] is rejected the handler runs on the disk the
    command left behind. *)
Lemma run_build_rejected ws slug d e d' :
  anchor ["build"] ws d = (Rejected e, d') ->
  run_build anchor ws slug d =
    (let programSoPath := soPath ws slug in
     let* hasSo := existsSync programSoPath in
     let* programSoBase64 := read_base64_if hasSo programSoPath in
     ret {| success := false;
            stdout := nullish (exn_stdout e) "";
            stderr := nullish (exn_stderr e) "";
            errorMessage := Some (exn_message e);
            programSoPath := if hasSo then Some programSoPath else None;
            programSoBase64 := programSoBase64;
            keypairPath := None |}) d'.
Proof.
  intros Hbuild. unfold run_build, try_catch, bind at 1, execFileAsync.
  rewrite Hbuild. reflexivity.
Qed.

Lemma read_present_file p data d :
  d !! p = Some (File data) ->
  existsSync p d = (Return true, d) /\
  read_base64_if true p d = (Return (Some (Base64.encode data)), d).
Proof.
  intros Hp. split.
  - unfold existsSync. rewrite Hp. rewrite bool_decide_eq_true_2; eauto.
  - unfold read_base64_if, bind, readFile, ret. rewrite Hp. reflexivity.
Qed.

Lemma run_build_rejected_with_artifact ws slug d e d' data :
  anchor ["build"] ws d = (Rejected e, d') ->
  d' !! soPath ws slug = Some (File data) ->
  run_build anchor ws slug d =
    (Return {| success := false;
               stdout := nullish (exn_stdout e) "";
               stderr := nullish (exn_stderr e) "";
               errorMessage := Some (exn_message e);
               programSoPath := Some (soPath ws slug);
               programSoBase64 := Some (Base64.encode data);
               keypairPath := None |}, d').
Proof.
  intros Hbuild Hso. rewrite (run_build_rejected _ _ _ _ _ Hbuild).
  destruct (read_present_file _ _ _ Hso) as [Hex Hrd].
  cbv zeta. unfold bind at 1. rewrite Hex.
  unfold bind at 1. rewrite Hrd. reflexivity.
Qed.

(** A binary that is there and cannot be opened: the read in the handler
    throws, and nothing catches it. *)
Lemma run_build_rejected_locked ws slug d e d' :
  anchor ["build"] ws d = (Rejected e, d') ->
  d' !! soPath ws slug = Some Locked ->
  run_build anchor ws slug d =
    (Throw (error Library ("EACCES: permission denied, open " +:+ quoted (soPath ws slug))),
     d').
Proof.
  intros Hbuild Hso. rewrite (run_build_rejected _ _ _ _ _ Hbuild).
  cbv zeta. unfold bind at 1, existsSync. rewrite Hso.
  rewrite bool_decide_eq_true_2 by eauto.
  unfold read_base64_if, bind, readFile. rewrite Hso. reflexivity.
Qed.

(** C1, as the code has it.  If the steps before the build go through
    and [anchor build] is then rejected (a non-zero exit status): when the
    compiled binary is a file the process can read at the expected
    artifact path, [path.join(workspaceDir, "target", "deploy",
    slug + ".so")], [createAnchorProgram] returns a build result with
    [success = false] whose [programSoBase64] is the base64 encoding of
    the binary's bytes and whose [programSoPath] is that path; when the
    binary is there and cannot be opened, the read error is thrown and
    nothing is returned.  Under an absolute working directory, and with a
    UUID whose first eight characters hold no slash, the workspace is
    [<output root>/<slug>] and the artifact path is
    [<workspace>/target/deploy/<slug>.so]. *)
Theorem failed_build_keeps_artifact options env d0 ws slug fl d1 e d2 :
  scaffold anchor options env d0 = (Return (ws, slug, fl), d1) ->
  anchor ["build"] ws d1 = (Rejected e, d2) ->
  let artifact := path_join [ws; "target"; "deploy"; slug +:+ ".so"] in
  (forall data,
     d2 !! artifact = Some (File data) ->
     exists b,
       createAnchorProgram anchor options env d0 =
         (Return {| workspaceDir := ws; files := fl; build := Some b |}, d2) /\
       success b = false /\
       programSoBase64 b = Some (Base64.encode data) /\
       programSoPath b = Some artifact) /\
  (d2 !! artifact = Some Locked ->
   createAnchorProgram anchor options env d0 =
     (Throw (error Library ("EACCES: permission denied, open '" +:+ artifact +:+ "'")), d2)) /\
  slug = workspace_slug (toKebabCase (programName options)) env /\
  ws = path_join [outputRoot env; slug] /\
  (isAbsolute (cwd env) = true -> no_slash (slice0 8 (uuid env)) = true ->
   ws = outputRoot env +:+ "/" +:+ slug /\
   artifact = ws +:+ "/target/deploy/" +:+ slug +:+ ".so").
Proof.
  intros Hpre Hbuild artifact.
  destruct (scaffold_names _ _ _ _ _ _ _ Hpre) as [Hslug Hws].
  split; [|split; [|split; [exact Hslug|split; [exact Hws|]]]].
  - intros data Hso. eexists. split; [|split; [|split]].
    + unfold createAnchorProgram, bind at 1. rewrite Hpre. unfold bind at 1.
      rewrite (run_build_rejected_with_artifact _ _ _ _ _ _ Hbuild Hso). reflexivity.
    + reflexivity.
    + reflexivity.
    + reflexivity.
  - intros Hso. unfold createAnchorProgram, bind at 1. rewrite Hpre. unfold bind at 1.
    rewrite (run_build_rejected_locked _ _ _ _ _ Hbuild Hso). reflexivity.
  - intros Habs Hu.
    assert (Hplain : plain slug = true)
      by (rewrite Hslug; apply workspace_slug_segment, Hu).
    assert (Hso : plain (slug +:+ ".so") = true)
      by (rewrite Hslug; apply workspace_slug_plain; [exact Hu|reflexivity]).
    destruct (workspace_rooted env slug Habs Hplain) as (Hall & Hrooted & Htext).
    split; [rewrite Hws; exact Htext|].
    unfold artifact. rewrite Hws, Hrooted.
    destruct (path_join_below (cwd_segments env ++ ["artifacts"; "anchor"; slug])
                ["target"; "deploy"; slug +:+ ".so"] Hall) as [Hbelow _].
    + destruct (cwd_segments env); discriminate.
    + unfold all_plain. cbn [forallb]. rewrite Hso. reflexivity.
    + discriminate.
    + rewrite Hbelow. reflexivity.
Qed.

(** After a rejected [anchor build] the result never carries a
    [keypairPath], whether or not the key pair file is on the disk: the
    [catch] branch does not probe for it. *)
Lemma failed_build_reports_no_keypair options env d0 ws slug fl d1 e d2 r d3 :
  scaffold anchor options env d0 = (Return (ws, slug, fl), d1) ->
  anchor ["build"] ws d1 = (Rejected e, d2) ->
  createAnchorProgram anchor options env d0 = (Return r, d3) ->
  exists b, build r = Some b /\ success b = false /\ keypairPath b = None.
Proof.
  intros Hpre Hbuild.
  unfold createAnchorProgram, bind at 1. rewrite Hpre.
  unfold bind at 1. rewrite (run_build_rejected _ _ _ _ _ Hbuild).
  cbv zeta. generalize (soPath ws slug). intros p H.
  cbv [bind existsSync read_base64_if readFile ret] in H.
  destruct (d2 !! p) as [[data| |]|] eqn:Hso;
    cbn in H; rewrite ?Hso in H; cbn in H;
    inversion H; subst; eexists; repeat split.
Qed.

(** The [try] branch, for comparison: after a build that exits with
    status 0 the key pair file is probed and reported, and a missing
    binary leaves [programSoBase64] undefined although [success] is
    [true]. *)
Lemma successful_build_reports_keypair ws slug d out err d' key :
  anchor ["build"] ws d = (Resolved out err, d') ->
  d' !! soPath ws slug = None ->
  d' !! keypairJsonPath ws slug = Some (File key) ->
  exists b, run_build anchor ws slug d = (Return b, d') /\
            success b = true /\
            programSoBase64 b = None /\
            keypairPath b = Some (keypairJsonPath ws slug).
Proof.
  intros Hbuild Hso Hkey.
  unfold run_build, try_catch, bind, execFileAsync, existsSync, read_base64_if, ret.
  rewrite Hbuild, Hso, Hkey.
  rewrite bool_decide_eq_false_2 by (intros [? ?]; discriminate).
  rewrite bool_decide_eq_true_2 by eauto.
  eexists. repeat split.
Qed.

End BuildFacts.

(** *** The sample build *)

Lemma failed_build_keeps_artifact_witness :
  sample_built !! sample_artifact = Some (File sample_so) /\
  exists b,
    createAnchorProgram failing_anchor sample_options sample_env ∅ =
      (Return {| workspaceDir := sample_ws; files := sample_files; build := Some b |},
       sample_built) /\
    success b = false /\
    programSoBase64 b = Some "f0VMRv8=" /\
    programSoPath b = Some sample_artifact.
Proof.
  assert (H1 : scaffold failing_anchor sample_options sample_env ∅
               = (Return (sample_ws, sample_slug, sample_files), sample_scaffolded))
    by reflexivity.
  assert (H2 : failing_anchor ["build"] sample_ws sample_scaffolded
               = (Rejected sample_error, sample_built))
    by reflexivity.
  assert (H3 : sample_built !! path_join [sample_ws; "target"; "deploy"; sample_slug +:+ ".so"]
               = Some (File sample_so))
    by reflexivity.
  split; [reflexivity|].
  destruct (failed_build_keeps_artifact failing_anchor sample_options sample_env ∅
              sample_ws sample_slug sample_files sample_scaffolded sample_error
              sample_built H1 H2) as (Hfile & _).
  destruct (Hfile sample_so H3) as (b & Hrun & Hs & H64 & Hp).
  exists b. repeat split; assumption.
Defined.

(** C1 as the specification states it fails: the build exits non-zero
    and leaves the binary at the expected artifact path, without any
    permission on it.  The binary exists, and no build result is
    returned: the read in the [catch] block throws. *)
Lemma locked_artifact_no_result :
  let out := createAnchorProgram locked_anchor sample_options sample_env ∅ in
  snd out !! sample_artifact = Some Locked /\
  fst (existsSync sample_artifact (snd out)) = Return true /\
  fst out = Throw (error Library ("EACCES: permission denied, open '" +:+ sample_artifact
                                  +:+ "'")) /\
  is_return (fst out) = false.
Proof. repeat split. Qed.

(** C2 at a concrete build.  [anchor build] fails after it has written
    the binary and the key pair file: the key pair file is on the disk at
    its expected place, and the result has no [keypairPath].  The same
    toolchain ending with status 0 reports it. *)
Theorem failed_build_drops_keypair :
  snd (createAnchorProgram failing_anchor sample_options sample_env ∅)
    !! keypairJsonPath sample_ws sample_slug = Some (File sample_key) /\
  fst (createAnchorProgram failing_anchor sample_options sample_env ∅) =
    Return {| workspaceDir := sample_ws; files := sample_files;
              build := Some {| success := false;
                               stdout := "";
                               stderr := "error: post-build step failed";
                               programSoPath := Some (soPath sample_ws sample_slug);
                               programSoBase64 := Some "f0VMRv8=";
                               keypairPath := None;
                               errorMessage := Some "Command failed: anchor build" |} |} /\
  (exists r b, fst (createAnchorProgram (sample_anchor sample_so sample_key (Resolved "" ""))
                      sample_options sample_env ∅) = Return r /\
               build r = Some b /\
               keypairPath b = Some (keypairJsonPath sample_ws sample_slug)).
Proof.
  split; [vm_compute; reflexivity|].
  split; [vm_compute; reflexivity|].
  eexists. eexists. split; [vm_compute; reflexivity|]. split; reflexivity.
Qed.

End AnchorBuilderFacts.

(** ** The signer *)
Module WalletFacts.
Import Wallet.

Section Signer.

Context `{Libraries}.

(** C9, as the code has it.  Construction fails with the
    invalid-key-material error exactly when the input base58-decodes and
    the decoded bytes are not exactly 64 long.  For an input that decodes
    to exactly 64 bytes, construction is handed to [Keypair.fromSecretKey]:
    it succeeds with that key pair when the library accepts the bytes, and
    fails with the library's exception when it rejects them. *)
Theorem wallet_construction (secretKeyBase58 : string) :
  (new_SolanaWallet secretKeyBase58 = Throw invalid_key_material <->
   exists bytes, bs58_decode secretKeyBase58 = Ok bytes /\ length bytes <> 64%nat) /\
  (forall bytes,
     bs58_decode secretKeyBase58 = Ok bytes -> length bytes = 64%nat ->
     new_SolanaWallet secretKeyBase58 =
       match Keypair_fromSecretKey bytes with
       | Ok k => Return {| keypair := k |}
       | Fails m => Throw (error Library m)
       end).
Proof.
  unfold new_SolanaWallet. split; [split|].
  - destruct (bs58_decode secretKeyBase58) as [bytes|m]; [|discriminate].
    destruct (Nat.eqb_spec (length bytes) 64) as [E|E]; simpl.
    + destruct (Keypair_fromSecretKey bytes); discriminate.
    + intros _. exists bytes. split; [reflexivity|exact E].
  - intros (bytes & -> & Hlen).
    apply Nat.eqb_neq in Hlen. rewrite Hlen. reflexivity.
  - intros bytes -> Hlen. rewrite Hlen. reflexivity.
Qed.

End Signer.

Import SampleLibraries.

Lemma wallet_construction_witness :
  @Wallet.new_SolanaWallet libs "111" = Throw Wallet.invalid_key_material /\
  @Wallet.new_SolanaWallet libs valid_secret_base58 =
    Return (@Wallet.Build_SolanaWallet libs
              {| kp_public := zero_seed_public_key; kp_secret := valid_secret |}).
Proof.
  split.
  - apply (proj1 (@wallet_construction libs "111")).
    exists [x00; x00; x00]. split; [reflexivity|]. simpl. lia.
  - rewrite (proj2 (@wallet_construction libs valid_secret_base58) valid_secret);
      [reflexivity| vm_compute; reflexivity | reflexivity].
Defined.

(** C9 as the specification states it fails: the base58 string of 64 zero
    bytes decodes to exactly 64 bytes, and construction fails all the
    same, inside [Keypair.fromSecretKey], because the last 32 bytes are not
    the public key of the first 32. *)
Lemma sixty_four_bytes_rejected :
  @bs58_decode libs all_zero_base58 = Ok (repeat x00 64) /\
  length (repeat x00 64) = 64%nat /\
  @Wallet.new_SolanaWallet libs all_zero_base58 =
    Throw (error Library "provided secretKey is invalid") /\
  is_return (@Wallet.new_SolanaWallet libs all_zero_base58) = false.
Proof. repeat split; vm_compute; reflexivity. Qed.

End WalletFacts.

(** ** The submission client *)
Module ClientFacts.
Import Js Wallet BlueshiftClient.

(** A string of code units below 256 holds no surrogate. *)
Lemma units_well_formed (s : string) : well_formed (units s) = true.
Proof.
  unfold units. induction s as [|c r IH]; [reflexivity|].
  cbn [String.list_ascii_of_string map well_formed].
  assert (Hc : (code c < 256)%N) by apply N_ascii_bounded.
  unfold is_high_surrogate, is_low_surrogate.
  destruct (N.leb_spec 55296 (code c)) as [H1|H1]; [lia|].
  destruct (N.leb_spec 56320 (code c)) as [H2|H2]; [lia|].
  exact IH.
Qed.

Section Client.

Context `{Libraries} `{Runtime}.

Variable server : Request -> lib_result Response.

(** *** For every library, runtime and server *)

(** A slug with a lone surrogate ends the call at once; with any other
    slug the call goes on to the payload, then to the request. *)
Lemma submit_steps c slug txb64 tx w :
  submitClientChallenge server c slug txb64 tx w =
  if well_formed slug then
    (let* serialized := resolveTransactionBase64 c txb64 tx in
     let* response := fetch server (submission_request c slug serialized) in
     ret (classify response (parseJsonSafe response))) w
  else (Throw (error Library "URI malformed"), w).
Proof.
  unfold submitClientChallenge, bind at 1, encodeURIComponent_js.
  destruct (well_formed slug); reflexivity.
Qed.

(** Once the payload is resolved and the service has answered, the result
    is the classification of the decoded payload. *)
Lemma submit_answered c slug txb64 tx w s w1 res :
  well_formed slug = true ->
  resolveTransactionBase64 c txb64 tx w = (Return s, w1) ->
  server (submission_request c slug s) = Ok res ->
  submitClientChallenge server c slug txb64 tx w =
    (Return (classify res (parseJsonSafe res)),
     after_request w1 (submission_request c slug s)).
Proof.
  intros Hwf Hres Hsrv. rewrite submit_steps, Hwf. unfold bind at 1. rewrite Hres.
  unfold bind, fetch. rewrite Hsrv. reflexivity.
Qed.

Lemma success_shape payload :
  isClientSubmissionSuccess payload = true <->
  exists fields b items,
    payload = JObject fields /\
    assoc "success" fields = Some (JBool b) /\
    assoc "results" fields = Some (JArray items).
Proof.
  unfold isClientSubmissionSuccess, not_an_object. split.
  - destruct payload as [| | | | |fields]; simpl; try discriminate.
    destruct (assoc "success" fields) as [[| b | | | |]|] eqn:Hs; simpl; try discriminate.
    destruct (assoc "results" fields) as [[| | | | items |]|] eqn:Hr; simpl; try discriminate.
    intros _. exists fields, b, items. auto.
  - intros (fields & b & items & -> & Hs & Hr). simpl. rewrite Hs, Hr. reflexivity.
Qed.

Lemma error_shape payload :
  isClientSubmissionError payload = true <->
  exists fields e m,
    payload = JObject fields /\
    assoc "error" fields = Some (JString e) /\
    assoc "message" fields = Some (JString m).
Proof.
  unfold isClientSubmissionError, not_an_object. split.
  - destruct payload as [| | | | |fields]; simpl; try discriminate.
    destruct (assoc "error" fields) as [[| | | e | |]|] eqn:He; simpl; try discriminate.
    destruct (assoc "message" fields) as [[| | | m | |]|] eqn:Hm; simpl; try discriminate.
    intros _. exists fields, e, m. auto.
  - intros (fields & e & m & -> & He & Hm). simpl. rewrite He, Hm. reflexivity.
Qed.

(** C3, as the code has it.  For a response declared as JSON whose body
    decodes to [payload]: when the status is 2xx and the payload is an
    object with a boolean [success] and an array [results], the result is
    the success envelope, [ok: true] with the payload unchanged; in every
    other case the result has [ok: false], and its body is the payload
    itself when that has string [error] and [message] fields, and
    otherwise a synthesized error envelope whose message is the
    stringified payload.  The result carries the response's status in
    all three cases.  The slug is any well-formed string, which every
    string of code units below 256 is. *)
Theorem submit_classifies_by_shape c slug txb64 tx w s w1 res payload :
  well_formed slug = true ->
  resolveTransactionBase64 c txb64 tx w = (Return s, w1) ->
  server (submission_request c slug s) = Ok res ->
  includes "application/json" (nullish (contentType res) "") = true ->
  JSON_parse (bodyText res) = Ok payload ->
  let out := submitClientChallenge server c slug txb64 tx w in
  let w2 := after_request w1 (submission_request c slug s) in
  (response_ok res = true -> isClientSubmissionSuccess payload = true ->
   out = (Return {| ok := true; result_status := status res; body := payload |}, w2)) /\
  (response_ok res && isClientSubmissionSuccess payload = false ->
   isClientSubmissionError payload = true ->
   out = (Return {| ok := false; result_status := status res; body := payload |}, w2)) /\
  (response_ok res && isClientSubmissionSuccess payload = false ->
   isClientSubmissionError payload = false ->
   out = (Return {| ok := false; result_status := status res;
                    body := error_envelope "Invalid response" (stringified payload) |}, w2)).
Proof.
  intros Hwf Hres Hsrv Hct Hparse out w2. subst out w2.
  rewrite (submit_answered _ _ _ _ _ _ _ _ Hwf Hres Hsrv).
  unfold parseJsonSafe. rewrite Hct, Hparse. cbn [negb].
  unfold classify. repeat split.
  - intros -> ->. reflexivity.
  - intros -> ->. reflexivity.
  - intros -> ->. reflexivity.
Qed.

(** C4, as the code has it.  With neither [transactionBase64] nor
    [transaction], and just as with an empty [transactionBase64], the
    call throws and leaves the world as it was: no request has been sent,
    whatever the service would have answered.  What it throws is the
    missing-payload error when the slug is a well-formed string, and the
    [URIError] of [encodeURIComponent], which is evaluated first, when
    the slug holds a lone surrogate. *)
Theorem submit_without_payload c slug w :
  let out := submitClientChallenge server c slug None None w in
  (well_formed slug = true -> out = (Throw missing_payload, w)) /\
  (well_formed slug = false -> out = (Throw (error Library "URI malformed"), w)) /\
  is_return (fst out) = false /\
  snd out = w /\
  sent (snd out) = sent w /\
  submitClientChallenge server c slug (Some "") None w = out.
Proof.
  intros out. subst out. rewrite !submit_steps.
  destruct (well_formed slug).
  - assert (E : (let* serialized := resolveTransactionBase64 c None None in
                 let* response := fetch server (submission_request c slug serialized) in
                 ret (classify response (parseJsonSafe response))) w
                = (Throw missing_payload, w)) by reflexivity.
    assert (E' : (let* serialized := resolveTransactionBase64 c (Some "") None in
                  let* response := fetch server (submission_request c slug serialized) in
                  ret (classify response (parseJsonSafe response))) w
                 = (Throw missing_payload, w)) by reflexivity.
    rewrite E, E'. repeat split. discriminate.
  - repeat split. discriminate.
Qed.

(** C5.  When the response's content type does not contain
    [application/json], the call returns, whatever the status, [ok: false]
    with the status and the error envelope
    [{ error: "Invalid response", message: <the raw body text> }]. *)
Theorem non_json_response c slug txb64 tx w s w1 res :
  well_formed slug = true ->
  resolveTransactionBase64 c txb64 tx w = (Return s, w1) ->
  server (submission_request c slug s) = Ok res ->
  includes "application/json" (nullish (contentType res) "") = false ->
  submitClientChallenge server c slug txb64 tx w =
    (Return {| ok := false; result_status := status res;
               body := JObject [("error", JString "Invalid response");
                                ("message", JString (bodyText res))] |},
     after_request w1 (submission_request c slug s)).
Proof.
  intros Hwf Hres Hsrv Hct.
  rewrite (submit_answered _ _ _ _ _ _ _ _ Hwf Hres Hsrv).
  unfold parseJsonSafe. rewrite Hct. cbn [negb].
  unfold classify.
  assert (Hs : isClientSubmissionSuccess (error_envelope "Invalid response" (bodyText res)) = false)
    by reflexivity.
  assert (He : isClientSubmissionError (error_envelope "Invalid response" (bodyText res)) = true)
    by reflexivity.
  rewrite Hs, He, andb_false_r. reflexivity.
Qed.

(** Resolving a transaction object: it is signed in place with the
    wallet's key pair, and the base64 of its serialization is the
    payload. *)
Lemma resolve_signs c (empty : option string) t tx tx' bytes w :
  empty = None \/ empty = Some "" ->
  transactions w !! t = Some tx ->
  transaction_sign tx [keypair (wallet c)] = Ok tx' ->
  transaction_serialize tx' = Ok bytes ->
  resolveTransactionBase64 c empty (Some t) w =
    (Return (Base64.encode bytes),
     {| transactions := <[t := tx']> (transactions w); sent := sent w |}).
Proof.
  intros Hempty Hget Hsign Hser.
  assert (E : resolveTransactionBase64 c empty (Some t) w =
              in_wallet (signAndEncodeTransaction (wallet c) t) w)
    by (destruct Hempty as [-> | ->]; reflexivity).
  rewrite E.
  unfold in_wallet, signAndEncodeTransaction, signVersionedTransaction, bind, deref.
  rewrite Hget, Hsign. rewrite lookup_insert_eq, Hser. reflexivity.
Qed.

(** C10.  A non-empty [transactionBase64] is the payload as it stands:
    the world is left untouched, so no transaction is signed, and the
    transaction argument plays no part in the request that is sent.  An
    empty [transactionBase64] resolves like an absent one: with the
    missing-payload error when there is no transaction, and otherwise by
    signing the transaction in place and sending the base64 of its
    serialization. *)
Theorem payload_resolution c slug (transactionBase64 : string) (transaction : option nat) w :
  well_formed slug = true ->
  transactionBase64 <> "" ->
  resolveTransactionBase64 c (Some transactionBase64) transaction w
    = (Return transactionBase64, w) /\
  submitClientChallenge server c slug (Some transactionBase64) transaction w
    = submitClientChallenge server c slug (Some transactionBase64) None w /\
  transactions (snd (submitClientChallenge server c slug (Some transactionBase64) transaction w))
    = transactions w /\
  sent (snd (submitClientChallenge server c slug (Some transactionBase64) transaction w))
    = sent w ++ [submission_request c slug transactionBase64] /\
  resolveTransactionBase64 c (Some "") transaction w
    = resolveTransactionBase64 c None transaction w /\
  resolveTransactionBase64 c (Some "") None w = (Throw missing_payload, w) /\
  (forall t tx tx' bytes,
     transactions w !! t = Some tx ->
     transaction_sign tx [keypair (wallet c)] = Ok tx' ->
     transaction_serialize tx' = Ok bytes ->
     let w' := snd (submitClientChallenge server c slug (Some "") (Some t) w) in
     resolveTransactionBase64 c (Some "") (Some t) w =
       (Return (Base64.encode bytes),
        {| transactions := <[t := tx']> (transactions w); sent := sent w |}) /\
     transactions w' !! t = Some tx' /\
     sent w' = sent w ++ [submission_request c slug (Base64.encode bytes)]).
Proof.
  intros Hwf Hne.
  assert (Hr : forall t', resolveTransactionBase64 c (Some transactionBase64) t' w
                          = (Return transactionBase64, w)).
  { intros t'. destruct transactionBase64; [congruence|reflexivity]. }
  assert (Hs : forall t', submitClientChallenge server c slug (Some transactionBase64) t' w =
                 (let* response := fetch server (submission_request c slug transactionBase64) in
                  ret (classify response (parseJsonSafe response))) w).
  { intros t'. rewrite submit_steps, Hwf. unfold bind at 1. rewrite Hr. reflexivity. }
  split; [apply Hr|].
  split; [rewrite !Hs; reflexivity|].
  rewrite Hs. unfold bind at 1 2, fetch.
  split; [destruct (server _); reflexivity|].
  split; [destruct (server _); reflexivity|].
  split; [reflexivity|]. split; [reflexivity|].
  intros t tx tx' bytes Hget Hsign Hser.
  pose proof (resolve_signs c (Some "") t tx tx' bytes w (or_intror eq_refl) Hget Hsign Hser)
    as Hres.
  split; [exact Hres|].
  assert (Hsub : submitClientChallenge server c slug (Some "") (Some t) w =
            (let* response := fetch server (submission_request c slug (Base64.encode bytes)) in
             ret (classify response (parseJsonSafe response)))
              {| transactions := <[t := tx']> (transactions w); sent := sent w |}).
  { rewrite submit_steps, Hwf. unfold bind at 1. rewrite Hres. reflexivity. }
  rewrite Hsub. unfold bind, fetch.
  destruct (server _); cbn; (split; [apply lookup_insert_eq|reflexivity]).
Qed.

(** C8.  [getProgress] sends one request.  On status 404 it returns
    [{ agent: null, challenges: [] }]; on any other status outside 2xx
    it throws an error whose message carries the status; on a 2xx status
    it completes as the decoding of the body does, so it returns the
    decoded body. *)
Theorem getProgress_by_status c address w res :
  let target := match address with Some a => a | None => Wallet.address (wallet c) end in
  server (progress_request c target) = Ok res ->
  let w' := after_request w (progress_request c target) in
  (status res = 404%N ->
   getProgress server c address w =
     (Return (JObject [("agent", JNull); ("challenges", JArray [])]), w')) /\
  (status res <> 404%N -> response_ok res = false ->
   getProgress server c address w =
     (Throw (error Own ("Failed to fetch agent progress: " +:+ pretty (status res)
                        +:+ " " +:+ statusText res)), w')) /\
  (response_ok res = true ->
   getProgress server c address w = (lift (JSON_parse (bodyText res)), w') /\
   forall v, JSON_parse (bodyText res) = Ok v ->
             getProgress server c address w = (Return v, w')).
Proof.
  intros target Hsrv w'. subst w'.
  assert (Hstep : getProgress server c address w =
            (if (status res =? 404)%N then ret no_progress
             else if negb (response_ok res) then
               throw (error Own ("Failed to fetch agent progress: " +:+ pretty (status res)
                                 +:+ " " +:+ statusText res))
             else fun w0 => (lift (JSON_parse (bodyText res)), w0))
            (after_request w (progress_request c target))).
  { unfold getProgress, bind, fetch. fold target. rewrite Hsrv. reflexivity. }
  rewrite Hstep. split; [|split].
  - intros ->. reflexivity.
  - intros Hne Hok. apply N.eqb_neq in Hne. rewrite Hne, Hok. reflexivity.
  - intros Hok.
    assert (Hne : (status res =? 404)%N = false).
    { apply N.eqb_neq. intros E. unfold response_ok in Hok. rewrite E in Hok.
      discriminate. }
    rewrite Hne, Hok. split; [reflexivity|].
    intros v ->. reflexivity.
Qed.

End Client.

(** *** On the sample libraries and runtime *)

Import SampleLibraries SampleRuntime ClientSamples.

#[local] Existing Instance libs.
#[local] Existing Instance runtime.

(** The targets of the sample requests. *)
Example sample_targets :
  url sample_request = "https://ai-api.blueshift.gg/v1/challenges/client/flash-loan" /\
  url own_progress_request =
    "https://ai-api.blueshift.gg/v1/agents/4zvwRjXUKGfvwnParsHAS3HuSVzV5cA4McphgmoCtajS/progress" /\
  encodeURIComponent "a b/c?" = "a%20b%2Fc%3F".
Proof. repeat split; vm_compute; reflexivity. Qed.

Lemma submit_classifies_by_shape_witness :
  submitClientChallenge (answering (json_response 200 "OK" (run_result true)))
    client flash_loan (Some "AQID") None start
  = (Return (envelope true 200 (run_result true)),
     after_request start sample_request) /\
  submitClientChallenge (answering (json_response 404 "Not Found" not_found))
    client flash_loan (Some "AQID") None start
  = (Return (envelope false 404 not_found),
     after_request start sample_request) /\
  submitClientChallenge (answering (json_response 200 "OK" (JString "maintenance")))
    client flash_loan (Some "AQID") None start
  = (Return (envelope false 200 (error_envelope "Invalid response" "maintenance")),
     after_request start sample_request).
Proof.
  split; [|split].
  - apply (@submit_classifies_by_shape libs runtime (answering (json_response 200 "OK" (run_result true)))
             client flash_loan (Some "AQID") None start "AQID" start
             (json_response 200 "OK" (run_result true)) (run_result true));
      reflexivity.
  - apply (@submit_classifies_by_shape libs runtime (answering (json_response 404 "Not Found" not_found))
             client flash_loan (Some "AQID") None start "AQID" start
             (json_response 404 "Not Found" not_found) not_found);
      reflexivity.
  - apply (@submit_classifies_by_shape libs runtime (answering (json_response 200 "OK" (JString "maintenance")))
             client flash_loan (Some "AQID") None start "AQID" start
             (json_response 200 "OK" (JString "maintenance")) (JString "maintenance"));
      reflexivity.
Defined.

(** C3 as the specification states it fails: a payload with a boolean
    [success] and an array [results] that arrives with status 500 is not
    returned as the success envelope; the result has [ok: false] and a
    synthesized error envelope in place of the payload. *)
Lemma success_shape_with_status_500 :
  let res := json_response 500 "Internal Server Error" (run_result true) in
  let out := submitClientChallenge (answering res) client flash_loan (Some "AQID") None start in
  parse (bodyText res) = Ok (run_result true) /\
  @isClientSubmissionSuccess runtime (run_result true) = true /\
  fst out = Return (envelope false 500
                      (error_envelope "Invalid response" (print (run_result true)))) /\
  fst out <> Return (envelope true 500 (run_result true)).
Proof. repeat split. discriminate. Qed.

Lemma submit_without_payload_witness :
  submitClientChallenge (answering (html_response 200)) client flash_loan None None start
  = (Throw missing_payload, start) /\
  submitClientChallenge (answering (html_response 200)) client torn_slug None None start
  = (Throw (error Library "URI malformed"), start).
Proof.
  destruct (@submit_without_payload libs runtime (answering (html_response 200)) client
              flash_loan start) as (Hok & _).
  destruct (@submit_without_payload libs runtime (answering (html_response 200)) client
              torn_slug start) as (_ & Hbad & _).
  split; [apply Hok|apply Hbad]; reflexivity.
Defined.

(** C4 as the specification states it fails: a slug that ends in a lone
    high surrogate, with neither [transactionBase64] nor [transaction].
    The call does not fail with the missing-payload error: it fails with
    the [URIError] of [encodeURIComponent(slug)]. *)
Lemma torn_slug_without_payload :
  let out := submitClientChallenge (answering (html_response 200)) client torn_slug
               None None start in
  well_formed torn_slug = false /\
  fst out = Throw (error Library "URI malformed") /\
  fst out <> Throw missing_payload /\
  sent (snd out) = [].
Proof. repeat split. discriminate. Qed.

Lemma non_json_response_witness :
  submitClientChallenge (answering (html_response 200)) client flash_loan (Some "AQID") None start
  = (Return (envelope false 200
               (JObject [("error", JString "Invalid response");
                         ("message", JString "<html><body>Bad gateway</body></html>")])),
     after_request start sample_request).
Proof.
  apply (@non_json_response libs runtime (answering (html_response 200)) client flash_loan
           (Some "AQID") None start "AQID" start (html_response 200)); reflexivity.
Defined.

Lemma payload_resolution_witness :
  resolveTransactionBase64 client (Some "AQID") (Some 0%nat) start = (Return "AQID", start) /\
  transactions (snd (submitClientChallenge (answering (html_response 200)) client
                       flash_loan (Some "AQID") (Some 0%nat) start))
    = transactions start /\
  resolveTransactionBase64 client (Some "") (Some 0%nat) start
  = (Return "AQECAw==",
     {| transactions := {[ 0%nat := {| tx_message := [x01; x02; x03]; tx_signed := true |} ]};
        sent := [] |}) /\
  sent (snd (submitClientChallenge (answering (html_response 200)) client
               flash_loan (Some "") (Some 0%nat) start))
  = [submission_request client flash_loan "AQECAw=="].
Proof.
  assert (Hne : "AQID" <> "") by discriminate.
  destruct (@payload_resolution libs runtime (answering (html_response 200)) client flash_loan
              "AQID" (Some 0%nat) start eq_refl Hne) as (H1 & _ & H3 & _ & _ & _ & Hsign).
  destruct (Hsign 0%nat unsigned {| tx_message := [x01; x02; x03]; tx_signed := true |}
              [x01; x01; x02; x03] eq_refl eq_refl eq_refl) as (Hres & _ & Hsent).
  split; [exact H1|]. split; [exact H3|]. split; [exact Hres|exact Hsent].
Defined.

Lemma getProgress_by_status_witness :
  getProgress (answering (json_response 404 "Not Found" not_found)) client None start
  = (Return (JObject [("agent", JNull); ("challenges", JArray [])]),
     after_request start own_progress_request) /\
  getProgress (answering (html_response 503)) client None start
  = (Throw (error Own "Failed to fetch agent progress: 503 OK"),
     after_request start own_progress_request) /\
  getProgress (answering (json_response 200 "OK" progress)) client None start
  = (Return progress, after_request start own_progress_request).
Proof.
  split; [|split].
  - destruct (@getProgress_by_status libs runtime
                (answering (json_response 404 "Not Found" not_found))
                client None start (json_response 404 "Not Found" not_found) eq_refl)
      as (H404 & _ & _).
    apply H404. reflexivity.
  - destruct (@getProgress_by_status libs runtime (answering (html_response 503))
                client None start (html_response 503) eq_refl)
      as (_ & Hbad & _).
    apply Hbad; [discriminate|reflexivity].
  - destruct (@getProgress_by_status libs runtime
                (answering (json_response 200 "OK" progress))
                client None start (json_response 200 "OK" progress) eq_refl)
      as (_ & _ & Hok).
    apply (proj2 (Hok eq_refl)). reflexivity.
Defined.

End ClientFacts.

(** ** More on the workspace builder *)
Module BuilderExtras.
Import Js AnchorBuilder PathFacts AnchorBuilderFacts Radix36.

(** *** Time stamps in base 36 *)

(** Two strings that agree up to and after their first hyphen. *)
Lemma split_at_hyphen x x' y y' :
  all_chars is_base36 x = true -> all_chars is_base36 x' = true ->
  x +:+ String "-" y = x' +:+ String "-" y' -> x = x' /\ y = y'.
Proof.
  revert x'. induction x as [|c x IH]; intros [|c' x'] Hx Hx'.
  - intros [= ->]. split; reflexivity.
  - intros [= <- _]. simpl in Hx'. discriminate.
  - intros [= -> _]. simpl in Hx. discriminate.
  - intros [= -> Hrest]. simpl in Hx, Hx'.
    apply andb_prop in Hx as [_ Hx]. apply andb_prop in Hx' as [_ Hx'].
    destruct (IH x' Hx Hx' Hrest) as [-> ->]. split; reflexivity.
Qed.

(** X1.  Two builds under the same directory name get the same workspace
    name exactly when they read the same clock value and their UUIDs
    agree on the first eight characters: builds at different
    milliseconds never share a workspace. *)
Theorem workspace_slug_eq_iff (programDirName : string) (env1 env2 : Env) :
  workspace_slug programDirName env1 = workspace_slug programDirName env2
  <-> now env1 = now env2 /\ slice0 8 (uuid env1) = slice0 8 (uuid env2).
Proof.
  unfold workspace_slug. split.
  - intros H. apply append_inj_r in H. apply (append_inj_r "-") in H.
    apply split_at_hyphen in H; try apply toString36_digits.
    destruct H as [Ht Hu]. split; [|exact Hu].
    rewrite <- (toString36_value (now env1)), <- (toString36_value (now env2)), Ht.
    reflexivity.
  - intros [-> ->]. reflexivity.
Qed.

(** *** Directory names *)
Import BuilderAux.

(** X2.  For every program name the workspace's directory name is not
    empty, does not start with a hyphen (so [anchor init] cannot take it
    for an option) and, when the UUID is made of lower-case hexadecimal
    digits and hyphens as [randomUUID] prints it, consists of lower-case
    letters, digits and hyphens only. *)
Theorem workspace_slug_safe (name : string) (env : Env) :
  let slug := workspace_slug (toKebabCase name) env in
  is_empty slug = false /\
  starts_clean is_hyphen slug /\
  (all_chars is_dir_char (uuid env) = true -> all_chars is_dir_char slug = true).
Proof.
  assert (Hclass := sanitizeProgramName_class name).
  assert (Hne := sanitizeProgramName_nonempty name).
  assert (Hfirst := replace_char_first _ Hclass (sanitize_starts_clean name)).
  assert (Hdir := replace_char_class _ Hclass).
  unfold workspace_slug, toKebabCase in *.
  destruct (sanitizeProgramName name) as [|c r]; [discriminate|].
  repeat split.
  - exact Hfirst.
  - intros Hu. repeat apply all_chars_app; try reflexivity.
    + exact Hdir.
    + apply (all_chars_weaken _ _ _ base36_dir_char), toString36_digits.
    + apply slice0_class, Hu.
Qed.

(** *** The build, step by step *)

(** Where the two source files go, under an absolute working directory
    and a UUID whose first eight characters hold no slash. *)
Lemma scaffold_paths name env :
  isAbsolute (cwd env) = true -> no_slash (slice0 8 (uuid env)) = true ->
  let slug := workspace_slug (toKebabCase name) env in
  let base := cwd_segments env ++ ["artifacts"; "anchor"; slug] in
  let ws := path_join [outputRoot env; slug] in
  all_plain base = true /\
  ws = rooted base /\
  ws = outputRoot env +:+ "/" +:+ slug /\
  path_join [path_join [path_join [ws; "programs"; slug]; "src"]; "lib.rs"]
    = rooted (base ++ ["programs"; slug; "src"; "lib.rs"]) /\
  path_join [path_join [ws; "programs"; slug]; "Cargo.toml"]
    = rooted (base ++ ["programs"; slug; "Cargo.toml"]).
Proof.
  intros Habs Hu slug base ws.
  assert (Hplain : plain slug = true) by apply workspace_slug_segment, Hu.
  destruct (workspace_rooted env slug Habs Hplain) as (Hall & Hrooted & Htext).
  fold base in Hall, Hrooted. fold ws in Hrooted, Htext.
  assert (Hprog : all_plain ["programs"; slug] = true)
    by (unfold all_plain; cbn [forallb]; rewrite Hplain; reflexivity).
  assert (Hdir : path_join [ws; "programs"; slug] = rooted (base ++ ["programs"; slug]))
    by (rewrite Hrooted; apply path_join_rooted; assumption).
  assert (Hall2 : all_plain (base ++ ["programs"; slug]) = true)
    by (rewrite all_plain_app, Hall, Hprog; reflexivity).
  repeat split; try assumption.
  - rewrite Hdir, (path_join_rooted _ ["src"] Hall2 eq_refl).
    rewrite path_join_rooted;
      [rewrite <- !app_assoc; reflexivity| |reflexivity].
    rewrite all_plain_app, Hall2. reflexivity.
  - rewrite Hdir, (path_join_rooted _ ["Cargo.toml"] Hall2 eq_refl).
    rewrite <- !app_assoc. reflexivity.
Qed.

Section BuildSteps.

Variable anchor : list string -> string -> disk -> exec_result * disk.

(** What [run_build] does once [anchor build] has ended, by the outcome
    and by what is at the binary's path. *)
Lemma run_build_outcome ws slug d res d' :
  anchor ["build"] ws d = (res, d') ->
  let artifact := path_join [ws; "target"; "deploy"; slug +:+ ".so"] in
  let keypair := path_join [ws; "target"; "deploy"; slug +:+ "-keypair.json"] in
  run_build anchor ws slug d =
    match d' !! artifact with
    | Some Dir =>
        (Throw (error Library "EISDIR: illegal operation on a directory, read"), d')
    | Some Locked =>
        (Throw (error Library ("EACCES: permission denied, open '" +:+ artifact +:+ "'")),
         d')
    | found =>
        let so := match found with Some (File data) => Some data | _ => None end in
        (Return
           match res with
           | Resolved out err =>
               {| success := true; stdout := out; stderr := err;
                  programSoPath := (fun _ => artifact) <$> so;
                  programSoBase64 := Base64.encode <$> so;
                  keypairPath :=
                    if bool_decide (is_Some (d' !! keypair)) then Some keypair else None;
                  errorMessage := None |}
           | Rejected e =>
               {| success := false;
                  stdout := nullish (exn_stdout e) "";
                  stderr := nullish (exn_stderr e) "";
                  programSoPath := (fun _ => artifact) <$> so;
                  programSoBase64 := Base64.encode <$> so;
                  keypairPath := None;
                  errorMessage := Some (exn_message e) |}
           end, d')
    end.
Proof.
  intros Hbuild.
  unfold run_build, try_catch, bind, execFileAsync, existsSync, read_base64_if,
    readFile, ret, soPath, keypairJsonPath, quoted.
  rewrite Hbuild.
  generalize (path_join [ws; "target"; "deploy"; slug +:+ ".so"])
             (path_join [ws; "target"; "deploy"; slug +:+ "-keypair.json"]).
  intros p k.
  destruct res as [out err|e];
    destruct (d' !! p) as [[data| |]|] eqn:Hso;
    repeat (progress (cbn; unfold bind, readFile, ret; rewrite ?Hso));
    reflexivity.
Qed.

(** A write that returned has put the text at the path. *)
Lemma writeFile_returned p content d a d' :
  writeFile p content d = (Return a, d') -> d' = <[p := File (utf8 content)]> d.
Proof.
  unfold writeFile.
  destruct (d !! dirname p) as [[?| |]|]; try discriminate.
  destruct (d !! p) as [[?| |]|]; try discriminate; intros [= _ <-]; reflexivity.
Qed.

(** What a scaffold that returned has done: both files are on the disk
    it hands on and are listed by their paths relative to the
    workspace. *)
Lemma scaffold_written options env d0 ws slug fl d1 :
  scaffold anchor options env d0 = (Return (ws, slug, fl), d1) ->
  let libRsPath :=
    path_join [path_join [path_join [ws; "programs"; slug]; "src"]; "lib.rs"] in
  let programCargoPath := path_join [path_join [ws; "programs"; slug]; "Cargo.toml"] in
  libRsPath <> programCargoPath ->
  d1 !! libRsPath = Some (File (utf8 (libRs options))) /\
  d1 !! programCargoPath = Some (File (utf8 (cargoToml options))) /\
  fl = [(path_relative (cwd env) ws libRsPath, libRs options);
        (path_relative (cwd env) ws programCargoPath, cargoToml options)].
Proof.
  intros Hpre libRsPath programCargoPath Hne.
  destruct (scaffold_names anchor _ _ _ _ _ _ _ Hpre) as [Hslug Hws].
  revert Hpre. unfold scaffold.
  rewrite <- Hslug, <- Hws. fold libRsPath programCargoPath.
  unfold bind at 1. destruct (existsSync (outputRoot env) d0) as [[ex|?] dx]; [|discriminate].
  unfold bind at 1.
  match goal with
  | |- context [let (_, _) := ?x in _] => destruct x as [[?|?] dr]; [|discriminate]
  end.
  unfold bind at 1.
  match goal with
  | |- context [let (_, _) := ?x in _] => destruct x as [[?|?] di]; [|discriminate]
  end.
  unfold bind at 1.
  destruct (writeFile libRsPath (libRs options) di) as [[?|?] dl] eqn:Hlib; [|discriminate].
  apply writeFile_returned in Hlib.
  unfold bind at 1.
  destruct (writeFile programCargoPath (cargoToml options) dl) as [[?|?] dc] eqn:Hcargo;
    [|discriminate].
  apply writeFile_returned in Hcargo.
  intros [= <- <-]. subst dc dl. repeat split.
  - rewrite lookup_insert_ne by (intros E; apply Hne; symmetry; exact E).
    apply lookup_insert_eq.
  - apply lookup_insert_eq.
Qed.

(** X3.  Whenever [createAnchorProgram] returns, under an absolute working
    directory and a UUID whose first eight characters hold no slash, the
    record names the workspace [<output root>/<slug>], lists exactly the
    two files it wrote, [lib.rs] first, by their paths relative to the
    workspace, [programs/<slug>/src/lib.rs] and
    [programs/<slug>/Cargo.toml], with the contents the caller supplied,
    and carries a build result; and both files were on the disk, with
    those contents, when [anchor build] was run in the workspace. *)
Theorem created_program_record options env d0 r d' :
  createAnchorProgram anchor options env d0 = (Return r, d') ->
  isAbsolute (cwd env) = true ->
  no_slash (slice0 8 (uuid env)) = true ->
  let slug := workspace_slug (toKebabCase (programName options)) env in
  let ws := outputRoot env +:+ "/" +:+ slug in
  workspaceDir r = ws /\
  workspaceDir r = path_join [outputRoot env; slug] /\
  files r = [("programs/" +:+ slug +:+ "/src/lib.rs", libRs options);
             ("programs/" +:+ slug +:+ "/Cargo.toml", cargoToml options)] /\
  build r <> None /\
  exists d1 res,
    anchor ["build"] ws d1 = (res, d') /\
    d1 !! (ws +:+ "/programs/" +:+ slug +:+ "/src/lib.rs")
      = Some (File (utf8 (libRs options))) /\
    d1 !! (ws +:+ "/programs/" +:+ slug +:+ "/Cargo.toml")
      = Some (File (utf8 (cargoToml options))).
Proof.
  intros Hrun Habs Hu slug ws.
  destruct (scaffold_paths (programName options) env Habs Hu)
    as (Hall & Hrooted & Htext & Hlib & Hcargo).
  fold slug in Hall, Hrooted, Htext, Hlib, Hcargo. fold ws in Htext.
  set (base := cwd_segments env ++ ["artifacts"; "anchor"; slug]) in *.
  assert (Hplain : plain slug = true) by apply workspace_slug_segment, Hu.
  assert (Hbase : base <> []) by (unfold base; destruct (cwd_segments env); discriminate).
  assert (Hl : all_plain ["programs"; slug; "src"; "lib.rs"] = true)
    by (unfold all_plain; cbn [forallb]; rewrite Hplain; reflexivity).
  assert (Hc : all_plain ["programs"; slug; "Cargo.toml"] = true)
    by (unfold all_plain; cbn [forallb]; rewrite Hplain; reflexivity).
  assert (Hlibtext : rooted (base ++ ["programs"; slug; "src"; "lib.rs"])
                     = ws +:+ "/programs/" +:+ slug +:+ "/src/lib.rs").
  { rewrite rooted_app by (assumption || discriminate). rewrite <- Hrooted, Htext.
    reflexivity. }
  assert (Hcargotext : rooted (base ++ ["programs"; slug; "Cargo.toml"])
                       = ws +:+ "/programs/" +:+ slug +:+ "/Cargo.toml").
  { rewrite rooted_app by (assumption || discriminate). rewrite <- Hrooted, Htext.
    reflexivity. }
  revert Hrun. unfold createAnchorProgram, bind at 1.
  destruct (scaffold anchor options env d0) as [[[[ws' slug'] fl]|e] d1] eqn:Hpre;
    [|discriminate].
  destruct (scaffold_names anchor _ _ _ _ _ _ _ Hpre) as [Hslug Hws].
  fold slug in Hslug. subst slug' ws'.
  pose proof (scaffold_written _ _ _ _ _ _ _ Hpre) as Hwr. cbv zeta in Hwr.
  rewrite Hlib, Hcargo, Hrooted in Hwr.
  rewrite !(path_relative_rooted (cwd env) base) in Hwr by assumption.
  rewrite Hlibtext, Hcargotext in Hwr.
  destruct Hwr as (Hd1 & Hd2 & Hfl).
  { intros E. apply append_inj_r, append_inj_r, append_inj_r in E. discriminate. }
  unfold bind.
  destruct (run_build anchor _ slug d1) as [[b|e] d2] eqn:Hb; [|discriminate].
  intros [= <- <-]. cbn [workspaceDir files build].
  split; [exact Htext|]. split; [reflexivity|].
  split; [rewrite Hfl; reflexivity|].
  split; [discriminate|].
  rewrite Htext in Hb.
  destruct (anchor ["build"] ws d1) as [res dd] eqn:Hbuild.
  exists d1, res. split; [|split; assumption].
  rewrite (run_build_outcome _ _ _ _ _ Hbuild) in Hb. cbv zeta in Hb.
  destruct (dd !! _) as [[?| |]|] in Hb; try discriminate;
    injection Hb as _ E; rewrite <- E; exact Hbuild.
Qed.

(** X4.  When [anchor init] is rejected, [createAnchorProgram] throws
    ["Failed to scaffold Anchor project: <message>\n<stderr>"] and does
    nothing more: the disk is as the failed command left it, no source
    file is written and [anchor build] is not run. *)
Theorem scaffold_failure options env d0 dr e d1 :
  ensure_root env d0 = (Return tt, dr) ->
  anchor ["init"; workspace_slug (toKebabCase (programName options)) env]
         (outputRoot env) dr = (Rejected e, d1) ->
  createAnchorProgram anchor options env d0 =
    (Throw (error Own ("Failed to scaffold Anchor project: " +:+ exn_message e
                       +:+ newline +:+ nullish (exn_stderr e) "")), d1).
Proof.
  intros Hroot Hinit.
  unfold createAnchorProgram, bind at 1.
  assert (Hsc : scaffold anchor options env d0 =
                (Throw (error Own ("Failed to scaffold Anchor project: " +:+ exn_message e
                                   +:+ newline +:+ nullish (exn_stderr e) "")), d1)).
  { unfold scaffold. unfold ensure_root in Hroot.
    unfold bind at 1. unfold bind at 1 in Hroot.
    destruct (existsSync (outputRoot env) d0) as [[ex|ee] dx]; [|discriminate].
    unfold bind at 1. rewrite Hroot.
    unfold bind at 1, try_catch, execFileAsync. rewrite Hinit. reflexivity. }
  rewrite Hsc. reflexivity.
Qed.

(** X5.  Once the scaffold is in place and [anchor build] has ended, with
    whatever outcome, [createAnchorProgram] returns unless the binary's
    path [<workspace>/target/deploy/<slug>.so] holds a directory or a file
    that cannot be opened, and its build result tells the outcome and the
    disk apart: [success] holds exactly when the command resolved (exit
    status 0), [errorMessage] is set exactly when it did not, and the
    binary is reported, by that path and by the base64 text of its
    content together, exactly when it is a file on the disk the command
    left.  When the file is there and cannot be opened, the read error is
    thrown instead, whatever the outcome of the command. *)
Theorem build_result_reports_disk options env d0 ws slug fl d1 res d2 :
  scaffold anchor options env d0 = (Return (ws, slug, fl), d1) ->
  anchor ["build"] ws d1 = (res, d2) ->
  let artifact := path_join [ws; "target"; "deploy"; slug +:+ ".so"] in
  (d2 !! artifact <> Some Dir -> d2 !! artifact <> Some Locked ->
   exists b,
     createAnchorProgram anchor options env d0 =
       (Return {| workspaceDir := ws; files := fl; build := Some b |}, d2) /\
     (success b = true <-> exists out err, res = Resolved out err) /\
     (errorMessage b = None <-> success b = true) /\
     (forall x, programSoBase64 b = Some x <->
                exists data, d2 !! artifact = Some (File data) /\
                             x = Base64.encode data) /\
     (forall p, programSoPath b = Some p <->
                p = artifact /\ exists data, d2 !! artifact = Some (File data)) /\
     (programSoPath b = None <-> programSoBase64 b = None)) /\
  (d2 !! artifact = Some Locked ->
   createAnchorProgram anchor options env d0 =
     (Throw (error Library ("EACCES: permission denied, open '" +:+ artifact +:+ "'")),
      d2)).
Proof.
  intros Hpre Hbuild artifact.
  assert (Hrun : createAnchorProgram anchor options env d0 =
                 (let* build := run_build anchor ws slug in
                  ret {| workspaceDir := ws; files := fl; build := Some build |}) d1)
    by (unfold createAnchorProgram, bind at 1; rewrite Hpre; reflexivity).
  rewrite Hrun. unfold bind at 1 2.
  rewrite (run_build_outcome _ _ _ _ _ Hbuild). cbv zeta. fold artifact.
  split.
  - intros Hdir Hlocked.
    destruct (d2 !! artifact) as [[data| |]|] eqn:Hso; [|congruence|congruence|];
      eexists; (split; [reflexivity|]);
      destruct res as [out err|e]; cbn.
    all: repeat split; try discriminate; try congruence; eauto.
    all: try (intros [? [? ?]]; discriminate).
    all: try (intros [? [[= <-] ->]]; reflexivity).
    all: try (intros [= <-]; eauto).
    all: try (intros [= <-]; split; eauto).
    all: try (intros [-> _]; reflexivity).
    all: try (intros [? [? _]]; discriminate).
    all: try (intros [_ [? ?]]; discriminate).
  - intros ->. reflexivity.
Qed.

(** X6.  If a directory sits where the binary is expected once
    [anchor build] has ended, [createAnchorProgram] throws the read error
    instead of returning a build result, whether the command resolved or
    was rejected. *)
Theorem directory_at_artifact_path options env d0 ws slug fl d1 res d2 :
  scaffold anchor options env d0 = (Return (ws, slug, fl), d1) ->
  anchor ["build"] ws d1 = (res, d2) ->
  d2 !! soPath ws slug = Some Dir ->
  createAnchorProgram anchor options env d0 =
    (Throw (error Library "EISDIR: illegal operation on a directory, read"), d2).
Proof.
  intros Hpre Hbuild Hdir.
  unfold createAnchorProgram, bind at 1. rewrite Hpre. unfold bind at 1.
  rewrite (run_build_outcome _ _ _ _ _ Hbuild). cbv zeta.
  unfold soPath in Hdir. rewrite Hdir. reflexivity.
Qed.

End BuildSteps.

End BuilderExtras.

(** ** More on the submission client *)
Module ClientExtras.
Import Js Wallet BlueshiftClient Signing ClientQueries ClientFacts.

Lemma drop_last_slash_app (b : string) : drop_last_slash (b +:+ "/") = b.
Proof.
  induction b as [|c b IH]; [reflexivity|].
  change (drop_last_slash (String c (b +:+ "/")) = String c b).
  destruct b as [|c' b']; [reflexivity|].
  change (String c (drop_last_slash (String c' b' +:+ "/")) = String c (String c' b')).
  rewrite IH. reflexivity.
Qed.

Section Client.

Context `{Libraries} `{Runtime}.

Variable server : Request -> lib_result Response.

(** X7.  One trailing slash of the base URL is immaterial: a client
    configured with [b/] addresses every target as [b] followed by the
    path, and so sends the same requests as a client configured with a
    [b] that has no trailing slash. *)
Theorem trailing_slash_immaterial (b : string) (w : SolanaWallet) :
  let c1 := {| baseUrl := b +:+ "/"; wallet := w |} in
  let c2 := {| baseUrl := b; wallet := w |} in
  (forall pathname, endpoint c1 pathname = b +:+ pathname) /\
  (drop_last_slash b = b ->
   (forall pathname, endpoint c1 pathname = endpoint c2 pathname) /\
   (forall slug serialized,
      submission_request c1 slug serialized = submission_request c2 slug serialized) /\
   (forall address, progress_request c1 address = progress_request c2 address)).
Proof.
  intros c1 c2.
  assert (H1 : forall pathname, endpoint c1 pathname = b +:+ pathname).
  { intros pathname. unfold endpoint, c1. cbn [baseUrl]. rewrite drop_last_slash_app.
    reflexivity. }
  split; [exact H1|]. intros Hb.
  assert (H2 : forall pathname, endpoint c1 pathname = endpoint c2 pathname).
  { intros pathname. rewrite H1. unfold endpoint, c2. cbn [baseUrl]. rewrite Hb.
    reflexivity. }
  split; [exact H2|]. split.
  - intros slug serialized. unfold submission_request, submission_target.
    rewrite H2. reflexivity.
  - intros address. unfold progress_request. rewrite H2. reflexivity.
Qed.

(** The result of [classify] fits its tag. *)
Lemma classify_sound res payload :
  let r := classify res payload in
  result_status r = status res /\
  (ok r = true ->
   response_ok res = true /\ body r = payload /\ isClientSubmissionSuccess payload = true) /\
  (ok r = false -> isClientSubmissionError (body r) = true).
Proof.
  unfold classify.
  destruct (response_ok res && isClientSubmissionSuccess payload) eqn:E; cbn.
  - apply andb_prop in E as [-> ->]. repeat split. discriminate.
  - destruct (isClientSubmissionError payload) eqn:E'; cbn.
    + split; [reflexivity|]. split; [discriminate|]. intros _. exact E'.
    + split; [reflexivity|]. split; [discriminate|]. intros _. reflexivity.
Qed.

(** X8.  Whatever [submitClientChallenge] returns fits its declared
    type: the service answered, the result carries the answer's status,
    a result with [ok: true] comes from a 2xx answer and its body has a
    boolean [success] and an array [results], and a result with
    [ok: false] has a body with string [error] and [message]. *)
Theorem submission_result_well_formed c slug txb64 tx w r w' :
  submitClientChallenge server c slug txb64 tx w = (Return r, w') ->
  exists s res,
    server (submission_request c slug s) = Ok res /\
    result_status r = status res /\
    (ok r = true ->
     response_ok res = true /\ isClientSubmissionSuccess (body r) = true) /\
    (ok r = false -> isClientSubmissionError (body r) = true).
Proof.
  rewrite submit_steps. destruct (well_formed slug); [|discriminate].
  unfold bind at 1.
  destruct (resolveTransactionBase64 c txb64 tx w) as [[s|e] w1]; [|discriminate].
  unfold bind, fetch.
  destruct (server (submission_request c slug s)) as [res|m] eqn:Hsrv; [|discriminate].
  cbn. intros [= <- _]. exists s, res.
  destruct (classify_sound res (parseJsonSafe res)) as (Hst & Hok & Herr).
  split; [exact Hsrv|]. split; [exact Hst|]. split; [|exact Herr].
  intros Ht. destruct (Hok Ht) as (H2xx & Hbody & Hshape).
  split; [exact H2xx|]. rewrite Hbody. exact Hshape.
Qed.

(** X9.  Under a well-formed slug and with a non-empty
    [transactionBase64], the call throws the network's error when the
    request fails, after that one request; and an answer announced as
    JSON whose body does not parse gives [ok: false] with the answer's
    status and the body [{ error: "Invalid JSON", message: <the parser's
    message> }]. *)
Theorem submission_network_and_parse_failures c slug (transactionBase64 : string) tx w :
  well_formed slug = true ->
  transactionBase64 <> "" ->
  let req := submission_request c slug transactionBase64 in
  let out := submitClientChallenge server c slug (Some transactionBase64) tx w in
  (forall m, server req = Fails m ->
             out = (Throw (error Library m),
                    {| transactions := transactions w; sent := sent w ++ [req] |})) /\
  (forall res m,
     server req = Ok res ->
     includes "application/json" (nullish (contentType res) "") = true ->
     JSON_parse (bodyText res) = Fails m ->
     out = (Return {| ok := false; result_status := status res;
                      body := JObject [("error", JString "Invalid JSON");
                                       ("message", JString m)] |},
            {| transactions := transactions w; sent := sent w ++ [req] |})).
Proof.
  intros Hwf Hne req out. subst req out.
  assert (Hstep : submitClientChallenge server c slug (Some transactionBase64) tx w =
            (let* response := fetch server (submission_request c slug transactionBase64) in
             ret (classify response (parseJsonSafe response))) w).
  { rewrite submit_steps, Hwf. unfold bind at 1.
    destruct transactionBase64; [congruence|reflexivity]. }
  rewrite Hstep. unfold bind, fetch. split.
  - intros m ->. reflexivity.
  - intros res m -> Hct Hparse. cbn. unfold parseJsonSafe. rewrite Hct, Hparse. cbn [negb].
    unfold classify.
    assert (Hs : isClientSubmissionSuccess (error_envelope "Invalid JSON" m) = false)
      by reflexivity.
    assert (He : isClientSubmissionError (error_envelope "Invalid JSON" m) = true)
      by reflexivity.
    rewrite Hs, He, andb_false_r. reflexivity.
Qed.


(** X11.  If signing the transaction object fails, the call, under a
    well-formed slug, throws the library's error, the world is as before
    and nothing is sent. *)
Theorem submission_sign_failure c slug t tx m w :
  well_formed slug = true ->
  transactions w !! t = Some tx ->
  transaction_sign tx [keypair (wallet c)] = Fails m ->
  submitClientChallenge server c slug None (Some t) w = (Throw (error Library m), w).
Proof.
  intros Hwf Hget Hsign.
  rewrite submit_steps, Hwf. unfold bind at 1.
  unfold resolveTransactionBase64, in_wallet, signAndEncodeTransaction,
    signVersionedTransaction, bind, deref.
  rewrite Hget, Hsign. destruct w. reflexivity.
Qed.

End Client.

Section Queries.

Context `{SigningLibraries} `{Runtime}.

Variable server : Request -> lib_result Response.
Variable multipart : list (string * form_value) -> string.

(** X12.  [listChallenges] and [getChallenge] treat every status
    outside 2xx, 404 included, as a failure: they throw an error whose
    message carries the status and the status text, after the one
    request they send. *)
Theorem challenge_queries_reject_non_2xx c w res :
  response_ok res = false ->
  (server (challenges_request c) = Ok res ->
   listChallenges server c w =
     (Throw (error Own ("Failed to list challenges: " +:+ pretty (status res)
                        +:+ " " +:+ statusText res)),
      after_request w (challenges_request c))) /\
  (forall namespace key,
     server (challenge_request c namespace key) = Ok res ->
     getChallenge server c namespace key w =
       (Throw (error Own ("Failed to fetch challenge " +:+ namespace +:+ "/" +:+ key
                          +:+ ": " +:+ pretty (status res) +:+ " " +:+ statusText res)),
        after_request w (challenge_request c namespace key))).
Proof.
  intros Hbad. split.
  - intros Hsrv. unfold listChallenges, bind, fetch. rewrite Hsrv. cbn.
    rewrite Hbad. reflexivity.
  - intros namespace key Hsrv. unfold getChallenge, bind, fetch. rewrite Hsrv. cbn.
    rewrite Hbad. reflexivity.
Qed.

(** X13.  On a 2xx answer [listChallenges] decodes the body whatever
    its content type and returns its [challenges] member without
    checking it: a body that is an object gives that member, or
    [undefined] when the object has none; a body that does not parse
    makes the call throw the parser's error, and the body [null] makes
    it throw a [TypeError]. *)
Theorem listChallenges_on_2xx c w res :
  server (challenges_request c) = Ok res ->
  response_ok res = true ->
  let w' := after_request w (challenges_request c) in
  (forall fields, JSON_parse (bodyText res) = Ok (JObject fields) ->
                  listChallenges server c w = (Return (assoc "challenges" fields), w')) /\
  (forall m, JSON_parse (bodyText res) = Fails m ->
             listChallenges server c w = (Throw (error Library m), w')) /\
  (JSON_parse (bodyText res) = Ok JNull ->
   exists e, listChallenges server c w = (Throw e, w') /\ exn_origin e = Library).
Proof.
  intros Hsrv Hok w'. subst w'.
  unfold listChallenges, bind, fetch, response_json. rewrite Hsrv. cbn. rewrite Hok. cbn.
  repeat split.
  - intros fields ->. reflexivity.
  - intros m ->. reflexivity.
  - intros ->. eexists. split; reflexivity.
Qed.

(** [submitProgramChallenge] signs the program's bytes with the
    first 32 bytes of the wallet's secret key and posts one form whose
    [program] field holds those same bytes under the name
    [<slug>-submission.so], whose [signature] field is the base58 text of
    that signature and whose [address] field is the wallet's address.
    It hands back the answer as it is, whatever the status, and throws
    only the network's error.  If signing fails nothing is sent. *)
Lemma program_submission c slug programBuffer w :
  (forall signature,
     ed25519_sign programBuffer (take 32 (keypair_secretKey (keypair (wallet c))))
       = Ok signature ->
     let req :=
       {| url := endpoint c ("/v1/challenges/program/" +:+ encodeURIComponent slug);
          method := "POST";
          headers := [];
          request_body :=
            Some (multipart
                    [("program", FormBlob programBuffer (slug +:+ "-submission.so"));
                     ("signature", FormString (bs58_encode signature));
                     ("address", FormString (address (wallet c)))]) |} in
     submitProgramChallenge server multipart c slug programBuffer w =
       (lift (server req), after_request w req)) /\
  (forall m,
     ed25519_sign programBuffer (take 32 (keypair_secretKey (keypair (wallet c))))
       = Fails m ->
     submitProgramChallenge server multipart c slug programBuffer w =
       (Throw (error Library m), w)).
Proof.
  split.
  - intros signature Hsig req.
    unfold submitProgramChallenge, bind, signBase58, sign. cbn [message_bytes].
    rewrite Hsig. reflexivity.
  - intros m Hsig.
    unfold submitProgramChallenge, bind, signBase58, sign. cbn [message_bytes].
    rewrite Hsig. reflexivity.
Qed.

End Queries.

End ClientExtras.

(** ** The tools *)
Module ToolFacts.
Import Js AnchorBuilder Wallet BlueshiftClient Signing ClientQueries Tools.

(** *** Hexadecimal input *)

Lemma hex_byte (b : byte) :
  unhex (hex_digit (Byte.to_N b / 16)) = Some (Byte.to_N b / 16)%N /\
  unhex (hex_digit (Byte.to_N b mod 16)) = Some (Byte.to_N b mod 16)%N /\
  byte_of_N (Byte.to_N b / 16 * 16 + Byte.to_N b mod 16) = b /\
  Ascii.eqb (hex_digit (Byte.to_N b mod 16)) "x" = false.
Proof. destruct b; vm_compute; repeat split. Qed.

Lemma Buffer_from_hex_to_hex bs : Buffer_from_hex (to_hex bs) = bs.
Proof.
  induction bs as [|b r IH]; [reflexivity|].
  destruct (hex_byte b) as (Hhi & Hlo & Hb & _).
  cbn [to_hex Buffer_from_hex]. rewrite Hhi, Hlo, Hb, IH. reflexivity.
Qed.

Lemma strip_0x_to_hex bs : strip_0x (to_hex bs) = to_hex bs.
Proof.
  destruct bs as [|b r]; [reflexivity|].
  destruct (hex_byte b) as (_ & _ & _ & Hx).
  cbn [to_hex]. unfold strip_0x.
  destruct (hex_digit (Byte.to_N b / 16)) as [[] [] [] [] [] [] [] []]; try reflexivity.
  destruct (hex_digit (Byte.to_N b mod 16)) as [[] [] [] [] [] [] [] []];
    try reflexivity. discriminate Hx.
Qed.

Section Tools.

Context `{SigningLibraries} `{Runtime}.

Variable JSON_pretty : json number -> string.
Variable number_of_N : N -> number.
Variable Buffer_from_base64 : string -> list byte.
Variable utf8_decode : list byte -> string.
Variable readdir : string -> disk -> lib_result (list string).
Variable anchor : list string -> string -> disk -> exec_result * disk.
Variable server : Request -> lib_result Response.
Variable multipart : list (string * form_value) -> string.

(** X14.  Hexadecimal input to [wallet_sign_bytes] and
    [wallet_encode_base58] may carry the prefix [0x] or not: for every
    byte sequence, its hexadecimal text with and without the prefix
    denotes these bytes, so the tools encode, and sign, the same
    bytes. *)
Theorem hex_input_prefix_optional (w : SolanaWallet) (bs : list byte) :
  input_bytes Buffer_from_base64 (to_hex bs) HexText = bs /\
  input_bytes Buffer_from_base64 ("0x" +:+ to_hex bs) HexText = bs /\
  EncodeBase58Tool Buffer_from_base64 w ("0x" +:+ to_hex bs) HexText = bs58_encode bs /\
  SignBytesTool Buffer_from_base64 w ("0x" +:+ to_hex bs) HexText =
    SignBytesTool Buffer_from_base64 w (to_hex bs) HexText.
Proof.
  assert (Hplain : input_bytes Buffer_from_base64 (to_hex bs) HexText = bs).
  { unfold input_bytes. rewrite strip_0x_to_hex. apply Buffer_from_hex_to_hex. }
  assert (Hprefixed : input_bytes Buffer_from_base64 ("0x" +:+ to_hex bs) HexText = bs).
  { unfold input_bytes. cbn [String.append strip_0x]. apply Buffer_from_hex_to_hex. }
  repeat split; [exact Hplain|exact Hprefixed| |].
  - unfold EncodeBase58Tool, encodeBase58. cbn [message_bytes]. rewrite Hprefixed. reflexivity.
  - unfold SignBytesTool. rewrite Hplain, Hprefixed. reflexivity.
Qed.

(** *** The file tools *)



(** X16.  The file tools never throw and stay in their lane:
    [read_file] returns a text and leaves the disk as it is;
    [write_file] returns a text and changes nothing but the path it
    was given, and changes nothing at all when it reports an error. *)
Theorem file_tools_contained (filePath content : string) (d : disk) :
  (exists text, ReadFileTool utf8_decode filePath d = (Return text, d)) /\
  (exists text d',
     WriteFileTool filePath content d = (Return text, d') /\
     (forall q, q <> filePath -> d' !! q = d !! q) /\
     (d' = d \/ d' !! filePath = Some (File (utf8 content)))).
Proof.
  split.
  - unfold ReadFileTool, try_catch, bind, readFile.
    destruct (d !! filePath) as [[data| |]|]; eexists; reflexivity.
  - unfold WriteFileTool, try_catch, bind, writeFile.
    destruct (d !! dirname filePath) as [[pdata| |]|];
      destruct (d !! filePath) as [[data| |]|];
      do 2 eexists; (split; [reflexivity|]); cbn.
    all: split; [intros q Hq; rewrite ?lookup_insert_ne by congruence; reflexivity|].
    all: try (left; reflexivity).
    all: right; apply lookup_insert_eq.
Qed.

(** *** [run_anchor_build] *)

(** X17.  [run_anchor_build] never throws and leaves the disk as
    [anchor build] left it.  After a rejected build it reports
    [success: false] with the captured output and the error's message,
    and never looks for a binary.  After a build that resolved it reports
    [success: true] with the output and, under [soPath], the first
    listed name ending in [.so] joined to
    [path.join(workspaceDir, "target", "deploy")], or the message that
    none was found; and if listing that directory fails it reports
    [success: false] with the listing's error and empty output. *)
Theorem run_anchor_build_outcomes (workspaceDir : string) (d : disk) res d' :
  anchor ["build"] workspaceDir d = (res, d') ->
  let deploy := path_join [workspaceDir; "target"; "deploy"] in
  let run := RunAnchorBuildTool JSON_pretty readdir anchor workspaceDir d in
  let not_found out err :=
    JObject [("success", JBool true); ("stdout", JString out); ("stderr", JString err);
             ("message", JString "Build completed but .so file not found")] in
  (exists text, run = (Return text, d')) /\
  (forall e, res = Rejected e ->
     run = (Return (JSON_pretty
                      (JObject [("success", JBool false);
                                ("stdout", JString (nullish (exn_stdout e) ""));
                                ("stderr", JString (nullish (exn_stderr e) ""));
                                ("error", JString (exn_message e))])),
            d')) /\
  (forall out err, res = Resolved out err ->
     (d' !! deploy = None -> run = (Return (JSON_pretty (not_found out err)), d')) /\
     (forall names, d' !! deploy <> None -> readdir deploy d' = Ok names ->
        run = (Return (JSON_pretty
                         match List.filter (endsWith ".so") names with
                         | first :: _ =>
                             JObject [("success", JBool true);
                                      ("stdout", JString out);
                                      ("stderr", JString err);
                                      ("soPath", JString (path_join [deploy; first]))]
                         | [] => not_found out err
                         end), d')) /\
     (forall m, d' !! deploy <> None -> readdir deploy d' = Fails m ->
        run = (Return (JSON_pretty
                         (JObject [("success", JBool false);
                                   ("stdout", JString "");
                                   ("stderr", JString "");
                                   ("error", JString m)])), d'))).
Proof.
  intros Hbuild deploy run not_found.
  assert (Hrej : forall e, res = Rejected e ->
     run = (Return (JSON_pretty (build_report false (nullish (exn_stdout e) "")
                                   (nullish (exn_stderr e) "") "error" (exn_message e))),
            d')).
  { intros e ->. subst run.
    unfold RunAnchorBuildTool, try_catch, bind at 1, execFileAsync. rewrite Hbuild.
    reflexivity. }
  assert (Hstep : forall out err, res = Resolved out err ->
     run = match d' !! deploy with
           | None => (Return (JSON_pretty (not_found out err)), d')
           | Some _ =>
               match readdir deploy d' with
               | Ok names =>
                   (Return (JSON_pretty
                      match List.filter (endsWith ".so") names with
                      | first :: _ =>
                          build_report true out err "soPath" (path_join [deploy; first])
                      | [] => not_found out err
                      end), d')
               | Fails m => (Return (JSON_pretty (build_report false "" "" "error" m)), d')
               end
           end).
  { intros out err ->. subst run.
    unfold RunAnchorBuildTool, try_catch, bind, execFileAsync, existsSync.
    rewrite Hbuild. fold deploy. clearbody deploy.
    destruct (d' !! deploy) as [n|]; cbn; [|reflexivity].
    destruct (readdir deploy d') as [names|m]; cbn; [|reflexivity].
    destruct (List.filter (endsWith ".so") names); reflexivity. }
  split; [|split; [exact Hrej|]].
  - destruct res as [out err|e]; [|eexists; apply Hrej; reflexivity].
    rewrite (Hstep out err eq_refl).
    destruct (d' !! deploy); [destruct (readdir deploy d')|]; eexists; reflexivity.
  - intros out err Hres. rewrite (Hstep out err Hres). repeat split.
    + intros ->. reflexivity.
    + intros names Hex ->. destruct (d' !! deploy); [reflexivity|congruence].
    + intros m Hex ->. destruct (d' !! deploy); [reflexivity|congruence].
Qed.

(** *** [blueshift_attempt_program] *)

(** X18.  [blueshift_attempt_program] never throws.  When the program
    file cannot be read it reports the read error and sends nothing.
    When the file is read and signed it posts the bytes once and reports
    the answer's status, [ok] flag and body text, whatever the status;
    a failure of the request itself, or of signing, is reported under
    the same ["Failed to read program file: "] label. *)
Theorem attempt_program_outcomes (c : Client) (d : disk) (slug programPath : string)
    (w : World) :
  let run := AttemptProgramTool JSON_pretty number_of_N server multipart c d slug programPath w in
  (exists text w', run = (Return text, w')) /\
  (forall e, fst (readFile programPath d) = Throw e ->
     run = (Return (JSON_pretty (failure_report (exn_message e))), w)) /\
  (forall data signature,
     d !! programPath = Some (File data) ->
     ed25519_sign data (take 32 (keypair_secretKey (keypair (wallet c)))) = Ok signature ->
     let req := program_request multipart c slug data (bs58_encode signature) in
     (forall res, server req = Ok res ->
        run = (Return (JSON_pretty
                         (JObject [("status", JNumber (number_of_N (status res)));
                                   ("ok", JBool (response_ok res));
                                   ("body", JString (bodyText res))])),
               after_request w req)) /\
     (forall m, server req = Fails m ->
        run = (Return (JSON_pretty (failure_report m)), after_request w req))) /\
  (forall data m,
     d !! programPath = Some (File data) ->
     ed25519_sign data (take 32 (keypair_secretKey (keypair (wallet c)))) = Fails m ->
     run = (Return (JSON_pretty (failure_report m)), w)).
Proof.
  intros run. subst run.
  unfold AttemptProgramTool, try_catch, bind at 1.
  split; [|split; [|split]].
  - destruct (fst (readFile programPath d)) as [data|e]; [|do 2 eexists; reflexivity].
    unfold submitProgramChallenge, bind, fetch.
    destruct (signBase58 (wallet c) (Bytes data)) as [sig|m]; cbn;
      [|do 2 eexists; reflexivity].
    destruct (server _); cbn; do 2 eexists; reflexivity.
  - intros e ->. reflexivity.
  - intros data signature Hfile Hsig.
    assert (Hread : fst (readFile programPath d) = Return data)
      by (unfold readFile; rewrite Hfile; reflexivity).
    rewrite Hread.
    unfold submitProgramChallenge, bind, fetch, signBase58, sign. cbn [message_bytes].
    rewrite Hsig. cbn. split.
    + intros res ->. reflexivity.
    + intros m ->. reflexivity.
  - intros data m Hfile Hsig.
    assert (Hread : fst (readFile programPath d) = Return data)
      by (unfold readFile; rewrite Hfile; reflexivity).
    rewrite Hread.
    unfold submitProgramChallenge, bind, fetch, signBase58, sign. cbn [message_bytes].
    rewrite Hsig. reflexivity.
Qed.

End Tools.

End ToolFacts.

(** ** The endpoints of the configuration *)
Module ConfigFacts.
Import Js AnchorBuilder BlueshiftClient Config PathFacts ClientExtras.

Lemma length_app (a b : string) :
  String.length (a +:+ b) = String.length a + String.length b.
Proof. induction a as [|c a IH]; [reflexivity|]. cbn. rewrite <- IH. reflexivity. Qed.

Lemma not_bare_suffix c b (suffix other : string) :
  String.length other <= S (String.length suffix) ->
  (b = EmptyString -> String c suffix <> other) ->
  String c (b +:+ suffix) <> other.
Proof.
  intros Hlen Hempty E. destruct b as [|c' b']; [exact (Hempty eq_refl E)|].
  apply (f_equal String.length) in E.
  change (S (String.length (String c' b' +:+ suffix)) = String.length other) in E.
  rewrite length_app in E.
  change (String.length (String c' b')) with (S (String.length b')) in E. lia.
Qed.

Lemma strip_mcp_suffix (b : string) :
  strip_mcp (b +:+ "/mcp") = b /\ strip_mcp (b +:+ "/mcp/") = b.
Proof.
  induction b as [|c b [IH1 IH2]]; [split; reflexivity|].
  split.
  - change (strip_mcp (String c (b +:+ "/mcp")) = String c b).
    cbn [strip_mcp].
    rewrite (proj2 (String.eqb_neq _ "/mcp")), (proj2 (String.eqb_neq _ "/mcp/")).
    + cbn [orb]. rewrite IH1. reflexivity.
    + apply not_bare_suffix; [cbn; lia|]. intros _. discriminate.
    + apply not_bare_suffix; [cbn; lia|]. intros _. discriminate.
  - change (strip_mcp (String c (b +:+ "/mcp/")) = String c b).
    cbn [strip_mcp].
    rewrite (proj2 (String.eqb_neq _ "/mcp")), (proj2 (String.eqb_neq _ "/mcp/")).
    + cbn [orb]. rewrite IH2. reflexivity.
    + apply not_bare_suffix; [cbn; lia|]. intros _. discriminate.
    + apply not_bare_suffix; [cbn; lia|]. intros _. discriminate.
Qed.

Lemma drop_last_slash_mcp (x : string) : drop_last_slash (x +:+ "/mcp") = x +:+ "/mcp".
Proof.
  induction x as [|c x IH]; [reflexivity|].
  change (drop_last_slash (String c (x +:+ "/mcp")) = String c (x +:+ "/mcp")).
  destruct x as [|c' x']; [reflexivity|].
  change (String c (drop_last_slash (String c' x' +:+ "/mcp")) =
          String c (String c' x' +:+ "/mcp")).
  rewrite IH. reflexivity.
Qed.

Section Validated.

Variable number : Type.
Variable parseFloat : string -> number.
Variable safeParse : RawConfig number -> parse_result number.

(** The schema declares both endpoints as [z.string().url()]: a check
    and no transformation, so a validation that succeeds hands them back
    as they came. *)
Hypothesis urls_kept :
  forall raw data,
    safeParse raw = ParseSuccess number data ->
    config_blueshiftApiUrl number data = raw_blueshiftApiUrl number raw /\
    config_blueshiftMcpUrl number data = raw_blueshiftMcpUrl number raw.

(** [loadConfig] returns what the validation accepted and throws on what
    it rejected. *)
Lemma loadConfig_outcome env :
  loadConfig number parseFloat safeParse env =
  match safeParse (raw_config number parseFloat env) with
  | ParseSuccess _ data => Return data
  | ParseFailure _ issues =>
      Throw (error Own ("Invalid configuration:" +:+ newline
                        +:+ String.concat newline (map issue_line issues)))
  end.
Proof. reflexivity. Qed.

Lemma loadConfig_returned env cfg :
  loadConfig number parseFloat safeParse env = Return cfg ->
  safeParse (raw_config number parseFloat env) = ParseSuccess number cfg /\
  config_blueshiftApiUrl number cfg = blueshiftApiUrl env /\
  config_blueshiftMcpUrl number cfg = blueshiftMcpUrl env.
Proof.
  rewrite loadConfig_outcome.
  destruct (safeParse (raw_config number parseFloat env)) as [data|issues] eqn:E;
    [|discriminate].
  intros [= ->]. split; [reflexivity|]. exact (urls_kept _ _ E).
Qed.

(** X19.  [loadConfig] returns exactly what the schema's validation
    accepted and throws ["Invalid configuration:"] followed by one line
    per issue when the validation fails.  When it returns, [API_URL]
    has decided the API endpoint before every other variable, with one
    trailing slash removed.  It moves the MCP endpoint along, to
    [<api>/mcp], exactly as long as [BLUESHIFT_AI_HACKATHON_MCP_URL] is
    not set; when that variable is set, the MCP endpoint is its value
    with one trailing slash removed, whatever [API_URL] says.  With none
    of the three variables set the endpoints are the default and the
    default followed by [/mcp]. *)
Theorem api_url_override (env : ProcessEnv) :
  (forall cfg, loadConfig number parseFloat safeParse env = Return cfg <->
               safeParse (raw_config number parseFloat env) = ParseSuccess number cfg) /\
  (forall issues,
     safeParse (raw_config number parseFloat env) = ParseFailure number issues ->
     loadConfig number parseFloat safeParse env =
       Throw (error Own ("Invalid configuration:" +:+ newline
                         +:+ String.concat newline (map issue_line issues)))) /\
  (forall cfg, loadConfig number parseFloat safeParse env = Return cfg ->
     (forall a, API_URL env = Some a ->
        config_blueshiftApiUrl number cfg = drop_last_slash a /\
        (BLUESHIFT_AI_HACKATHON_MCP_URL env = None ->
         config_blueshiftMcpUrl number cfg = drop_last_slash a +:+ "/mcp") /\
        (forall m, BLUESHIFT_AI_HACKATHON_MCP_URL env = Some m ->
                   config_blueshiftMcpUrl number cfg = drop_last_slash m)) /\
     (API_URL env = None -> BLUESHIFT_BASE_URL env = None ->
      BLUESHIFT_AI_HACKATHON_MCP_URL env = None ->
      config_blueshiftApiUrl number cfg = "https://ai-api.blueshift.gg" /\
      config_blueshiftMcpUrl number cfg = "https://ai-api.blueshift.gg/mcp")).
Proof.
  split; [|split].
  - intros cfg. rewrite loadConfig_outcome.
    destruct (safeParse (raw_config number parseFloat env)); split; congruence.
  - intros issues E. rewrite loadConfig_outcome, E. reflexivity.
  - intros cfg Hcfg. destruct (loadConfig_returned _ _ Hcfg) as (_ & -> & ->). split.
    + intros a Ha. unfold blueshiftMcpUrl, blueshiftApiUrl, rawApiUrl. rewrite Ha.
      cbn [or_else default]. split; [reflexivity|]. split.
      * intros ->. cbn [default]. apply drop_last_slash_mcp.
      * intros m ->. reflexivity.
    + intros Ha Hb Hm. unfold blueshiftMcpUrl, blueshiftApiUrl, rawApiUrl.
      rewrite Ha, Hb, Hm. split; reflexivity.
Qed.

(** X20.  With [API_URL] and [BLUESHIFT_BASE_URL] unset and
    [BLUESHIFT_AI_HACKATHON_MCP_URL] set to [b/mcp] or to [b/mcp/], a
    configuration that [loadConfig] returns has the API endpoint [b]
    with one trailing slash removed and the MCP endpoint [b/mcp]; so for
    a [b] without trailing slash the MCP endpoint is the API endpoint
    followed by [/mcp].  Set to the empty string, the variable leaves the
    API endpoint handed to the schema at the default and makes the MCP
    endpoint handed to it empty, and once the schema rejects that with
    the issue [Invalid url] at [blueshiftMcpUrl], [loadConfig] throws
    ["Invalid configuration:\nblueshiftMcpUrl: Invalid url"]. *)
Theorem endpoints_from_mcp_url (env : ProcessEnv) (b : string) :
  API_URL env = None ->
  BLUESHIFT_BASE_URL env = None ->
  let raw := raw_config number parseFloat env in
  (forall m cfg,
     BLUESHIFT_AI_HACKATHON_MCP_URL env = Some m ->
     m = b +:+ "/mcp" \/ m = b +:+ "/mcp/" ->
     loadConfig number parseFloat safeParse env = Return cfg ->
     config_blueshiftApiUrl number cfg = drop_last_slash b /\
     config_blueshiftMcpUrl number cfg = b +:+ "/mcp" /\
     (drop_last_slash b = b ->
      config_blueshiftMcpUrl number cfg = config_blueshiftApiUrl number cfg +:+ "/mcp")) /\
  (BLUESHIFT_AI_HACKATHON_MCP_URL env = Some "" ->
   raw_blueshiftApiUrl number raw = "https://ai-api.blueshift.gg" /\
   raw_blueshiftMcpUrl number raw = "" /\
   (safeParse raw = ParseFailure number [ {| issue_path := ["blueshiftMcpUrl"];
                                             issue_message := "Invalid url" |} ] ->
    loadConfig number parseFloat safeParse env =
      Throw (error Own ("Invalid configuration:" +:+ newline
                        +:+ "blueshiftMcpUrl: Invalid url")))).
Proof.
  intros Ha Hb raw. split.
  - intros m cfg Hmcp Hm Hcfg.
    destruct (loadConfig_returned _ _ Hcfg) as (_ & -> & ->).
    assert (Hraw : rawApiUrl env = b).
    { unfold rawApiUrl. rewrite Ha, Hb, Hmcp. cbn [or_else].
      destruct (strip_mcp_suffix b) as [H1 H2].
      destruct Hm as [-> | ->].
      - destruct (b +:+ "/mcp") as [|x r] eqn:E; [destruct b; discriminate|].
        cbn. exact H1.
      - destruct (b +:+ "/mcp/") as [|x r] eqn:E; [destruct b; discriminate|].
        cbn. exact H2. }
    assert (Hurl : blueshiftMcpUrl env = b +:+ "/mcp").
    { unfold blueshiftMcpUrl. rewrite Hmcp. cbn [default].
      destruct Hm as [-> | ->]; [apply drop_last_slash_mcp|].
      change (b +:+ "/mcp/") with (b +:+ ("/mcp" +:+ "/")).
      rewrite <- append_assoc. apply drop_last_slash_app. }
    unfold blueshiftApiUrl. rewrite Hraw. repeat split; [exact Hurl|].
    intros ->. exact Hurl.
  - intros Hmcp.
    assert (Hapi : raw_blueshiftApiUrl number raw = "https://ai-api.blueshift.gg").
    { unfold raw, raw_config, blueshiftApiUrl, rawApiUrl. cbn [raw_blueshiftApiUrl].
      rewrite Ha, Hb, Hmcp. reflexivity. }
    assert (Hurl : raw_blueshiftMcpUrl number raw = "").
    { unfold raw, raw_config, blueshiftMcpUrl. cbn [raw_blueshiftMcpUrl].
      rewrite Hmcp. reflexivity. }
    split; [exact Hapi|]. split; [exact Hurl|].
    intros E. rewrite loadConfig_outcome. fold raw. rewrite E. reflexivity.
Qed.

End Validated.

End ConfigFacts.

(** ** The further properties at work *)
Module ExtraWitnesses.
Import Js AnchorBuilder BuilderAux Wallet BlueshiftClient Signing ClientQueries Tools Config.
Import SampleLibraries SampleRuntime ClientSamples ExtraSamples.
Import AnchorBuilderFacts BuilderExtras ClientExtras ToolFacts ConfigFacts.

Lemma workspace_slug_safe_witness :
  all_chars is_dir_char (workspace_slug (toKebabCase "My Program!!") sample_env) = true.
Proof.
  apply (proj2 (proj2 (workspace_slug_safe "My Program!!" sample_env))). reflexivity.
Defined.

Lemma created_program_record_witness :
  workspaceDir sample_result = "/home/agent/artifacts/anchor/my-program-loyw3v28-3f2a9c1e" /\
  files sample_result =
    [("programs/my-program-loyw3v28-3f2a9c1e/src/lib.rs", "use anchor_lang::prelude::*;");
     ("programs/my-program-loyw3v28-3f2a9c1e/Cargo.toml", "[package]")] /\
  exists d1 : disk,
    d1 !! "/home/agent/artifacts/anchor/my-program-loyw3v28-3f2a9c1e/programs/my-program-loyw3v28-3f2a9c1e/src/lib.rs"
      = Some (File (utf8 "use anchor_lang::prelude::*;")) /\
    d1 !! "/home/agent/artifacts/anchor/my-program-loyw3v28-3f2a9c1e/programs/my-program-loyw3v28-3f2a9c1e/Cargo.toml"
      = Some (File (utf8 "[package]")).
Proof.
  assert (Hrun : createAnchorProgram failing_anchor sample_options sample_env ∅ =
                 (Return sample_result, sample_built)) by reflexivity.
  destruct (created_program_record failing_anchor _ _ _ _ _ Hrun eq_refl eq_refl)
    as (Hws & _ & Hfiles & _ & d1 & res & _ & Hlib & Hcargo).
  split; [exact Hws|]. split; [exact Hfiles|].
  exists d1. split; [exact Hlib|exact Hcargo].
Defined.

Lemma scaffold_failure_witness :
  createAnchorProgram missing_anchor sample_options sample_env ∅ =
    (Throw (error Own ("Failed to scaffold Anchor project: spawn anchor ENOENT" +:+ newline)),
     snd (ensure_root sample_env ∅)).
Proof.
  apply (scaffold_failure missing_anchor sample_options sample_env ∅
           (snd (ensure_root sample_env ∅))
           (Exn Library "spawn anchor ENOENT" None None)); reflexivity.
Defined.

Lemma build_result_reports_disk_witness :
  (exists b,
     createAnchorProgram failing_anchor sample_options sample_env ∅ =
       (Return {| workspaceDir := sample_ws; files := sample_files; build := Some b |},
        sample_built) /\
     success b = false /\
     programSoPath b = Some sample_artifact /\
     programSoBase64 b = Some "f0VMRv8=") /\
  fst (createAnchorProgram locked_anchor sample_options sample_env ∅) =
    Throw (error Library
             "EACCES: permission denied, open '/home/agent/artifacts/anchor/my-program-loyw3v28-3f2a9c1e/target/deploy/my-program-loyw3v28-3f2a9c1e.so'").
Proof.
  split.
  - assert (H1 : scaffold failing_anchor sample_options sample_env ∅
                 = (Return (sample_ws, sample_slug, sample_files), sample_scaffolded))
      by reflexivity.
    assert (H2 : failing_anchor ["build"] sample_ws sample_scaffolded
                 = (build_failure, sample_built))
      by reflexivity.
    assert (H3 : sample_built
                   !! path_join [sample_ws; "target"; "deploy"; sample_slug +:+ ".so"]
                 = Some (File sample_so))
      by reflexivity.
    destruct (build_result_reports_disk failing_anchor sample_options sample_env ∅
                sample_ws sample_slug sample_files sample_scaffolded build_failure
                sample_built H1 H2) as [Hreturns _].
    destruct Hreturns as (b & Hrun & Hsucc & _ & H64 & Hpath & _);
      [rewrite H3; discriminate|rewrite H3; discriminate|].
    exists b. split; [exact Hrun|]. split; [|split].
    + destruct (success b); [|reflexivity].
      destruct (proj1 Hsucc eq_refl) as (out & err & E). discriminate E.
    + apply Hpath. split; [reflexivity|]. exists sample_so. exact H3.
    + apply H64. exists sample_so. split; [exact H3|reflexivity].
  - assert (H1 : scaffold locked_anchor sample_options sample_env ∅
                 = (Return (sample_ws, sample_slug, sample_files), sample_scaffolded))
      by reflexivity.
    destruct (build_result_reports_disk locked_anchor sample_options sample_env ∅
                sample_ws sample_slug sample_files sample_scaffolded build_failure
                (<[sample_artifact := Locked]> sample_scaffolded) H1 eq_refl) as [_ Hlocked].
    rewrite Hlocked; reflexivity.
Defined.

Lemma directory_at_artifact_path_witness :
  fst (createAnchorProgram (directory_anchor (Resolved "" "")) sample_options sample_env ∅)
  = Throw (error Library "EISDIR: illegal operation on a directory, read").
Proof.
  rewrite (directory_at_artifact_path (directory_anchor (Resolved "" ""))
             sample_options sample_env ∅ sample_ws sample_slug sample_files
             (snd (scaffold (directory_anchor (Resolved "" "")) sample_options sample_env ∅))
             (Resolved "" "")
             (snd (directory_anchor (Resolved "" "") ["build"] sample_ws
                     (snd (scaffold (directory_anchor (Resolved "" "")) sample_options
                             sample_env ∅)))));
    reflexivity.
Defined.

#[local] Existing Instance libs.
#[local] Existing Instance runtime.
#[local] Existing Instance signing.

Lemma trailing_slash_immaterial_witness :
  submission_request client flash_loan "AQID" =
  submission_request {| baseUrl := "https://ai-api.blueshift.gg"; wallet := sample_wallet |}
    flash_loan "AQID".
Proof.
  destruct (@trailing_slash_immaterial libs runtime "https://ai-api.blueshift.gg" sample_wallet)
    as (_ & Hsame).
  destruct (Hsame eq_refl) as (_ & Hsub & _).
  apply Hsub.
Defined.

Lemma submission_result_well_formed_witness :
  exists res,
    status res = 200%N /\ response_ok res = true /\
    @isClientSubmissionSuccess runtime (run_result true) = true.
Proof.
  destruct (@submission_result_well_formed libs runtime
              (answering (json_response 200 "OK" (run_result true)))
              client flash_loan (Some "AQID") None start
              (envelope true 200 (run_result true))
              (after_request start sample_request) eq_refl)
    as (s & res & _ & Hst & Hok & _).
  exists res. destruct (Hok eq_refl) as [H2xx Hshape].
  split; [symmetry; exact Hst|]. split; [exact H2xx|exact Hshape].
Defined.

Lemma submission_network_and_parse_failures_witness :
  submitClientChallenge (fun _ => Fails "fetch failed") client flash_loan (Some "AQID") None start
  = (Throw (error Library "fetch failed"),
     {| transactions := transactions start; sent := [sample_request] |}) /\
  fst (submitClientChallenge (answering garbled) client flash_loan (Some "AQID") None start)
  = Return {| ok := false; result_status := 200;
              body := JObject [("error", JString "Invalid JSON");
                               ("message",
                                JString "Unexpected token in JSON at position 0")] |}.
Proof.
  assert (Hne : "AQID" <> "") by discriminate.
  split.
  - destruct (@submission_network_and_parse_failures libs runtime
                (fun _ => Fails "fetch failed")
                client flash_loan "AQID" None start eq_refl Hne) as (Hnet & _).
    apply Hnet. reflexivity.
  - destruct (@submission_network_and_parse_failures libs runtime (answering garbled)
                client flash_loan "AQID" None start eq_refl Hne) as (_ & Hbad).
    rewrite (Hbad garbled "Unexpected token in JSON at position 0"); reflexivity.
Defined.


Lemma submission_sign_failure_witness :
  @submitClientChallenge refusing_libs runtime (answering (html_response 200)) refusing_client
    flash_loan None (Some 0%nat) refusing_start
  = (Throw (error Library "Cannot sign with non signer key"), refusing_start).
Proof.
  apply (@submission_sign_failure refusing_libs runtime (answering (html_response 200))
           refusing_client flash_loan 0%nat unsigned); reflexivity.
Defined.

Lemma challenge_queries_reject_non_2xx_witness :
  listChallenges (answering (json_response 404 "Not Found" not_found)) client start
  = (Throw (error Own "Failed to list challenges: 404 Not Found"),
     after_request start (challenges_request client)) /\
  getChallenge (answering (json_response 404 "Not Found" not_found)) client "anchor" "vault" start
  = (Throw (error Own "Failed to fetch challenge anchor/vault: 404 Not Found"),
     after_request start (challenge_request client "anchor" "vault")).
Proof.
  destruct (@challenge_queries_reject_non_2xx libs runtime
              (answering (json_response 404 "Not Found" not_found)) client start
              (json_response 404 "Not Found" not_found) eq_refl) as (Hlist & Hget).
  split; [apply Hlist; reflexivity|apply Hget; reflexivity].
Defined.

Lemma listChallenges_on_2xx_witness :
  listChallenges (answering (json_response 200 "OK" progress)) client start
  = (Return (Some (JArray [])), after_request start (challenges_request client)) /\
  exists e,
    listChallenges (answering (json_response 200 "OK" JNull)) client start
    = (Throw e, after_request start (challenges_request client)) /\
    exn_origin e = Library.
Proof.
  split.
  - destruct (@listChallenges_on_2xx libs runtime (answering (json_response 200 "OK" progress))
                client start (json_response 200 "OK" progress) eq_refl eq_refl)
      as (Hobj & _ & _).
    exact (Hobj _ eq_refl).
  - destruct (@listChallenges_on_2xx libs runtime (answering (json_response 200 "OK" JNull))
                client start (json_response 200 "OK" JNull) eq_refl eq_refl)
      as (_ & _ & Hnull).
    exact (Hnull eq_refl).
Defined.




Lemma run_anchor_build_outcomes_witness :
  RunAnchorBuildTool print (listing (Ok ["vault-keypair.json"; "vault.so"]))
    (idle_anchor (Resolved "Finished" "")) "/ws/" deploy_disk
  = (Return (print (JObject [("success", JBool true);
                             ("stdout", JString "Finished");
                             ("stderr", JString "");
                             ("soPath", JString "/ws/target/deploy/vault.so")])),
     deploy_disk) /\
  RunAnchorBuildTool print (listing (Fails "EACCES: permission denied, scandir"))
    (idle_anchor (Resolved "Finished" "")) "/ws/" deploy_disk
  = (Return (print (JObject [("success", JBool false);
                             ("stdout", JString "");
                             ("stderr", JString "");
                             ("error", JString "EACCES: permission denied, scandir")])),
     deploy_disk).
Proof.
  assert (Hdeploy : deploy_disk !! path_join ["/ws/"; "target"; "deploy"] <> None).
  { assert (E : deploy_disk !! path_join ["/ws/"; "target"; "deploy"] = Some Dir)
      by reflexivity.
    rewrite E. discriminate. }
  split.
  - destruct (@run_anchor_build_outcomes runtime print
                (listing (Ok ["vault-keypair.json"; "vault.so"]))
                (idle_anchor (Resolved "Finished" "")) "/ws/" deploy_disk
                (Resolved "Finished" "") deploy_disk eq_refl) as (_ & _ & Hres).
    destruct (Hres _ _ eq_refl) as (_ & Hlist & _).
    exact (Hlist _ Hdeploy eq_refl).
  - destruct (@run_anchor_build_outcomes runtime print
                (listing (Fails "EACCES: permission denied, scandir"))
                (idle_anchor (Resolved "Finished" "")) "/ws/" deploy_disk
                (Resolved "Finished" "") deploy_disk eq_refl) as (_ & _ & Hres).
    destruct (Hres _ _ eq_refl) as (_ & _ & Hfail).
    exact (Hfail _ Hdeploy eq_refl).
Defined.

Lemma attempt_program_outcomes_witness :
  AttemptProgramTool print Z.of_N (answering (json_response 200 "OK" (run_result true)))
    print_form client program_disk "vault" "/ws/target/deploy/vault.so" start
  = (Return (print (JObject [("status", JNumber 200%Z); ("ok", JBool true);
                             ("body", JString (print (run_result true)))])),
     after_request start
       (program_request print_form client "vault" sample_so
          "11111111111111111111111111111111FMpFBZx")) /\
  AttemptProgramTool print Z.of_N (answering (json_response 200 "OK" (run_result true)))
    print_form client program_disk "vault" "/missing.so" start
  = (Return (print (JObject [("success", JBool false);
                             ("error",
                              JString "Failed to read program file: ENOENT: no such file or directory, open '/missing.so'")])),
     start).
Proof.
  destruct (@attempt_program_outcomes libs signing runtime print Z.of_N
              (answering (json_response 200 "OK" (run_result true)))
              print_form client program_disk "vault" "/ws/target/deploy/vault.so" start)
    as (_ & _ & Hsent & _).
  destruct (@attempt_program_outcomes libs signing runtime print Z.of_N
              (answering (json_response 200 "OK" (run_result true)))
              print_form client program_disk "vault" "/missing.so" start)
    as (_ & Hmissing & _).
  split.
  - destruct (Hsent sample_so (take 32 valid_secret ++ sample_so) eq_refl eq_refl)
      as (Hok & _).
    exact (Hok _ eq_refl).
  - exact (Hmissing _ eq_refl).
Defined.

(** The sample validation hands both endpoints back as they came. *)
Lemma sample_urls_kept raw data :
  sample_safeParse raw = ParseSuccess string data ->
  config_blueshiftApiUrl string data = raw_blueshiftApiUrl string raw /\
  config_blueshiftMcpUrl string data = raw_blueshiftMcpUrl string raw.
Proof.
  unfold sample_safeParse.
  destruct (sample_issues raw); [|discriminate].
  destruct (raw_openAiApiKey string raw); [|discriminate].
  destruct (raw_solanaPrivateKey string raw); [|discriminate].
  intros [= <-]. split; reflexivity.
Qed.

Lemma api_url_override_witness :
  loadConfig string sample_parseFloat sample_safeParse
    (sample_process (Some "http://localhost:8787/") None None)
  = Return (sample_config "http://localhost:8787" "http://localhost:8787/mcp") /\
  loadConfig string sample_parseFloat sample_safeParse
    (sample_process (Some "localhost:8787") None (Some "http://localhost:8787/mcp"))
  = Throw (error Own ("Invalid configuration:" +:+ newline
                      +:+ "blueshiftApiUrl: Invalid url")).
Proof.
  split.
  - apply (proj1 (api_url_override string sample_parseFloat sample_safeParse sample_urls_kept
                    (sample_process (Some "http://localhost:8787/") None None))).
    reflexivity.
  - apply (proj1 (proj2 (api_url_override string sample_parseFloat sample_safeParse
                           sample_urls_kept
                           (sample_process (Some "localhost:8787") None
                              (Some "http://localhost:8787/mcp"))))
             [at_property "blueshiftApiUrl" "Invalid url"]).
    reflexivity.
Defined.

Lemma endpoints_from_mcp_url_witness :
  (exists cfg,
     loadConfig string sample_parseFloat sample_safeParse
       (sample_process None None (Some "https://staging.blueshift.gg/mcp/")) = Return cfg /\
     config_blueshiftApiUrl string cfg = "https://staging.blueshift.gg" /\
     config_blueshiftMcpUrl string cfg = "https://staging.blueshift.gg/mcp") /\
  loadConfig string sample_parseFloat sample_safeParse (sample_process None None (Some ""))
  = Throw (error Own ("Invalid configuration:" +:+ newline
                      +:+ "blueshiftMcpUrl: Invalid url")).
Proof.
  split.
  - assert (Hcfg : loadConfig string sample_parseFloat sample_safeParse
                     (sample_process None None (Some "https://staging.blueshift.gg/mcp/"))
                   = Return (sample_config "https://staging.blueshift.gg"
                               "https://staging.blueshift.gg/mcp")) by reflexivity.
    destruct (endpoints_from_mcp_url string sample_parseFloat sample_safeParse
                sample_urls_kept
                (sample_process None None (Some "https://staging.blueshift.gg/mcp/"))
                "https://staging.blueshift.gg" eq_refl eq_refl) as (Hm & _).
    destruct (Hm "https://staging.blueshift.gg/mcp/" _ eq_refl (or_intror eq_refl) Hcfg)
      as (Hapi & Hmcp & _).
    eexists. split; [exact Hcfg|]. split; [exact Hapi|exact Hmcp].
  - destruct (endpoints_from_mcp_url string sample_parseFloat sample_safeParse
                sample_urls_kept (sample_process None None (Some ""))
                "https://staging.blueshift.gg" eq_refl eq_refl) as (_ & Hempty).
    destruct (Hempty eq_refl) as (_ & _ & Hthrow).
    apply Hthrow. reflexivity.
Defined.

End ExtraWitnesses.
